(** * go-fcm: the batching subsystem

    A shallow embedding of [batch.go] (multicast fan-out, batch request
    assembly, the multipart envelope, decoding of the multipart response)
    with the parts of [client.go] it relies on, and the properties of the
    specification that concern them; then the single-message path and the
    constructor of [client.go], the options of [option.go] and the function
    of the command line tool that sends, with further properties read off
    the code.

    Layout. First the Go values the code handles (errors, results, pointers,
    the call log), then the functions of the Go standard library the package
    calls, one module per Go package, then the package itself, then the
    properties.

    The standard library is modelled on the inputs this package produces and
    consumes: byte strings held in memory, CRLF or LF line ends, absolute
    URLs whose path needs no escaping, HTTP messages without chunked transfer
    encoding, JSON texts. Each function says in its comment what it leaves
    out. [message.go] and the token provider are outside this development;
    what the batch code needs of them ([Validate], the JSON encoding of a
    [Message], [token]) is taken as given, through the class [MessageMethods]
    and the record [tokenProvider].

    Names follow the Go source. A method [T.m] is written [T_m]; where a field
    has the name of a type or of a keyword it carries a prefix or an
    underscore ([MMessage], [Message_], [Set_]). *)

From Stdlib Require Import Strings.String Strings.Ascii Lists.List.
From Stdlib Require Import ZArith NArith Arith Bool Lia DecimalString DecimalNat.
Import ListNotations.

Local Open Scope list_scope.
Local Open Scope string_scope.

(** ** Go values *)

(** Go's [error]: the values built by [errors.New] and [fmt.Errorf] carry
    their text; [io.EOF] is a sentinel compared by identity; [HttpError] is
    the struct of [client.go]. *)
Inductive error : Type :=
| errorString (msg : string)
| io_EOF
| HttpError (RequestDump ResponseDump : string) (Err : error).

Fixpoint Error (e : error) : string :=
  match e with
  | errorString msg => msg
  | io_EOF => "EOF"
  | HttpError _ _ err => Error err
  end.

(** A Go function returning [(T, error)]. *)
Inductive Result (A : Type) : Type :=
| Ok (a : A)
| Err (e : error).
Arguments Ok {A} a.
Arguments Err {A} e.

Definition bindR {A B} (r : Result A) (k : A -> Result B) : Result B :=
  match r with
  | Ok a => k a
  | Err e => Err e
  end.

Notation "x <- r ;; k" := (bindR r (fun x => k))
  (at level 61, r at next level, right associativity).

(** A Go call that either returns or panics (nil dereference). *)
Inductive Call (A : Type) : Type :=
| Returns (r : Result A)
| Panics.
Arguments Returns {A} r.
Arguments Panics {A}.

(** A possibly nil pointer. *)
Definition ptr (A : Type) : Type := option A.

(** ** Strings as byte sequences *)

Module str.

(** [strings.Cut s sep] for a one-byte separator: the text before the first
    [sep] and the text after it. *)
Fixpoint Cut (s : string) (sep : ascii) : option (string * string) :=
  match s with
  | EmptyString => None
  | String c rest =>
      if Ascii.eqb c sep then Some (EmptyString, rest)
      else match Cut rest sep with
           | Some (a, b) => Some (String c a, b)
           | None => None
           end
  end.

Fixpoint all (p : ascii -> bool) (s : string) : bool :=
  match s with
  | EmptyString => true
  | String c rest => p c && all p rest
  end.

Fixpoint HasPrefix (s prefix : string) : bool :=
  match prefix, s with
  | EmptyString, _ => true
  | String p ps, String c cs => Ascii.eqb c p && HasPrefix cs ps
  | String _ _, EmptyString => false
  end.

(** [s[n:]] *)
Fixpoint drop (n : nat) (s : string) : string :=
  match n, s with
  | O, _ => s
  | S n', String _ rest => drop n' rest
  | S _, EmptyString => EmptyString
  end.

(** [s[:n]] *)
Fixpoint take (n : nat) (s : string) : string :=
  match n, s with
  | O, _ => EmptyString
  | S n', String c rest => String c (take n' rest)
  | S _, EmptyString => EmptyString
  end.

Fixpoint TrimLeft (p : ascii -> bool) (s : string) : string :=
  match s with
  | String c rest => if p c then TrimLeft p rest else s
  | EmptyString => EmptyString
  end.

Fixpoint rev_acc (s acc : string) : string :=
  match s with
  | EmptyString => acc
  | String c rest => rev_acc rest (String c acc)
  end.
Definition rev (s : string) : string := rev_acc s EmptyString.

Definition TrimRight (p : ascii -> bool) (s : string) : string :=
  rev (TrimLeft p (rev s)).

Definition Trim (p : ascii -> bool) (s : string) : string :=
  TrimRight p (TrimLeft p s).

Definition between (lo hi : nat) (c : ascii) : bool :=
  ((lo <=? nat_of_ascii c)%nat && (nat_of_ascii c <=? hi)%nat)%bool.

Definition isUpper := between 65 90.
Definition isLower := between 97 122.
Definition isDigit := between 48 57.
Definition isLetter (c : ascii) : bool := isUpper c || isLower c.
Definition isAlnum (c : ascii) : bool := isLetter c || isDigit c.

Definition toLower (c : ascii) : ascii :=
  if isUpper c then ascii_of_nat (nat_of_ascii c + 32) else c.
Definition toUpper (c : ascii) : ascii :=
  if isLower c then ascii_of_nat (nat_of_ascii c - 32) else c.

Fixpoint map (f : ascii -> ascii) (s : string) : string :=
  match s with
  | EmptyString => EmptyString
  | String c rest => String (f c) (map f rest)
  end.

Definition ToLower := map toLower.

Definition mem (c : ascii) (set : string) : bool :=
  negb (all (fun x => negb (Ascii.eqb x c)) set).

Definition isSpaceTab (c : ascii) : bool := mem c (String " " (String "009" EmptyString)).

Definition CR : ascii := "013".
Definition DQUOTE : ascii := "034".
Definition LF : ascii := "010".
Definition CRLF : string := String CR (String LF EmptyString).

End str.

(** ** strconv *)

Module strconv.

(** [strconv.Itoa] and the [%d] verb on a non-negative [int]. *)
Definition Itoa (n : nat) : string := NilZero.string_of_uint (Nat.to_uint n).

(** [%d] on any [int]. *)
Definition FormatInt (z : Z) : string :=
  match z with
  | Zneg p => String "-" (Itoa (Pos.to_nat p))
  | _ => Itoa (Z.to_nat z)
  end.

Definition digits (s : string) : option nat :=
  match NilZero.uint_of_string s with
  | Some d => Some (Nat.of_uint d)
  | None => None
  end.

(** [strconv.Atoi]: an optional sign and decimal digits, within [int64]. *)
Definition Atoi (s : string) : option Z :=
  let signed (neg : bool) (t : string) :=
    match digits t with
    | Some n =>
        let z := if neg then (- Z.of_nat n)%Z else Z.of_nat n in
        if ((- 2 ^ 63 <=? z) && (z <? 2 ^ 63))%Z then Some z else None
    | None => None
    end in
  match s with
  | String "+" t => signed false t
  | String "-" t => signed true t
  | _ => signed false s
  end.

End strconv.

(** ** fmt *)

Module fmt.

(** [fmt.Errorf(format)] without operands: a doubled percent sign is one, any
    other verb has its operand missing. Flags and widths between the percent
    sign and the verb are not modelled. *)
Fixpoint noOperands (format : string) : string :=
  match format with
  | EmptyString => EmptyString
  | String c r =>
      if Ascii.eqb c "%" then
        match r with
        | EmptyString => "%!(NOVERB)"
        | String v r' =>
            if Ascii.eqb v "%" then String "%" (noOperands r')
            else "%!" ++ String v "(MISSING)" ++ noOperands r'
        end
      else String c (noOperands r)
  end.

End fmt.

(** ** io *)

Module io.

(** An [io.Reader] over data already in memory: the bytes it yields and the
    error it ends with ([None] is a clean [io.EOF]). *)
Record Reader : Type := mkReader {
  data : string;
  fail : option error
}.

Definition ofString (s : string) : Reader := {| data := s; fail := None |}.

Definition ErrUnexpectedEOF : error := errorString "unexpected EOF".

(** [ioutil.ReadAll] *)
Definition ReadAll (r : Reader) : Result string :=
  match fail r with
  | None => Ok (data r)
  | Some e => Err e
  end.

(** The error a read at the end of the data returns. *)
Definition atEnd (r : option error) : error :=
  match r with
  | None => io_EOF
  | Some e => e
  end.

End io.

(** ** net/textproto *)

Module textproto.

(** RFC 7230 token bytes ([httpguts.IsTokenRune], [validHeaderFieldByte]). *)
Definition validHeaderFieldByte (c : ascii) : bool :=
  str.isAlnum c || str.mem c "!#$%&'*+-.^_`|~".

Fixpoint canon (upper : bool) (s : string) : string :=
  match s with
  | EmptyString => EmptyString
  | String c rest =>
      let c' := if upper then str.toUpper c else str.toLower c in
      String c' (canon (Ascii.eqb c' "-") rest)
  end.

(** [textproto.CanonicalMIMEHeaderKey]: a key with a byte that is not a token
    byte is returned unchanged. *)
Definition CanonicalMIMEHeaderKey (s : string) : string :=
  if str.all validHeaderFieldByte s then canon true s else s.

(** [textproto.MIMEHeader], a [map[string][]string]. Go's writers emit the keys
    in sorted order; the model keeps the entries sorted by key, one entry per
    key. *)
Definition MIMEHeader : Type := list (string * list string).

Fixpoint upsert (f : list string -> list string) (k : string) (h : MIMEHeader)
  : MIMEHeader :=
  match h with
  | [] => [(k, f [])]
  | (k', vs) :: t =>
      match String.compare k k' with
      | Eq => (k', f vs) :: t
      | Lt => (k, f []) :: h
      | Gt => (k', vs) :: upsert f k t
      end
  end.

Fixpoint lookup (k : string) (h : MIMEHeader) : option (list string) :=
  match h with
  | [] => None
  | (k', vs) :: t => if String.eqb k k' then Some vs else lookup k t
  end.

Definition Add (h : MIMEHeader) (key value : string) : MIMEHeader :=
  upsert (fun vs => (vs ++ [value])%list) (CanonicalMIMEHeaderKey key) h.

Definition Set_ (h : MIMEHeader) (key value : string) : MIMEHeader :=
  upsert (fun _ => [value]) (CanonicalMIMEHeaderKey key) h.

Definition Get (h : MIMEHeader) (key : string) : string :=
  match lookup (CanonicalMIMEHeaderKey key) h with
  | Some (v :: _) => v
  | _ => ""
  end.

Definition has (h : MIMEHeader) (key : string) : bool :=
  match lookup key h with
  | Some _ => true
  | None => false
  end.

Fixpoint remove (key : string) (h : MIMEHeader) : MIMEHeader :=
  match h with
  | [] => []
  | (k', vs) :: t => if String.eqb key k' then t else (k', vs) :: remove key t
  end.

Definition Del (h : MIMEHeader) (key : string) : MIMEHeader :=
  remove (CanonicalMIMEHeaderKey key) h.

Definition isASCIISpace (c : ascii) : bool :=
  str.mem c (String " " (String "009" (String "010" (String "013" EmptyString)))).

(** [textproto.TrimString] *)
Definition TrimString (s : string) : string := str.Trim isASCIISpace s.

(** The lines of [s], each with the text that follows it. A line ends at
    ["\n"], which is dropped; a last line without ["\n"] is a line too. The
    head of the list is what one [ReadSlice('\n')] consumes. *)
Fixpoint rawLines (s : string) : list (string * string) :=
  match s with
  | EmptyString => []
  | String c rest =>
      if Ascii.eqb c str.LF then (EmptyString, rest) :: rawLines rest
      else match rawLines rest with
           | (l, after) :: t => (String c l, after) :: t
           | [] => [(String c EmptyString, EmptyString)]
           end
  end.

(** Drop one trailing ["\r"], as [bufio.Reader.ReadLine] does. *)
Fixpoint chomp (l : string) : string :=
  match l with
  | EmptyString => EmptyString
  | String c EmptyString => if Ascii.eqb c str.CR then EmptyString else l
  | String c rest => String c (chomp rest)
  end.

(** [textproto.Reader.ReadLine]: [None] at the end of the input. *)
Definition ReadLine (s : string) : option (string * string) :=
  match rawLines s with
  | (l, after) :: _ => Some (chomp l, after)
  | [] => None
  end.

Definition trim (l : string) : string := str.Trim str.isSpaceTab l.

Definition startsWithSpace (l : string) : bool :=
  match l with
  | String c _ => str.isSpaceTab c
  | EmptyString => false
  end.

(** The continuation lines that follow a header line: each starts with a
    space or a tab and is folded into the line with one space. Returns the
    folded text and what is left of the input. *)
Fixpoint continuation (ls : list (string * string)) (after : string)
  : string * list (string * string) * string :=
  match ls with
  | (l, after') :: t =>
      if startsWithSpace l then
        let '(more, ls', rest) := continuation t after' in
        (String " " (trim (chomp l)) ++ more, ls', rest)
      else (EmptyString, ls, after)
  | [] => (EmptyString, [], after)
  end.

Definition protocolError (what line : string) : error :=
  errorString (what ++ line).

(** The field loop of [ReadMIMEHeader] over the remaining lines; [n] bounds
    the number of lines, which is the length of [ls]. A key that holds a byte
    other than a token byte is reported as malformed; Go accepts such a key,
    without canonicalizing it, when the byte is a space, and its releases
    before 1.20 when it is any byte. *)
Fixpoint readFields (n : nat) (ls : list (string * string)) (after : string)
  (m : MIMEHeader) : Result (MIMEHeader * string) :=
  match n with
  | O => Err io_EOF
  | S n' =>
      match ls with
      | [] => Err io_EOF
      | (l, after') :: t =>
          if String.eqb (chomp l) EmptyString then Ok (m, after')
          else
            let '(more, ls', rest) := continuation t after' in
            let kv := trim (chomp l) ++ more in
            match str.Cut kv ":" with
            | None => Err (protocolError "malformed MIME header line: " kv)
            | Some (k, v) =>
                if negb (str.all validHeaderFieldByte k) then
                  Err (protocolError "malformed MIME header line: " kv)
                else if String.eqb k EmptyString then readFields n' ls' rest m
                else
                  let value := str.TrimLeft str.isSpaceTab v in
                  readFields n' ls' rest
                    (upsert (fun vs => (vs ++ [value])%list) (canon true k) m)
            end
      end
  end.

(** [textproto.Reader.ReadMIMEHeader]: the header block up to and including
    the blank line, and the text after it. *)
Definition ReadMIMEHeader (s : string) : Result (MIMEHeader * string) :=
  match rawLines s with
  | (l, _) :: _ =>
      if startsWithSpace l then
        Err (protocolError "malformed MIME header initial line: " (chomp l))
      else readFields (List.length (rawLines s)) (rawLines s) EmptyString []
  | [] => Err io_EOF
  end.

End textproto.

(** ** net/url *)

Module url.

(** The fields of [url.URL] the package's requests depend on. *)
Record URL : Type := mkURL {
  Scheme : string;
  Host : string;
  Path : string
}.

Definition isCTL (c : ascii) : bool :=
  (nat_of_ascii c <? 32)%nat || (nat_of_ascii c =? 127)%nat.

Definition isSchemeByte (c : ascii) : bool := str.isAlnum c || str.mem c "+-.".
Definition isHostByte (c : ascii) : bool := str.isAlnum c || str.mem c "-.".
Definition isPathByte (c : ascii) : bool := str.isAlnum c || str.mem c "-_.~$&+,/:;=@".

Definition validScheme (s : string) : bool :=
  match s with
  | String c rest => str.isLetter c && str.all isSchemeByte rest
  | EmptyString => false
  end.

(** [host] or [host:port] *)
Definition validAuthority (a : string) : bool :=
  match str.Cut a ":" with
  | Some (h, port) =>
      negb (String.eqb h EmptyString) && str.all isHostByte h && str.all str.isDigit port
  | None => negb (String.eqb a EmptyString) && str.all isHostByte a
  end.

(** The authority up to the first ["/"], and the path from it on. *)
Fixpoint splitAuthority (s : string) : string * string :=
  match s with
  | EmptyString => (EmptyString, EmptyString)
  | String c rest =>
      if Ascii.eqb c "/" then (EmptyString, s)
      else let (a, p) := splitAuthority rest in (String c a, p)
  end.

Definition errOutsideModel (rawURL : string) : error :=
  errorString ("parse " ++ rawURL ++ ": URL form outside the modelled fragment").

(** [url.Parse] on absolute URLs [scheme://host[:port][/path]] whose path
    needs no escaping (letters, digits and [-_.~$&+,/:;=@]); on these Go keeps
    the path text as it is. User info, queries, fragments, percent-escapes,
    IPv6 literals and relative or opaque forms are outside the model, which
    reports an error for them. *)
Definition Parse (rawURL : string) : Result URL :=
  if negb (str.all (fun c => negb (isCTL c)) rawURL) then
    Err (errorString ("parse " ++ rawURL ++ ": net/url: invalid control character in URL"))
  else
    match str.Cut rawURL ":" with
    | Some (scheme, rest) =>
        if validScheme scheme && str.HasPrefix rest "//" then
          let (authority, path) := splitAuthority (str.drop 2 rest) in
          if validAuthority authority && str.all isPathByte path then
            Ok {| Scheme := str.ToLower scheme; Host := authority; Path := path |}
          else Err (errOutsideModel rawURL)
        else Err (errOutsideModel rawURL)
    | None => Err (errOutsideModel rawURL)
    end.

(** [URL.RequestURI] *)
Definition RequestURI (u : URL) : string :=
  if String.eqb (Path u) EmptyString then "/" else Path u.

End url.

(** ** net/http *)

Module http.

Definition Header : Type := textproto.MIMEHeader.

Definition StatusOK : Z := 200.
Definition StatusInternalServerError : Z := 500.
Definition MethodPost : string := "POST".

(** [http.Request] as a client builds it. [Body] is what is still unread of
    the body. *)
Record Request : Type := mkRequest {
  Method : string;
  URL : url.URL;
  Host : string;
  RHeader : Header;
  Body : string;
  ContentLength : nat
}.

Definition validMethod (m : string) : bool :=
  negb (String.eqb m EmptyString) && str.all textproto.validHeaderFieldByte m.

Fixpoint TrimSuffixColon (s : string) : string :=
  match s with
  | EmptyString => EmptyString
  | String c EmptyString => if Ascii.eqb c ":" then EmptyString else s
  | String c rest => String c (TrimSuffixColon rest)
  end.

(** [removeEmptyPort]; the modelled hosts have no bracketed IPv6 literal. *)
Definition removeEmptyPort (host : string) : string :=
  match str.Cut host ":" with
  | Some _ => TrimSuffixColon host
  | None => host
  end.

(** [http.NewRequest(method, url, bytes.NewBuffer(body))] *)
Definition NewRequest (method rawURL body : string) : Result Request :=
  let method := if String.eqb method EmptyString then "GET" else method in
  if negb (validMethod method) then
    Err (errorString ("net/http: invalid method " ++ method))
  else
    u <- url.Parse rawURL ;;
    let host := removeEmptyPort (url.Host u) in
    Ok {| Method := method;
          URL := {| url.Scheme := url.Scheme u; url.Host := host; url.Path := url.Path u |};
          Host := host;
          RHeader := [];
          Body := body;
          ContentLength := String.length body |}.

(** [Header.Set] and [Header.Add] on a request. *)
Definition setHeader (r : Request) (key value : string) : Request :=
  {| Method := Method r; URL := URL r; Host := Host r;
     RHeader := textproto.Set_ (RHeader r) key value;
     Body := Body r; ContentLength := ContentLength r |}.

Definition addHeader (r : Request) (key value : string) : Request :=
  {| Method := Method r; URL := URL r; Host := Host r;
     RHeader := textproto.Add (RHeader r) key value;
     Body := Body r; ContentLength := ContentLength r |}.

Definition withBody (r : Request) (unread : string) : Request :=
  {| Method := Method r; URL := URL r; Host := Host r;
     RHeader := RHeader r;
     Body := unread; ContentLength := ContentLength r |}.

(** [headerNewlineToSpace] followed by [textproto.TrimString]. *)
Definition sanitizeValue (v : string) : string :=
  textproto.TrimString
    (str.map (fun c => if Ascii.eqb c str.LF || Ascii.eqb c str.CR then " "%char else c) v).

Definition validHeaderFieldName (k : string) : bool :=
  negb (String.eqb k EmptyString) && str.all textproto.validHeaderFieldByte k.

Fixpoint writeValues (k : string) (vs : list string) : string :=
  match vs with
  | [] => EmptyString
  | v :: t => k ++ ": " ++ sanitizeValue v ++ str.CRLF ++ writeValues k t
  end.

(** [Header.WriteSubset]: every value of every key that is not excluded and
    is a valid field name, keys in sorted order. *)
Fixpoint WriteSubset (h : Header) (exclude : list string) : string :=
  match h with
  | [] => EmptyString
  | (k, vs) :: t =>
      (if existsb (String.eqb k) exclude || negb (validHeaderFieldName k)
       then EmptyString else writeValues k vs) ++ WriteSubset t exclude
  end.

Definition reqWriteExcludeHeader : list string :=
  ["Host"; "User-Agent"; "Content-Length"; "Transfer-Encoding"; "Trailer"].

Definition reqWriteExcludeHeaderDump : list string :=
  ["Host"; "Transfer-Encoding"; "Trailer"].

Definition defaultUserAgent : string := "Go-http-client/1.1".

(** [transferWriter.shouldSendContentLength] for a body of known length. *)
Definition shouldSendContentLength (method : string) (n : nat) : bool :=
  (0 <? n)%nat || existsb (String.eqb method) ["POST"; "PUT"; "PATCH"].

(** [Request.Write]: the request in wire format. The request line carries
    the request URI (path), the host goes into [Host:], a [User-Agent] header
    set to the empty string suppresses the default one, [Content-Length] comes
    from the body. *)
Definition Request_Write (r : Request) : Result string :=
  if negb (ContentLength r =? String.length (Body r))%nat then
    Err (errorString ("http: ContentLength=" ++ strconv.Itoa (ContentLength r)
                      ++ " with Body length " ++ strconv.Itoa (String.length (Body r))))
  else
    let host := if String.eqb (Host r) EmptyString then url.Host (URL r) else Host r in
    let userAgent :=
      if textproto.has (RHeader r) "User-Agent"
      then sanitizeValue (textproto.Get (RHeader r) "User-Agent")
      else defaultUserAgent in
    Ok (Method r ++ " " ++ url.RequestURI (URL r) ++ " HTTP/1.1" ++ str.CRLF
        ++ "Host: " ++ host ++ str.CRLF
        ++ (if String.eqb userAgent EmptyString then EmptyString
            else "User-Agent: " ++ userAgent ++ str.CRLF)
        ++ (if shouldSendContentLength (Method r) (ContentLength r)
            then "Content-Length: " ++ strconv.Itoa (ContentLength r) ++ str.CRLF
            else EmptyString)
        ++ WriteSubset (RHeader r) reqWriteExcludeHeader
        ++ str.CRLF
        ++ Body r).

(** [httputil.DumpRequest(req, true)]: request line, [Host:], the headers and
    whatever is still unread of the body. *)
Definition DumpRequest (r : Request) : Result string :=
  let host := if String.eqb (Host r) EmptyString then url.Host (URL r) else Host r in
  Ok (Method r ++ " " ++ url.RequestURI (URL r) ++ " HTTP/1.1" ++ str.CRLF
      ++ (if String.eqb host EmptyString then EmptyString
          else "Host: " ++ host ++ str.CRLF)
      ++ WriteSubset (RHeader r) reqWriteExcludeHeaderDump
      ++ str.CRLF
      ++ Body r).

(** [http.Response]: [Status] is the text after the protocol (["200 OK"]). *)
Record Response : Type := mkResponse {
  Status : string;
  StatusCode : Z;
  Proto : string;
  Header_ : Header;
  RBody : io.Reader
}.

Definition respExcludeHeader : list string :=
  ["Content-Length"; "Transfer-Encoding"; "Trailer"].

(** [httputil.DumpResponse(resp, true)]: status line, headers, body. A body
    that cannot be read makes the dump fail. The dump recomputes the framing
    headers; the model writes [Content-Length] with the length of the body. *)
Definition DumpResponse (r : Response) : Result string :=
  b <- io.ReadAll (RBody r) ;;
  let code := strconv.FormatInt (StatusCode r) in
  let text :=
    if str.HasPrefix (Status r) (code ++ " ")
    then str.drop (String.length code + 1) (Status r) else Status r in
  Ok ("HTTP/1.1 " ++ code ++ " " ++ text ++ str.CRLF
      ++ "Content-Length: " ++ strconv.Itoa (String.length b) ++ str.CRLF
      ++ WriteSubset (Header_ r) respExcludeHeader
      ++ str.CRLF
      ++ b).

(** [http.ParseHTTPVersion]: ["HTTP/d.d"]. *)
Definition ParseHTTPVersion (vers : string) : bool :=
  match vers with
  | String "H" (String "T" (String "T" (String "P" (String "/"
      (String a (String "." (String b EmptyString))))))) =>
      str.isDigit a && str.isDigit b
  | _ => false
  end.

Definition badStringError (what val : string) : error :=
  errorString (what ++ " " ++ val).

Definition eofToUnexpected (e : error) : error :=
  match e with
  | io_EOF => io.ErrUnexpectedEOF
  | _ => e
  end.

(** The [Content-Length] of a message as [fixLength] reads it: absent, a
    number, or malformed (also when several values disagree). *)
Definition contentLength (h : Header) : Result (option nat) :=
  match textproto.lookup "Content-Length" h with
  | None | Some [] => Ok None
  | Some (v :: vs) =>
      let first := textproto.TrimString v in
      if forallb (fun w => String.eqb (textproto.TrimString w) first) vs then
        match strconv.digits first with
        | Some n => Ok (Some n)
        | None => Err (badStringError "bad Content-Length" first)
        end
      else Err (errorString ("http: message cannot contain multiple Content-Length headers"))
  end.

Definition bodyAllowedForStatus (status : Z) : bool :=
  negb (((100 <=? status) && (status <=? 199))%Z
        || (status =? 204)%Z || (status =? 304)%Z).

(** [http.ReadResponse] over a reader whose data is [data src]: status line,
    header block, and the body as a reader. With [Content-Length: n] the body
    is the next [n] bytes (and ends in [unexpected EOF] if there are fewer);
    without it the body runs to the end of the input. Chunked transfer
    encoding is outside the model. *)
Definition ReadResponse (src : io.Reader) : Result Response :=
  match textproto.ReadLine (io.data src) with
  | None => Err (eofToUnexpected (io.atEnd (io.fail src)))
  | Some (line, rest) =>
      match str.Cut line " " with
      | None => Err (badStringError "malformed HTTP response" line)
      | Some (proto, status) =>
          let status := str.TrimLeft (fun c => Ascii.eqb c " ") status in
          let statusCode :=
            match str.Cut status " " with
            | Some (c, _) => c
            | None => status
            end in
          if negb (String.length statusCode =? 3)%nat then
            Err (badStringError "malformed HTTP status code" statusCode)
          else
            match strconv.Atoi statusCode with
            | None => Err (badStringError "malformed HTTP status code" statusCode)
            | Some code =>
                if (code <? 0)%Z then
                  Err (badStringError "malformed HTTP status code" statusCode)
                else if negb (ParseHTTPVersion proto) then
                  Err (badStringError "malformed HTTP version" proto)
                else
                  match textproto.ReadMIMEHeader rest with
                  | Err e =>
                      Err (eofToUnexpected
                             (match e with io_EOF => io.atEnd (io.fail src) | _ => e end))
                  | Ok (h, body) =>
                      if textproto.has h "Transfer-Encoding" then
                        Err (errorString "net/http: transfer encoding outside the modelled fragment")
                      else
                        n <- contentLength h ;;
                        let reader :=
                          if negb (bodyAllowedForStatus code) then io.ofString EmptyString
                          else
                            match n with
                            | Some n =>
                                if (n <=? String.length body)%nat
                                then io.ofString (str.take n body)
                                else {| io.data := body;
                                        io.fail := Some (eofToUnexpected (io.atEnd (io.fail src))) |}
                            | None => {| io.data := body; io.fail := io.fail src |}
                            end in
                        Ok {| Status := status; StatusCode := code; Proto := proto;
                              Header_ := h; RBody := reader |}
                  end
            end
      end
  end.

(** What [http.ReadRequest] recovers from a request in wire format. *)
Record ParsedRequest : Type := mkParsedRequest {
  PMethod : string;
  PRequestURI : string;
  PProto : string;
  PHost : string;
  PHeader : Header;
  PBody : io.Reader
}.

(** [http.ReadRequest]: request line [method SP request-URI SP proto], header
    block, [Host] moved out of the headers, body of [Content-Length] bytes
    (none without it). *)
Definition ReadRequest (s : string) : Result ParsedRequest :=
  match textproto.ReadLine s with
  | None => Err io_EOF
  | Some (line, rest) =>
      match str.Cut line " " with
      | None => Err (badStringError "malformed HTTP request" line)
      | Some (method, rest1) =>
          match str.Cut rest1 " " with
          | None => Err (badStringError "malformed HTTP request" line)
          | Some (requestURI, proto) =>
              if negb (validMethod method) then
                Err (badStringError "invalid method" method)
              else if negb (ParseHTTPVersion proto) then
                Err (badStringError "malformed HTTP version" proto)
              else
                match textproto.ReadMIMEHeader rest with
                | Err e => Err e
                | Ok (h, body) =>
                    if textproto.has h "Transfer-Encoding" then
                      Err (errorString "net/http: transfer encoding outside the modelled fragment")
                    else
                      n <- contentLength h ;;
                      let reader :=
                        match n with
                        | Some n =>
                            if (n <=? String.length body)%nat
                            then io.ofString (str.take n body)
                            else {| io.data := body; io.fail := Some io.ErrUnexpectedEOF |}
                        | None => io.ofString EmptyString
                        end in
                      Ok {| PMethod := method; PRequestURI := requestURI; PProto := proto;
                            PHost := textproto.Get h "Host";
                            PHeader := textproto.Del h "Host";
                            PBody := reader |}
                end
          end
      end
  end.

(** [http.Client.Do] as the package sees it: the response or the error of the
    exchange, and what the transport left unread of the request body. *)
Record Client : Type := mkClient {
  Do : Request -> Result Response * string
}.

End http.

(** ** mime *)

Module mime.

Definition isTSpecial (c : ascii) : bool :=
  str.mem c (String str.DQUOTE "()<>@,;:\/[]?=").

Definition isTokenChar (c : ascii) : bool :=
  (32 <? nat_of_ascii c)%nat && (nat_of_ascii c <? 127)%nat && negb (isTSpecial c).

Definition isSpace (c : ascii) : bool :=
  str.mem c (String " " (String "009" (String "010" (String "011"
            (String "012" (String "013" EmptyString)))))).

Fixpoint consumeToken (v : string) : string * string :=
  match v with
  | EmptyString => (EmptyString, EmptyString)
  | String c rest =>
      if isTokenChar c then
        let (t, r) := consumeToken rest in (String c t, r)
      else (EmptyString, v)
  end.

(** The inside of a quoted string, after the opening quote. *)
Fixpoint quoted (s : string) : option (string * string) :=
  match s with
  | EmptyString => None
  | String c rest =>
      if Ascii.eqb c str.DQUOTE then Some (EmptyString, rest)
      else
        let plain :=
          if Ascii.eqb c str.CR || Ascii.eqb c str.LF then None
          else match quoted rest with
               | Some (q, r) => Some (String c q, r)
               | None => None
               end in
        if Ascii.eqb c "\" then
          match rest with
          | String d rest' =>
              if isTSpecial d then
                match quoted rest' with
                | Some (q, r) => Some (String d q, r)
                | None => None
                end
              else plain
          | EmptyString => plain
          end
        else plain
  end.

Definition consumeValue (v : string) : string * string :=
  match v with
  | EmptyString => (EmptyString, EmptyString)
  | String c rest =>
      if Ascii.eqb c str.DQUOTE then
        match quoted rest with
        | Some (q, r) => (q, r)
        | None => (EmptyString, v)
        end
      else consumeToken v
  end.

Definition consumeMediaParam (v : string) : string * string * string :=
  let rest := str.TrimLeft isSpace v in
  match rest with
  | String ";" rest =>
      let rest := str.TrimLeft isSpace rest in
      let (param, rest) := consumeToken rest in
      let param := str.ToLower param in
      if String.eqb param EmptyString then (EmptyString, EmptyString, v)
      else
        match str.TrimLeft isSpace rest with
        | String "=" rest =>
            let rest := str.TrimLeft isSpace rest in
            let (value, rest2) := consumeValue rest in
            if String.eqb value EmptyString && String.eqb rest2 rest
            then (EmptyString, EmptyString, v)
            else (param, value, rest2)
        | _ => (EmptyString, EmptyString, v)
        end
  | _ => (EmptyString, EmptyString, v)
  end.

Definition checkMediaTypeDisposition (s : string) : option error :=
  let (typ, rest) := consumeToken s in
  if String.eqb typ EmptyString then Some (errorString "mime: no media type")
  else
    match rest with
    | EmptyString => None
    | String "/" rest =>
        let (subtype, rest) := consumeToken rest in
        if String.eqb subtype EmptyString then
          Some (errorString "mime: expected token after slash")
        else if String.eqb rest EmptyString then None
        else Some (errorString "mime: unexpected content after media subtype")
    | _ => Some (errorString "mime: expected slash after first token")
    end.

Definition ErrInvalidMediaParameter : error :=
  errorString "mime: invalid media parameter".

Definition params : Type := list (string * string).

Fixpoint get (m : params) (key : string) : string :=
  match m with
  | [] => EmptyString
  | (k, v) :: t => if String.eqb k key then v else get t key
  end.

Fixpoint find (m : params) (key : string) : option string :=
  match m with
  | [] => None
  | (k, v) :: t => if String.eqb k key then Some v else find t key
  end.

(** The parameter loop of [ParseMediaType]; every round consumes at least
    the [";"], so the length of the text bounds the rounds. Parameter
    continuations (RFC 2231, names with a star) are kept under their literal
    names. *)
Fixpoint parseParams (n : nat) (v : string) (m : params) : Result params :=
  match n with
  | O => Ok m
  | S n' =>
      let v := str.TrimLeft isSpace v in
      if String.eqb v EmptyString then Ok m
      else
        let '(key, value, rest) := consumeMediaParam v in
        if String.eqb key EmptyString then
          if String.eqb (str.Trim isSpace rest) ";" then Ok m
          else Err ErrInvalidMediaParameter
        else
          match find m key with
          | Some old =>
              if String.eqb old value then parseParams n' rest m
              else Err (errorString "mime: duplicate parameter name")
          | None => parseParams n' rest ((key, value) :: m)
          end
  end.

(** [mime.ParseMediaType] *)
Definition ParseMediaType (v : string) : Result (string * params) :=
  let base := match str.Cut v ";" with Some (b, _) => b | None => v end in
  let mediatype := str.Trim isSpace (str.ToLower base) in
  match checkMediaTypeDisposition mediatype with
  | Some e => Err e
  | None =>
      let v := str.drop (String.length base) v in
      m <- parseParams (String.length v) v [] ;;
      Ok (mediatype, m)
  end.

End mime.

(** ** mime/multipart *)

Module multipart.

(** *** Writer *)

(** A [multipart.Writer] over a [bytes.Buffer]: what has been written, the
    boundary, and whether a part has been created. *)
Record Writer : Type := mkWriter {
  buf : string;
  wboundary : string;
  lastpart : bool
}.

(** [multipart.NewWriter] picks a random boundary; [seed] stands for it. *)
Definition NewWriter (seed : string) : Writer :=
  {| buf := EmptyString; wboundary := seed; lastpart := false |}.

Definition isBoundaryByte (c : ascii) : bool :=
  str.isAlnum c || str.mem c "'()+_,-./:=?".

Fixpoint validBoundaryBytes (b : string) : bool :=
  match b with
  | EmptyString => true
  | String c EmptyString => isBoundaryByte c
  | String c rest => (isBoundaryByte c || Ascii.eqb c " ") && validBoundaryBytes rest
  end.

(** [Writer.SetBoundary]: the writer afterwards and the error returned. *)
Definition SetBoundary (w : Writer) (boundary : string) : Writer * option error :=
  if lastpart w then (w, Some (errorString "mime: SetBoundary called after write"))
  else if (String.length boundary <? 1)%nat || (70 <? String.length boundary)%nat then
    (w, Some (errorString "mime: invalid boundary length"))
  else if negb (validBoundaryBytes boundary) then
    (w, Some (errorString "mime: invalid boundary character"))
  else ({| buf := buf w; wboundary := boundary; lastpart := lastpart w |}, None).

Fixpoint writeMIMEHeader (h : textproto.MIMEHeader) : string :=
  match h with
  | [] => EmptyString
  | (k, vs) :: t =>
      List.fold_right (fun v acc => k ++ ": " ++ v ++ str.CRLF ++ acc) EmptyString vs
      ++ writeMIMEHeader t
  end.

(** [Writer.CreatePart]: the delimiter line (preceded by CRLF after an earlier
    part), the header lines in sorted key order, and a blank line. *)
Definition CreatePart (w : Writer) (header : textproto.MIMEHeader) : Result Writer :=
  Ok {| buf := buf w
               ++ (if lastpart w then str.CRLF else EmptyString)
               ++ "--" ++ wboundary w ++ str.CRLF
               ++ writeMIMEHeader header
               ++ str.CRLF;
        wboundary := wboundary w;
        lastpart := true |}.

(** [Write] on the part returned by [CreatePart]. *)
Definition Write (w : Writer) (b : string) : Result Writer :=
  Ok {| buf := buf w ++ b; wboundary := wboundary w; lastpart := lastpart w |}.

(** [Writer.Close]: the closing delimiter. *)
Definition Close (w : Writer) : Writer :=
  {| buf := buf w ++ str.CRLF ++ "--" ++ wboundary w ++ "--" ++ str.CRLF;
     wboundary := wboundary w;
     lastpart := lastpart w |}.

(** *** Reader *)

Record Reader : Type := mkReader {
  rest : string;
  tail : option error;
  boundary : string;
  partsRead : nat;
  nl : string
}.

Record Part : Type := mkPart {
  Header : textproto.MIMEHeader;
  content : io.Reader
}.

(** [multipart.NewReader] *)
Definition NewReader (r : io.Reader) (boundary : string) : Reader :=
  {| rest := io.data r; tail := io.fail r; boundary := boundary;
     partsRead := 0; nl := str.CRLF |}.

(** The slices [ReadSlice('\n')] returns one after the other, each with the
    text after it; a slice ends with the newline unless the input ends
    first. *)
Fixpoint slices (s : string) : list (string * string) :=
  match s with
  | EmptyString => []
  | String c r =>
      if Ascii.eqb c str.LF then (String c EmptyString, r) :: slices r
      else match slices r with
           | (l, a) :: t => (String c l, a) :: t
           | [] => [(String c EmptyString, EmptyString)]
           end
  end.

Fixpoint terminated (line : string) : bool :=
  match line with
  | EmptyString => false
  | String c EmptyString => Ascii.eqb c str.LF
  | String _ r => terminated r
  end.

Definition skipLWSPChar (s : string) : string := str.TrimLeft str.isSpaceTab s.

Definition isFinalBoundary (r : Reader) (line : string) : bool :=
  let dashBoundaryDash := "--" ++ boundary r ++ "--" in
  str.HasPrefix line dashBoundaryDash
  && (let after := skipLWSPChar (str.drop (String.length dashBoundaryDash) line) in
      String.eqb after EmptyString || String.eqb after (nl r)).

(** [isBoundaryDelimiterLine]: whether [line] is a delimiter, and the newline
    convention afterwards (the first delimiter may switch it to a bare LF). *)
Definition isBoundaryDelimiterLine (r : Reader) (line : string) : bool * string :=
  let dashBoundary := "--" ++ boundary r in
  if str.HasPrefix line dashBoundary then
    let after := skipLWSPChar (str.drop (String.length dashBoundary) line) in
    let nl' :=
      if (partsRead r =? 0)%nat && String.eqb after (String str.LF EmptyString)
      then str.drop 1 (nl r) else nl r in
    (String.eqb after nl', nl')
  else (false, nl r).

(** Whether a delimiter prefix is followed by what may follow a boundary:
    the end of the input, white space or a newline, or two dashes. *)
Definition matchAfterPrefix (after : string) : bool :=
  match after with
  | EmptyString => true
  | String c t =>
      str.mem c (String " " (String "009" (String "013" (String "010" EmptyString))))
      || (Ascii.eqb c "-" && match t with String "-" _ => true | _ => false end)
  end.

Definition atBoundary (s prefix : string) : bool :=
  str.HasPrefix s prefix && matchAfterPrefix (str.drop (String.length prefix) s).

(** The body of a part from [s] on: the bytes before the first newline
    followed by the dash-boundary, what is left from there on, and whether the
    boundary was found. *)
Fixpoint scanUntilBoundary (s nlDashBoundary : string) : string * string * bool :=
  match s with
  | EmptyString => (EmptyString, EmptyString, atBoundary EmptyString nlDashBoundary)
  | String c r =>
      if atBoundary s nlDashBoundary then (EmptyString, s, true)
      else let '(b, remaining, found) := scanUntilBoundary r nlDashBoundary in
           (String c b, remaining, found)
  end.

Definition partBody (r : Reader) (s : string) : string * string * bool :=
  if atBoundary s ("--" ++ boundary r) then (EmptyString, s, true)
  else scanUntilBoundary s (nl r ++ "--" ++ boundary r).

(** [newPart]: the part's header block, then its body up to the next
    boundary. A body that meets the end of the input first ends in
    [unexpected EOF] when it is read. *)
Definition newPart (r : Reader) (after : string) : Result (Part * Reader) :=
  match textproto.ReadMIMEHeader after with
  | Err e => Err (match e with io_EOF => io.atEnd (tail r) | _ => e end)
  | Ok (h, bodyStart) =>
      let '(body, remaining, found) := partBody r bodyStart in
      Ok ({| Header := h;
             content := {| io.data := body;
                           io.fail := if found then None
                                      else Some (http.eofToUnexpected (io.atEnd (tail r))) |} |},
          {| rest := remaining; tail := tail r; boundary := boundary r;
             partsRead := partsRead r; nl := nl r |})
  end.

(** The line loop of [Reader.NextPart] over the slices still to be read. *)
Fixpoint nextPartLoop (r : Reader) (ls : list (string * string)) (expectNewPart : bool)
  : Result (Part * Reader) :=
  match ls with
  | [] => Err (errorString ("multipart: NextPart: " ++ Error (io.atEnd (tail r))))
  | (line, after) :: t =>
      if negb (terminated line) then
        match tail r with
        | None =>
            if isFinalBoundary r line then Err io_EOF
            else Err (errorString "multipart: NextPart: EOF")
        | Some e => Err (errorString ("multipart: NextPart: " ++ Error e))
        end
      else
        let (delim, nl') := isBoundaryDelimiterLine r line in
        if delim then
          newPart {| rest := after; tail := tail r; boundary := boundary r;
                     partsRead := S (partsRead r); nl := nl' |} after
        else if isFinalBoundary r line then Err io_EOF
        else if expectNewPart then
          Err (errorString ("multipart: expecting a new Part; got line " ++ line))
        else if (partsRead r =? 0)%nat then nextPartLoop r t false
        else if String.eqb line (nl r) then nextPartLoop r t true
        else Err (errorString ("multipart: unexpected line in Next(): " ++ line))
  end.

(** [Reader.NextPart] *)
Definition NextPart (r : Reader) : Result (Part * Reader) :=
  if String.eqb (boundary r) EmptyString then
    Err (errorString "multipart: boundary is empty")
  else nextPartLoop r (slices (rest r)) false.

End multipart.

(** ** encoding/json *)

Module json.

(** A JSON text as the decoder scans it. *)
#[local] Set Warnings "-register-all".
Inductive value : Type :=
| Null
| Bool (b : bool)
| Number (raw : string)
| Str (s : string)
| Array (elems : list value)
| Object (members : list (string * value)).

Definition isWS (c : ascii) : bool :=
  str.mem c (String " " (String "009" (String "010" (String "013" EmptyString)))).

Definition skipWS (s : string) : string := str.TrimLeft isWS s.

Definition hexval (c : ascii) : option N :=
  let n := N_of_ascii c in
  if str.isDigit c then Some (n - 48)%N
  else if str.between 97 102 c then Some (n - 87)%N
  else if str.between 65 70 c then Some (n - 55)%N
  else None.

(** Four hex digits, as [getu4] reads them after a backslash-u. *)
Definition getu4 (s : string) : option (N * string) :=
  match s with
  | String a (String b (String c (String d r))) =>
      match hexval a, hexval b, hexval c, hexval d with
      | Some a, Some b, Some c, Some d =>
          Some ((((a * 16 + b) * 16 + c) * 16 + d)%N, r)
      | _, _, _, _ => None
      end
  | _ => None
  end.

Definition byte (n : N) : ascii := ascii_of_N n.

(** UTF-8 encoding of a code point. *)
Definition utf8 (cp : N) : string :=
  (if cp <? 128 then String (byte cp) EmptyString
   else if cp <? 2048 then
     String (byte (192 + cp / 64)) (String (byte (128 + cp mod 64)) EmptyString)
   else if cp <? 65536 then
     String (byte (224 + cp / 4096))
       (String (byte (128 + (cp / 64) mod 64)) (String (byte (128 + cp mod 64)) EmptyString))
   else
     String (byte (240 + cp / 262144))
       (String (byte (128 + (cp / 4096) mod 64))
         (String (byte (128 + (cp / 64) mod 64))
           (String (byte (128 + cp mod 64)) EmptyString))))%N.

Definition replacementChar : N := 65533.

Definition isHighSurrogate (cp : N) : bool := ((55296 <=? cp) && (cp <? 56320))%N.
Definition isLowSurrogate (cp : N) : bool := ((56320 <=? cp) && (cp <? 57344))%N.

(** The code point of a backslash-u escape whose four digits gave [cp]; a
    high surrogate followed by an escaped low surrogate is one code point, a
    surrogate on its own is the replacement character. *)
Definition escapedRune (cp : N) (r : string) : N * string :=
  if isHighSurrogate cp then
    match r with
    | String "\" (String "u" r') =>
        match getu4 r' with
        | Some (lo, r'') =>
            if isLowSurrogate lo
            then ((65536 + (cp - 55296) * 1024 + (lo - 56320))%N, r'')
            else (replacementChar, r)
        | None => (replacementChar, r)
        end
    | _ => (replacementChar, r)
    end
  else if isLowSurrogate cp then (replacementChar, r)
  else (cp, r).

Definition simpleEscape (c : ascii) : option ascii :=
  if Ascii.eqb c str.DQUOTE then Some str.DQUOTE
  else if Ascii.eqb c "\" then Some "\"%char
  else if Ascii.eqb c "/" then Some "/"%char
  else if Ascii.eqb c "b" then Some "008"%char
  else if Ascii.eqb c "f" then Some "012"%char
  else if Ascii.eqb c "n" then Some str.LF
  else if Ascii.eqb c "r" then Some str.CR
  else if Ascii.eqb c "t" then Some "009"%char
  else None.

(** A string literal after its opening quote: the decoded text and what
    follows the closing quote. Bytes above 127 are copied as they are, where
    Go replaces a byte sequence that is not UTF-8 by U+FFFD. *)
Fixpoint parseString (n : nat) (s : string) : option (string * string) :=
  match n with
  | O => None
  | S n' =>
      match s with
      | EmptyString => None
      | String c r =>
          if Ascii.eqb c str.DQUOTE then Some (EmptyString, r)
          else if (nat_of_ascii c <? 32)%nat then None
          else if Ascii.eqb c "\" then
            match r with
            | String "u" r' =>
                match getu4 r' with
                | Some (cp, r'') =>
                    let (rune, r3) := escapedRune cp r'' in
                    match parseString n' r3 with
                    | Some (t, after) => Some (utf8 rune ++ t, after)
                    | None => None
                    end
                | None => None
                end
            | String e r' =>
                match simpleEscape e with
                | Some d =>
                    match parseString n' r' with
                    | Some (t, after) => Some (String d t, after)
                    | None => None
                    end
                | None => None
                end
            | EmptyString => None
            end
          else
            match parseString n' r with
            | Some (t, after) => Some (String c t, after)
            | None => None
            end
      end
  end.

Fixpoint spanDigits (s : string) : string * string :=
  match s with
  | String c r =>
      if str.isDigit c then let (d, t) := spanDigits r in (String c d, t)
      else (EmptyString, s)
  | EmptyString => (EmptyString, EmptyString)
  end.

(** A number literal: an optional minus, an integer part without a leading
    zero, an optional fraction, an optional exponent. *)
Definition parseNumber (s : string) : option (string * string) :=
  let (sign, s1) := match s with String "-" r => ("-", r) | _ => (EmptyString, s) end in
  let (int, s2) := spanDigits s1 in
  let okInt :=
    match int with
    | EmptyString => false
    | String "0" (String _ _) => false
    | _ => true
    end in
  if negb okInt then None
  else
    let fracPart :=
      match s2 with
      | String "." r =>
          let (f, s3) := spanDigits r in
          if String.eqb f EmptyString then None else Some ("." ++ f, s3)
      | _ => Some (EmptyString, s2)
      end in
    match fracPart with
    | None => None
    | Some (frac, s3) =>
        let expPart :=
          match s3 with
          | String e r =>
              if Ascii.eqb e "e" || Ascii.eqb e "E" then
                let (sg, r1) :=
                  match r with
                  | String "+" t => ("+", t)
                  | String "-" t => ("-", t)
                  | _ => (EmptyString, r)
                  end in
                let (d, s4) := spanDigits r1 in
                if String.eqb d EmptyString then None
                else Some (String e sg ++ d, s4)
              else Some (EmptyString, s3)
          | EmptyString => Some (EmptyString, s3)
          end in
        match expPart with
        | None => None
        | Some (ex, s4) => Some (sign ++ int ++ frac ++ ex, s4)
        end
    end.

(** The elements of an array after the first value position; [pv] parses
    one value. *)
Fixpoint parseElems (n : nat) (pv : string -> option (value * string))
  (s : string) (acc : list value) : option (list value * string) :=
  match n with
  | O => None
  | S n' =>
      match pv s with
      | Some (v, r) =>
          match skipWS r with
          | String "," r' => parseElems n' pv r' (acc ++ [v])%list
          | String "]" r' => Some ((acc ++ [v])%list, r')
          | _ => None
          end
      | None => None
      end
  end.

(** The members of an object after the opening brace. *)
Fixpoint parseMembers (n : nat) (pv : string -> option (value * string))
  (s : string) (acc : list (string * value)) : option (list (string * value) * string) :=
  match n with
  | O => None
  | S n' =>
      match skipWS s with
      | String q r =>
          if Ascii.eqb q str.DQUOTE then
            match parseString (String.length r) r with
            | Some (k, r1) =>
                match skipWS r1 with
                | String ":" r2 =>
                    match pv r2 with
                    | Some (v, r3) =>
                        match skipWS r3 with
                        | String "," r4 => parseMembers n' pv r4 (acc ++ [(k, v)])%list
                        | String "}" r4 => Some ((acc ++ [(k, v)])%list, r4)
                        | _ => None
                        end
                    | None => None
                    end
                | _ => None
                end
            | None => None
            end
          else None
      | EmptyString => None
      end
  end.

(** One JSON value and the text after it; the fuel bounds the nesting. *)
Fixpoint parseValue (fuel : nat) (s : string) : option (value * string) :=
  match fuel with
  | O => None
  | S f =>
      let s := skipWS s in
      match s with
      | EmptyString => None
      | String c r =>
          if Ascii.eqb c "{" then
            match skipWS r with
            | String "}" r' => Some (Object [], r')
            | _ =>
                match parseMembers (String.length r) (parseValue f) r [] with
                | Some (ms, r') => Some (Object ms, r')
                | None => None
                end
            end
          else if Ascii.eqb c "[" then
            match skipWS r with
            | String "]" r' => Some (Array [], r')
            | _ =>
                match parseElems (String.length r) (parseValue f) r [] with
                | Some (es, r') => Some (Array es, r')
                | None => None
                end
            end
          else if Ascii.eqb c str.DQUOTE then
            match parseString (String.length r) r with
            | Some (t, r') => Some (Str t, r')
            | None => None
            end
          else if str.HasPrefix s "null" then Some (Null, str.drop 4 s)
          else if str.HasPrefix s "true" then Some (Bool true, str.drop 4 s)
          else if str.HasPrefix s "false" then Some (Bool false, str.drop 5 s)
          else
            match parseNumber s with
            | Some (raw, r') => Some (Number raw, r')
            | None => None
            end
      end
  end.

Definition SyntaxError : error := errorString "json: syntax error".

(** The scan [json.Unmarshal] starts with: the whole input is one JSON value,
    with white space around it at most. *)
Definition Parse (data : string) : Result value :=
  match parseValue (S (String.length data)) data with
  | Some (v, r) =>
      if String.eqb (skipWS r) EmptyString then Ok v else Err SyntaxError
  | None => Err SyntaxError
  end.

Definition kind (v : value) : string :=
  match v with
  | Null => "null"
  | Bool _ => "bool"
  | Number _ => "number"
  | Str _ => "string"
  | Array _ => "array"
  | Object _ => "object"
  end.

Definition UnmarshalTypeError (v : value) (goType : string) : error :=
  errorString ("json: cannot unmarshal " ++ kind v ++ " into Go value of type " ++ goType).

(** Escaping of a Go string as [json.Marshal] writes a [bool] field. *)
Definition marshalBool (b : bool) : string := if b then "true" else "false".

End json.

(** ** The package ([batch.go], [client.go]) *)

Definition maxMessages : nat := 500.
Definition multipartBoundary : string := "__END_OF_PART__".

Definition defaultEndpoint : string := "https://fcm.googleapis.com/v1".
Definition defaultBatchEndpoint : string := "https://fcm.googleapis.com/batch".
Definition apiFormatVersionHeader : string := "X-GOOG-API-FORMAT-VERSION".
Definition apiFormatVersion : string := "2".

(** The payload types of [Message], declared in [message.go]; the code here
    only copies their values. *)
Class Payloads : Type := {
  Data : Type;
  Notification : Type;
  AndroidConfig : Type;
  WebpushConfig : Type;
  ApnsConfig : Type
}.

(** The call log of one run: the steps whose order the specification speaks
    about, oldest first. [EvRequestBuilt] is the construction of the outer
    request object by [http.NewRequest], [EvToken] a call of the token
    provider, [EvDo] a request handed to the transport. *)
Inductive Event : Type :=
| EvRequestBuilt (req : http.Request)
| EvToken
| EvDo (req : http.Request).

Definition World : Type := list Event.

(** Code that may fail and that extends the call log. *)
Definition M (A : Type) : Type := World -> Result A * World.

Definition ret {A} (a : A) : M A := fun w => (Ok a, w).
Definition fail {A} (e : error) : M A := fun w => (Err e, w).
Definition bindM {A B} (m : M A) (k : A -> M B) : M B :=
  fun w => match m w with
           | (Ok a, w') => k a w'
           | (Err e, w') => (Err e, w')
           end.
Definition liftR {A} (r : Result A) : M A := fun w => (r, w).
Definition emit (ev : Event) : M unit := fun w => (Ok tt, (w ++ [ev])%list).

Notation "x <~ m ;; k" := (bindM m (fun x => k))
  (at level 61, m at next level, right associativity).

(** [SendResponse] is declared in [message.go]; these are the fields the
    batch decoder sets. *)
Record SendResponse : Type := mkSendResponse {
  Success : bool;
  MessageID : string;
  ErrorCode : Z;
  ErrorBody : string
}.

(** [MulticastResponse]; the counters are Go [int]s, far from wrapping since
    they count parts of a body held in memory. *)
Record MulticastResponse : Type := mkMulticastResponse {
  SuccessCount : Z;
  FailureCount : Z;
  Responses : list SendResponse
}.

Record fcmResponse : Type := mkFcmResponse {
  Name : string
}.

(** The token provider of [client.go]'s [Client]; its implementation is in
    another file, the package calls [token()]. *)
Record tokenProvider : Type := mkTokenProvider {
  token : unit -> Result string
}.

Record Client : Type := mkClient {
  projectID : string;
  fcmEndpoint : string;
  batchEndpoint : string;
  sendEndpoint : string;
  client : http.Client;
  tokenProvider_ : tokenProvider
}.

Section Fcm.

Context {P : Payloads}.

(** [Message]: the fields this package and the command line tool read or
    write. *)
Record Message : Type := mkMessage {
  Token : string;
  Topic : string;
  Condition : string;
  MData : Data;
  MNotification : Notification;
  Android : AndroidConfig;
  Webpush : WebpushConfig;
  Apns : ApnsConfig
}.

(** The methods of a [Message] pointer the batch code calls: [Validate]
    ([None] for a message that passes) and the JSON encoding. Both are
    defined in [message.go]. *)
Class MessageMethods : Type := {
  Validate : ptr Message -> option error;
  MarshalJSON : Message -> Result string
}.

Context {methods : MessageMethods}.

Record MulticastMessage : Type := mkMulticastMessage {
  Tokens : list string;
  MMessage : ptr Message
}.

(** [func (mm *MulticastMessage) toMessages() ([]*Message, error)].
    [mm.Message] is dereferenced inside the loop, so a nil [Message] panics
    at the first token. *)
Definition MulticastMessage_toMessages (mm : MulticastMessage)
  : Call (list (ptr Message)) :=
  if (List.length (Tokens mm) =? 0)%nat then
    Returns (Err (errorString "tokens must not be nil or empty"))
  else if (maxMessages <? List.length (Tokens mm))%nat then
    Returns (Err (errorString
      ("tokens must not contain more than " ++ strconv.Itoa maxMessages ++ " elements")))
  else
    match MMessage mm with
    | None => Panics
    | Some msg =>
        Returns (Ok (List.map (fun token =>
          Some {| Token := token;
                  Topic := EmptyString;
                  Condition := EmptyString;
                  MData := MData msg;
                  MNotification := MNotification msg;
                  Android := Android msg;
                  Webpush := Webpush msg;
                  Apns := Apns msg |}) (Tokens mm)))
    end.

(** [func toMessages(message *MulticastMessage) ([]*Message, error)] *)
Definition toMessages (message : ptr MulticastMessage) : Call (list (ptr Message)) :=
  match message with
  | None => Returns (Err (errorString "message must not be nil"))
  | Some mm => MulticastMessage_toMessages mm
  end.

Record fcmRequest : Type := mkFcmRequest {
  ValidateOnly : bool;
  Message_ : ptr Message
}.

(** [part]: an HTTP request that is sent embedded in a batch request.
    [headers] is a Go map, listed here in the order the loop of [bytes]
    visits it; [body] always holds a pointer to an [fcmRequest]. *)
Record part : Type := mkPart {
  method : string;
  url : string;
  headers : list (string * string);
  body : fcmRequest
}.

Record multipartEntity : Type := mkMultipartEntity {
  parts : list part
}.

Definition quote (s : string) : string :=
  String str.DQUOTE (s ++ String str.DQUOTE EmptyString).

(** [json.Marshal] of a [*fcmRequest]: the fields in declaration order under
    their tags, both with [omitempty]. *)
Definition Marshal_fcmRequest (r : fcmRequest) : Result string :=
  message <- match Message_ r with
             | None => Ok []
             | Some m => b <- MarshalJSON m ;; Ok [quote "message" ++ ":" ++ b]
             end ;;
  let validateOnly :=
    if ValidateOnly r then [quote "validate_only" ++ ":" ++ json.marshalBool true] else [] in
  Ok ("{" ++ String.concat "," (validateOnly ++ message)%list ++ "}").

(** [func (p *part) bytes() ([]byte, error)] *)
Definition part_bytes (p : part) : Result string :=
  b <- Marshal_fcmRequest (body p) ;;
  req <- http.NewRequest (method p) (url p) b ;;
  let req := List.fold_left (fun r kv => http.setHeader r (fst kv) (snd kv)) (headers p) req in
  let req := http.setHeader req "Content-Type" "application/json; charset=UTF-8" in
  let req := http.setHeader req "User-Agent" EmptyString in
  http.Request_Write req.

(** The MIME header [writeTo] gives the part at index [idx] whose encoded
    request is [b]. *)
Definition partHeader (b : string) (idx : nat) : textproto.MIMEHeader :=
  let header := [] in
  let header := textproto.Add header "Content-Length" (strconv.Itoa (String.length b)) in
  let header := textproto.Add header "Content-Type" "application/http" in
  let header := textproto.Add header "Content-Id" (strconv.Itoa (idx + 1)) in
  let header := textproto.Add header "Content-Transfer-Encoding" "binary" in
  header.

(** [func (p *part) writeTo(writer *multipart.Writer, idx int) error]; the
    writer is returned as the call leaves it. *)
Definition part_writeTo (p : part) (writer : multipart.Writer) (idx : nat)
  : Result multipart.Writer :=
  b <- part_bytes p ;;
  part <- multipart.CreatePart writer (partHeader b idx) ;;
  multipart.Write part b.

(** [func (e *multipartEntity) Mime() string] *)
Definition multipartEntity_Mime (e : multipartEntity) : string :=
  "multipart/mixed; boundary=" ++ multipartBoundary.

(** The loop of [Bytes] from index [idx] on. *)
Fixpoint Bytes_loop (writer : multipart.Writer) (idx : nat) (ps : list part)
  : Result multipart.Writer :=
  match ps with
  | [] => Ok writer
  | p :: rest =>
      writer' <- part_writeTo p writer idx ;;
      Bytes_loop writer' (S idx) rest
  end.

(** [func (e *multipartEntity) Bytes() ([]byte, error)]. The result of
    [SetBoundary] is not looked at. *)
Definition multipartEntity_Bytes (e : multipartEntity) : Result string :=
  let writer := multipart.NewWriter EmptyString in
  let writer := fst (multipart.SetBoundary writer multipartBoundary) in
  writer <- Bytes_loop writer 0 (parts e) ;;
  Ok (multipart.buf (multipart.Close writer)).

(** The validation loop of [newBatchRequest] from index [idx] on. *)
Fixpoint newBatchRequest_parts (c : Client) (dryRun : bool)
  (headers : list (string * string)) (idx : nat) (messages : list (ptr Message))
  : Result (list part) :=
  match messages with
  | [] => Ok []
  | m :: rest =>
      match Validate m with
      | Some err =>
          Err (errorString ("invalid message at index " ++ strconv.Itoa idx
                            ++ ": " ++ Error err))
      | None =>
          let p := {| method := http.MethodPost;
                      url := sendEndpoint c;
                      body := {| Message_ := m; ValidateOnly := dryRun |};
                      headers := headers |} in
          ps <- newBatchRequest_parts c dryRun headers (S idx) rest ;;
          Ok (p :: ps)
      end
  end.

(** [func (c *Client) newBatchRequest(messages []*Message, dryRun bool)
    ( *http.Request, error)] *)
Definition newBatchRequest (c : Client) (messages : list (ptr Message)) (dryRun : bool)
  : M http.Request :=
  let headers := [(apiFormatVersionHeader, apiFormatVersion)] in
  ps <~ liftR (newBatchRequest_parts c dryRun headers 0 messages) ;;
  let body := {| parts := ps |} in
  bodyBytes <~ liftR (multipartEntity_Bytes body) ;;
  req <~ liftR (http.NewRequest http.MethodPost (batchEndpoint c) bodyBytes) ;;
  _ <~ emit (EvRequestBuilt req) ;;
  _ <~ emit EvToken ;;
  token <~ liftR (token (tokenProvider_ c) tt) ;;
  let req := http.addHeader req "Authorization" ("Bearer " ++ token) in
  let req := http.addHeader req "Content-Type" (multipartEntity_Mime body) in
  ret req.

(** [json.Unmarshal(b, &result)] for [result] of type [fcmResponse]: the
    member [name] (matched without regard to case) must be a string or null;
    other members are skipped; the first type error is the one returned. *)
Fixpoint decodeMembers (ms : list (string * json.value)) (result : fcmResponse)
  (saved : option error) : Result fcmResponse :=
  match ms with
  | [] => match saved with
          | None => Ok result
          | Some e => Err e
          end
  | (k, v) :: rest =>
      if String.eqb (str.ToLower k) "name" then
        match v with
        | json.Str s => decodeMembers rest {| Name := s |} saved
        | json.Null => decodeMembers rest result saved
        | _ =>
            decodeMembers rest result
              (match saved with
               | None => Some (json.UnmarshalTypeError v "string")
               | Some e => Some e
               end)
        end
      else decodeMembers rest result saved
  end.

Definition Unmarshal_fcmResponse (b : string) : Result fcmResponse :=
  v <- json.Parse b ;;
  match v with
  | json.Object ms => decodeMembers ms {| Name := EmptyString |} None
  | json.Null => Ok {| Name := EmptyString |}
  | _ => Err (json.UnmarshalTypeError v "fcm.fcmResponse")
  end.

(** [func newSendResponse(part *multipart.Part) ( *SendResponse, error)] *)
Definition newSendResponse (part : multipart.Part) : Result SendResponse :=
  match http.ReadResponse (multipart.content part) with
  | Err err => Err (errorString ("error parsing multipart body: " ++ Error err))
  | Ok hr =>
      b <- io.ReadAll (http.RBody hr) ;;
      if negb (http.StatusCode hr =? http.StatusOK)%Z then
        Ok {| Success := false;
              MessageID := EmptyString;
              ErrorCode := http.StatusCode hr;
              ErrorBody := b |}
      else
        result <- Unmarshal_fcmResponse b ;;
        Ok {| Success := true;
              MessageID := Name result;
              ErrorCode := 0;
              ErrorBody := EmptyString |}
  end.

(** The [for] loop of [newBatchResponse]. Every part read shortens what is
    left of the body, so the loop ends; [fuel] bounds its rounds and [None]
    is the loop cut short by it. *)
Fixpoint newBatchResponse_loop (fuel : nat) (mr : multipart.Reader)
  (responses : list SendResponse) (successCount : Z)
  : option (Result MulticastResponse) :=
  match fuel with
  | O => None
  | S fuel' =>
      match multipart.NextPart mr with
      | Err io_EOF =>
          Some (Ok {| Responses := responses;
                      SuccessCount := successCount;
                      FailureCount := Z.of_nat (List.length responses) - successCount |})
      | Err err => Some (Err err)
      | Ok (part, mr') =>
          match newSendResponse part with
          | Err err => Some (Err err)
          | Ok sr =>
              newBatchResponse_loop fuel' mr' (responses ++ [sr])%list
                (if Success sr then successCount + 1 else successCount)%Z
          end
      end
  end.

Definition errLoopCutShort : error := errorString "loop cut short".

(** [func newBatchResponse(resp *http.Response) ( *MulticastResponse, error)] *)
Definition newBatchResponse (resp : http.Response) : Result MulticastResponse :=
  match mime.ParseMediaType (textproto.Get (http.Header_ resp) "Content-Type") with
  | Err err => Err (errorString ("error parsing content-type header: " ++ Error err))
  | Ok (_, params) =>
      let mr := multipart.NewReader (http.RBody resp) (mime.get params "boundary") in
      match newBatchResponse_loop (S (String.length (io.data (http.RBody resp)))) mr [] 0 with
      | Some r => r
      | None => Err errLoopCutShort
      end
  end.

(** The [HttpError] of [sendBatch] for a response that is not [200]. For a
    status of 500 and above the text goes through [fmt.Errorf] once more as a
    format; the dumps are empty where dumping fails. *)
Definition batchHttpError (request : http.Request) (resp : http.Response) : error :=
  let requestBytes := match http.DumpRequest request with Ok b => b | Err _ => EmptyString end in
  let responseBytes := match http.DumpResponse resp with Ok b => b | Err _ => EmptyString end in
  let text := strconv.FormatInt (http.StatusCode resp) ++ " error: " ++ http.Status resp in
  if (http.StatusInternalServerError <=? http.StatusCode resp)%Z then
    HttpError requestBytes responseBytes (errorString (fmt.noOperands text))
  else
    HttpError requestBytes responseBytes (errorString text).

(** Lines 146 to 174 of [sendBatch]: what it does with a list that passed the
    two size checks. *)
Definition sendBatch_exchange (c : Client) (messages : list (ptr Message)) (dryRun : bool)
  : M MulticastResponse :=
  request <~ newBatchRequest c messages dryRun ;;
  _ <~ emit (EvDo request) ;;
  let (exchange, unread) := http.Do (client c) request in
  resp <~ liftR exchange ;;
  if negb (http.StatusCode resp =? http.StatusOK)%Z then
    fail (batchHttpError (http.withBody request unread) resp)
  else liftR (newBatchResponse resp).

(** [func (c *Client) sendBatch(ctx context.Context, messages []*Message,
    dryRun bool) ( *MulticastResponse, error)]; [ctx] is not used by it. *)
Definition sendBatch (c : Client) (messages : list (ptr Message)) (dryRun : bool)
  : M MulticastResponse :=
  if (List.length messages =? 0)%nat then
    fail (errorString "messages must not be nil or empty")
  else if (maxMessages <? List.length messages)%nat then
    fail (errorString ("messages must not contain more than "
                       ++ strconv.Itoa maxMessages ++ " elements"))
  else sendBatch_exchange c messages dryRun.

(** [SendAll], [SendAllDryRun] *)
Definition SendAll (c : Client) (messages : list (ptr Message)) : M MulticastResponse :=
  sendBatch c messages false.

Definition SendAllDryRun (c : Client) (messages : list (ptr Message)) : M MulticastResponse :=
  sendBatch c messages true.

(** [SendMulticast], [SendMulticastDryRun] *)
Definition SendMulticast (c : Client) (message : ptr MulticastMessage) (w : World)
  : Call MulticastResponse * World :=
  match toMessages message with
  | Panics => (Panics, w)
  | Returns (Err err) => (Returns (Err err), w)
  | Returns (Ok messages) => let (r, w') := SendAll c messages w in (Returns r, w')
  end.

Definition SendMulticastDryRun (c : Client) (message : ptr MulticastMessage) (w : World)
  : Call MulticastResponse * World :=
  match toMessages message with
  | Panics => (Panics, w)
  | Returns (Err err) => (Returns (Err err), w)
  | Returns (Ok messages) => let (r, w') := SendAllDryRun c messages w in (Returns r, w')
  end.

(** *** Notions the statements use *)

(** [Reaches mr ps mr']: successive calls of [NextPart] from [mr] return the
    parts [ps], in this order, and leave the reader as [mr']. *)
Inductive Reaches : multipart.Reader -> list multipart.Part -> multipart.Reader -> Prop :=
| Reaches_nil : forall mr, Reaches mr [] mr
| Reaches_cons : forall mr p mr1 ps mr',
    multipart.NextPart mr = Ok (p, mr1) ->
    Reaches mr1 ps mr' ->
    Reaches mr (p :: ps) mr'.

(** [PartsOf mr ps]: the reader yields exactly the parts [ps] and then
    [io.EOF]. *)
Definition PartsOf (mr : multipart.Reader) (ps : list multipart.Part) : Prop :=
  exists mr', Reaches mr ps mr' /\ multipart.NextPart mr' = Err io_EOF.

(** The number of [Success] outcomes. *)
Fixpoint countSuccess (rs : list SendResponse) : Z :=
  match rs with
  | [] => 0
  | sr :: t => (if Success sr then 1 else 0) + countSuccess t
  end.


(** The message id as the single-message path ([send] in [client.go])
    returns it: the text after the last slash of the resource name. *)
Fixpoint afterLastSlash (name : string) : string :=
  match name with
  | EmptyString => EmptyString
  | String c r =>
      if str.all (fun x => negb (Ascii.eqb x "/")) r
      then (if Ascii.eqb c "/" then r else name)
      else afterLastSlash r
  end.

(** The part a list of size-checked messages gets for message [m]
    ([newBatchRequest], lines 221 to 229). *)
Definition batchItem (c : Client) (m : ptr Message) (dryRun : bool) : part :=
  {| method := http.MethodPost;
     url := sendEndpoint c;
     body := {| Message_ := m; ValidateOnly := dryRun |};
     headers := [(apiFormatVersionHeader, apiFormatVersion)] |}.

End Fcm.

(** *** The envelope in the words of the specification *)

(** One part on the wire: the delimiter line, the four header lines in the
    sorted order the writer uses, a blank line and the encoded message. *)
Definition specPart (boundary : string) (i : nat) (b : string) : string :=
  (if (i =? 0)%nat then EmptyString else str.CRLF)
  ++ "--" ++ boundary ++ str.CRLF
  ++ "Content-Id: " ++ strconv.Itoa (i + 1) ++ str.CRLF
  ++ "Content-Length: " ++ strconv.Itoa (String.length b) ++ str.CRLF
  ++ "Content-Transfer-Encoding: binary" ++ str.CRLF
  ++ "Content-Type: application/http" ++ str.CRLF
  ++ str.CRLF
  ++ b.

Fixpoint specParts (boundary : string) (i : nat) (encoded : list string) : string :=
  match encoded with
  | [] => EmptyString
  | b :: t => specPart boundary i b ++ specParts boundary (S i) t
  end.

(** The [multipart/mixed] body for the encoded messages [encoded]. *)
Definition specEnvelope (boundary : string) (encoded : list string) : string :=
  specParts boundary 0 encoded ++ str.CRLF ++ "--" ++ boundary ++ "--" ++ str.CRLF.

(** *** The encoded batch item *)

(** The raw HTTP/1.1 request a batch item is encoded as: request line with
    the request URI, [Host], [Content-Length], the content type, the API
    format version under its canonical name, a blank line, the JSON body. *)
Definition itemWire (requestURI host json : string) : string :=
  "POST " ++ requestURI ++ " HTTP/1.1" ++ str.CRLF
  ++ "Host: " ++ host ++ str.CRLF
  ++ "Content-Length: " ++ strconv.Itoa (String.length json) ++ str.CRLF
  ++ "Content-Type: application/json; charset=UTF-8" ++ str.CRLF
  ++ "X-Goog-Api-Format-Version: 2" ++ str.CRLF
  ++ str.CRLF
  ++ json.

(** The request [part.bytes] writes for an item whose URL parsed as [u] and
    whose body encoded as [json], after its three [Header.Set] calls. *)
Definition itemRequest (u : url.URL) (json : string) : http.Request :=
  {| http.Method := "POST";
     http.URL := {| url.Scheme := url.Scheme u;
                    url.Host := http.removeEmptyPort (url.Host u);
                    url.Path := url.Path u |};
     http.Host := http.removeEmptyPort (url.Host u);
     http.RHeader := [("Content-Type", ["application/json; charset=UTF-8"]);
                      ("User-Agent", [EmptyString]);
                      ("X-Goog-Api-Format-Version", ["2"])];
     http.Body := json;
     http.ContentLength := String.length json |}.

(** What parsing that request recovers. *)
Definition itemParsed (requestURI host json : string) : http.ParsedRequest :=
  {| http.PMethod := "POST";
     http.PRequestURI := requestURI;
     http.PProto := "HTTP/1.1";
     http.PHost := host;
     http.PHeader :=
       [("Content-Length", [strconv.Itoa (String.length json)]);
        ("Content-Type", ["application/json; charset=UTF-8"]);
        ("X-Goog-Api-Format-Version", ["2"])];
     http.PBody := io.ofString json |}.

(** What a parsed request holds of an item sent to [requestURI] on [host]
    with the body [json]. *)
Definition itemRecovered (rq : http.ParsedRequest) (requestURI host json : string) : Prop :=
  http.PMethod rq = "POST"
  /\ http.PRequestURI rq = requestURI
  /\ http.PProto rq = "HTTP/1.1"
  /\ http.PHost rq = host
  /\ http.PHeader rq
     = [("Content-Length", [strconv.Itoa (String.length json)]);
        ("Content-Type", ["application/json; charset=UTF-8"]);
        ("X-Goog-Api-Format-Version", ["2"])]
  /\ io.ReadAll (http.PBody rq) = Ok json.

(** The round trip in the words of the specification: the parsed request has
    the item's method, its URL, each of its headers under the item's own
    name, and the JSON body. *)
Definition recoversItem {P : Payloads} (p : part) (json : string)
  (rq : http.ParsedRequest) : Prop :=
  http.PMethod rq = method p
  /\ http.PRequestURI rq = url p
  /\ (forall k v, In (k, v) (headers p) -> textproto.lookup k (http.PHeader rq) = Some [v])
  /\ io.ReadAll (http.PBody rq) = Ok json.

Definition noLF (s : string) : Prop :=
  str.all (fun x => negb (Ascii.eqb x str.LF)) s = true.

(** ** The single-message path, the constructor and the options
    ([client.go], [option.go]) *)

Module strings.

(** [strings.LastIndex(s, sep)] for a separator of one byte: the index of
    its last occurrence in [s], [-1] when there is none. *)
Fixpoint LastIndex (s : string) (sep : ascii) : Z :=
  match s with
  | EmptyString => (-1)%Z
  | String c r =>
      let i := LastIndex r sep in
      if (0 <=? i)%Z then (i + 1)%Z
      else if Ascii.eqb c sep then 0%Z else (-1)%Z
  end.

End strings.

(** A byte other than the slash. *)
Definition notSlash (c : ascii) : bool := negb (Ascii.eqb c "/").

(** [json.NewDecoder(r).Decode]: the next JSON value of the stream; what
    follows the value is not looked at. A stream that holds white space only
    ends with the reader's own error ([io.EOF] for a clean end). The model
    does not tell a value cut off by the end of the stream from a malformed
    one: both are the reader's error if it has one and a syntax error
    otherwise. *)
Definition Decoder_Decode (r : io.Reader) : Result json.value :=
  match json.parseValue (S (String.length (io.data r))) (io.data r) with
  | Some (v, _) => Ok v
  | None =>
      if String.eqb (json.skipWS (io.data r)) EmptyString then Err (io.atEnd (io.fail r))
      else match io.fail r with
           | Some e => Err e
           | None => Err json.SyntaxError
           end
  end.

(** The type [MessageResponse] local to [send]. *)
Record MessageResponse : Type := mkMessageResponse {
  MRName : string
}.

(** [json.NewDecoder(resp.Body).Decode(response)] for [response] of type
    [*MessageResponse]; the member [name] is decoded as for [fcmResponse]. *)
Definition Decode_MessageResponse (r : io.Reader) : Result MessageResponse :=
  v <- Decoder_Decode r ;;
  match v with
  | json.Object ms =>
      result <- decodeMembers ms {| Name := EmptyString |} None ;;
      Ok {| MRName := Name result |}
  | json.Null => Ok {| MRName := EmptyString |}
  | _ => Err (json.UnmarshalTypeError v "fcm.MessageResponse")
  end.

(** [func (c *Client) send(ctx context.Context, data []byte) (messageID
    string, err error)], for a context that is not nil. The statements for a
    status other than [200] (lines 105 to 121) are those of [sendBatch]. *)
Definition Client_send (c : Client) (data : string) : M string :=
  req <~ liftR (http.NewRequest "POST" (sendEndpoint c) data) ;;
  _ <~ emit (EvRequestBuilt req) ;;
  _ <~ emit EvToken ;;
  token <~ liftR (token (tokenProvider_ c) tt) ;;
  let req := http.addHeader req "Authorization" ("Bearer " ++ token) in
  let req := http.addHeader req "Content-Type" "application/json" in
  _ <~ emit (EvDo req) ;;
  let (exchange, unread) := http.Do (client c) req in
  resp <~ liftR exchange ;;
  if negb (http.StatusCode resp =? http.StatusOK)%Z then
    fail (batchHttpError (http.withBody req unread) resp)
  else
    response <~ liftR (Decode_MessageResponse (http.RBody resp)) ;;
    let lastIndex := strings.LastIndex (MRName response) "/" in
    if (lastIndex <? Z.of_nat (String.length (MRName response)))%Z then
      ret (str.drop (Z.to_nat (lastIndex + 1)) (MRName response))
    else ret EmptyString.

(** [Option]: a function that changes the client it is given and returns an
    error or nil; the client is returned as the call leaves it. *)
Definition Option : Type := Client -> Client * option error.

Definition set_fcmEndpoint (c : Client) (endpoint : string) : Client :=
  {| projectID := projectID c; fcmEndpoint := endpoint;
     batchEndpoint := batchEndpoint c; sendEndpoint := sendEndpoint c;
     client := client c; tokenProvider_ := tokenProvider_ c |}.

Definition set_batchEndpoint (c : Client) (endpoint : string) : Client :=
  {| projectID := projectID c; fcmEndpoint := fcmEndpoint c;
     batchEndpoint := endpoint; sendEndpoint := sendEndpoint c;
     client := client c; tokenProvider_ := tokenProvider_ c |}.

Definition set_client (c : Client) (httpClient : http.Client) : Client :=
  {| projectID := projectID c; fcmEndpoint := fcmEndpoint c;
     batchEndpoint := batchEndpoint c; sendEndpoint := sendEndpoint c;
     client := httpClient; tokenProvider_ := tokenProvider_ c |}.

(** [func WithEndpoints(endpoint, batchEndpoint string) Option]. Both tests
    of the source look at [endpoint]. *)
Definition WithEndpoints (endpoint batchEndpoint : string) : Option :=
  fun c =>
    if String.eqb endpoint EmptyString then (c, Some (errorString "invalid endpoint"))
    else
      let c := set_fcmEndpoint c endpoint in
      if String.eqb endpoint EmptyString then (c, Some (errorString "invalid batchEndpoint"))
      else (set_batchEndpoint c batchEndpoint, None).

(** [func WithHTTPClient(httpClient *http.Client) Option], for a client that
    is not nil. *)
Definition WithHTTPClient (httpClient : http.Client) : Option :=
  fun c => (set_client c httpClient, None).

(** The loop of [NewClient] over its options. *)
Fixpoint applyOptions (c : Client) (opts : list Option) : Result Client :=
  match opts with
  | [] => Ok c
  | o :: rest =>
      match o c with
      | (_, Some err) => Err err
      | (c', None) => applyOptions c' rest
      end
  end.

(** What [NewClient] takes from outside this package's files:
    [newTokenProvider] (another file of the package) and
    [http.DefaultClient]. *)
Class Runtime : Type := {
  newTokenProvider : string -> Result tokenProvider;
  DefaultClient : http.Client
}.

(** [func NewClient(projectID string, credentialsLocation string,
    opts ...Option) ( *Client, error)] *)
Definition NewClient {rt : Runtime} (projectId credentialsLocation : string)
  (opts : list Option) : Result Client :=
  tp <- newTokenProvider credentialsLocation ;;
  let c := {| projectID := projectId;
              fcmEndpoint := defaultEndpoint;
              batchEndpoint := defaultBatchEndpoint;
              sendEndpoint := EmptyString;
              client := DefaultClient;
              tokenProvider_ := tp |} in
  let c := {| projectID := projectID c;
              fcmEndpoint := fcmEndpoint c;
              batchEndpoint := batchEndpoint c;
              sendEndpoint := fcmEndpoint c ++ "/projects/" ++ projectID c
                              ++ "/messages:send";
              client := client c;
              tokenProvider_ := tokenProvider_ c |} in
  applyOptions c opts.

(** The options this package exports; the fields of [Client] are not
    exported, so no option written outside the package can set them. *)
Inductive PackageOption : Option -> Prop :=
| PackageOption_endpoints : forall endpoint batchEndpoint,
    PackageOption (WithEndpoints endpoint batchEndpoint)
| PackageOption_client : forall httpClient,
    PackageOption (WithHTTPClient httpClient).

Section Single.

Context {P : Payloads} {methods : MessageMethods}.

(** [SendRequest] is declared in [message.go]: the code here reads its field
    [Message] and hands the value to [json.Marshal]. *)
Class SendRequestDecl : Type := {
  SendRequest : Type;
  SRMessage : SendRequest -> ptr Message;
  Marshal_SendRequest : SendRequest -> Result string
}.

Context {decl : SendRequestDecl}.

(** [func (c *Client) Send(ctx context.Context, req *SendRequest) (string,
    error)]; a nil [req] panics where its field is read. *)
Definition Client_Send (c : Client) (req : ptr SendRequest) (w : World)
  : Call string * World :=
  match req with
  | None => (Panics, w)
  | Some req =>
      match Validate (SRMessage req) with
      | Some err => (Returns (Err err), w)
      | None =>
          match Marshal_SendRequest req with
          | Err err => (Returns (Err err), w)
          | Ok data => let (r, w') := Client_send c data w in (Returns r, w')
          end
      end
  end.

End Single.

(** ** The command line tool ([cmd/fcm-send/main.go]) *)

(** The values [setupNotification] reads from the command line. *)
Record Flags : Type := mkFlags {
  flag_topic : string;
  flag_tokens : list string;
  flag_condition : string;
  flag_title : string;
  flag_body : string;
  flag_validateOnly : bool;
  flag_credentialsLocation : string;
  flag_projectID : string
}.

Section Tool.

Context {P : Payloads} {methods : MessageMethods} {rt : Runtime}.

(** What the tool takes from [message.go] and from [encoding/json]: the nil
    values of the payload fields it leaves out, the [Notification] with a
    title and a body, and the indented JSON text of the result. *)
Class ToolDecl : Type := {
  nilData : Data;
  nilAndroid : AndroidConfig;
  nilWebpush : WebpushConfig;
  nilApns : ApnsConfig;
  newNotification : string -> string -> Notification;
  MarshalIndent : MulticastResponse -> Result string
}.

Context {tool : ToolDecl}.

(** The multicast message [setupNotification] builds from the flags. *)
Definition flagsMessage (f : Flags) : ptr MulticastMessage :=
  Some {| Tokens := flag_tokens f;
          MMessage := Some {| Token := EmptyString;
                              Topic := flag_topic f;
                              Condition := flag_condition f;
                              MData := nilData;
                              MNotification := newNotification (flag_title f) (flag_body f);
                              Android := nilAndroid;
                              Webpush := nilWebpush;
                              Apns := nilApns |} |}.

(** The message [toMessages] makes of [flagsMessage] for one registration
    token. *)
Definition flagsTarget (f : Flags) (token : string) : ptr Message :=
  Some {| Token := token; Topic := EmptyString; Condition := EmptyString;
          MData := nilData;
          MNotification := newNotification (flag_title f) (flag_body f);
          Android := nilAndroid; Webpush := nilWebpush; Apns := nilApns |}.

(** [func setupNotification(c *cli.Context) error]; the result is the text
    it prints. *)
Definition setupNotification (f : Flags) (w : World) : Call string * World :=
  let message := flagsMessage f in
  match NewClient (flag_projectID f) (flag_credentialsLocation f) [] with
  | Err err => (Returns (Err err), w)
  | Ok client =>
      let (result, w') :=
        if flag_validateOnly f then SendMulticast client message w
        else SendMulticastDryRun client message w in
      match result with
      | Panics => (Panics, w')
      | Returns (Err err) => (Returns (Err err), w')
      | Returns (Ok result) => (Returns (MarshalIndent result), w')
      end
  end.

End Tool.

(** *** Reading the envelope back *)

(** The delimiter a multipart reader looks for inside the body of a part:
    the newline and the dash-boundary. *)
Definition nlDashBoundary : string := str.CRLF ++ "--" ++ multipartBoundary.

(** The dash-boundary of the envelope. *)
Definition dashBoundary : string := "--" ++ multipartBoundary.

(** The close delimiter and what follows it. *)
Definition closeDelimiter : string := nlDashBoundary ++ "--" ++ str.CRLF.

(** Whether [pattern] begins nowhere in [s]. *)
Fixpoint freeOf (pattern s : string) : bool :=
  match s with
  | EmptyString => true
  | String _ r => negb (str.HasPrefix s pattern) && freeOf pattern r
  end.

(** An encoded item a multipart reader reads back whole: the delimiter
    occurs nowhere in it, and it does not start with two dashes. *)
Definition delimiterFree (b : string) : bool :=
  freeOf nlDashBoundary b && negb (str.HasPrefix b "--").

(** The header block the writer gives part [i] with content [b]. *)
Definition partHeaderText (b : string) (i : nat) : string :=
  "Content-Id: " ++ strconv.Itoa (i + 1) ++ str.CRLF
  ++ "Content-Length: " ++ strconv.Itoa (String.length b) ++ str.CRLF
  ++ "Content-Transfer-Encoding: binary" ++ str.CRLF
  ++ "Content-Type: application/http" ++ str.CRLF
  ++ str.CRLF.

(** The part a reader is to return for the encoded item [b] at index [i]. *)
Definition envPart (b : string) (i : nat) : multipart.Part :=
  {| multipart.Header := partHeader b i; multipart.content := io.ofString b |}.

(** The parts for the encoded items from index [i] on. *)
Fixpoint envelopeParts (i : nat) (encoded : list string) : list multipart.Part :=
  match encoded with
  | [] => []
  | b :: t => envPart b i :: envelopeParts (S i) t
  end.

(** The envelope from part [i] on. *)
Definition envelopeFrom (i : nat) (encoded : list string) : string :=
  specParts multipartBoundary i encoded ++ closeDelimiter.

(** A reader of the envelope that has read [k] parts and has [rest] before
    it. *)
Definition envReader (rest : string) (k : nat) : multipart.Reader :=
  {| multipart.rest := rest; multipart.tail := None;
     multipart.boundary := multipartBoundary;
     multipart.partsRead := k; multipart.nl := str.CRLF |}.

(** ** Concrete collaborators and inputs

    A stand-in for [message.go] (messages without payload, valid when they
    name a registration token) and a few clients, messages and responses on
    which the definitions are evaluated. *)

Definition exPayloads : Payloads :=
  {| Data := unit; Notification := unit; AndroidConfig := unit;
     WebpushConfig := unit; ApnsConfig := unit |}.

Definition exMethods : @MessageMethods exPayloads :=
  {| Validate := fun m =>
       match m with
       | None => Some (errorString "message must not be nil")
       | Some m => if String.eqb (@Token exPayloads m) EmptyString
                   then Some (errorString "no target given") else None
       end;
     MarshalJSON := fun m =>
       Ok ("{" ++ quote "token" ++ ":" ++ quote (@Token exPayloads m) ++ "}") |}.

Definition exMessage (tok : string) : ptr (@Message exPayloads) :=
  Some (@mkMessage exPayloads tok EmptyString EmptyString tt tt tt tt tt).

Definition exClient (transport : http.Client) (tok : Result string) : Client :=
  {| projectID := "p";
     fcmEndpoint := defaultEndpoint;
     batchEndpoint := defaultBatchEndpoint;
     sendEndpoint := defaultEndpoint ++ "/projects/p/messages:send";
     client := transport;
     tokenProvider_ := {| token := fun _ => tok |} |}.

(** A transport that answers every request with [resp] and reads the whole
    request body. *)
Definition answering (resp : http.Response) : http.Client :=
  {| http.Do := fun _ => (Ok resp, EmptyString) |}.

(** An embedded HTTP response inside a part of a batch response. *)
Definition exEmbedded (statusLine body : string) : string :=
  "Content-Type: application/http" ++ str.CRLF ++ str.CRLF
  ++ "HTTP/1.1 " ++ statusLine ++ str.CRLF
  ++ "Content-Type: application/json; charset=UTF-8" ++ str.CRLF ++ str.CRLF
  ++ body.

Fixpoint exParts (boundary : string) (embedded : list string) : string :=
  match embedded with
  | [] => EmptyString
  | e :: t => "--" ++ boundary ++ str.CRLF ++ e ++ str.CRLF ++ exParts boundary t
  end.

(** A batch response with the given status and embedded responses. *)
Definition exResponse (status : string) (code : Z) (contentType : string)
  (embedded : list string) : http.Response :=
  {| http.Status := status;
     http.StatusCode := code;
     http.Proto := "HTTP/1.1";
     http.Header_ := [("Content-Type", [contentType])];
     http.RBody := io.ofString (exParts "batch_x" embedded ++ "--batch_x--" ++ str.CRLF) |}.

Definition exName123 : string :=
  "{" ++ quote "name" ++ ":" ++ quote "projects/p/messages/123" ++ "}".

(** The synthetic response of the specification: a [200] part naming a
    message and a [404] part. *)
Definition exSynthetic : http.Response :=
  exResponse "200 OK" 200 "multipart/mixed; boundary=batch_x"
    [exEmbedded "200 OK" exName123; exEmbedded "404 Not Found" "not found"].

(** A [200] answer that holds one part only. *)
Definition exOnePart : http.Response :=
  exResponse "200 OK" 200 "multipart/mixed; boundary=batch_x"
    [exEmbedded "200 OK" exName123].

(** A [201] answer with a well-formed batch body. *)
Definition exCreated : http.Response :=
  exResponse "201 Created" 201 "multipart/mixed; boundary=batch_x"
    [exEmbedded "200 OK" exName123].




Definition exTokenError : error := errorString "oauth2: cannot fetch token".

Definition exA : ptr (@Message exPayloads) := exMessage "device-a".
Definition exB : ptr (@Message exPayloads) := exMessage "device-b".
Definition exInvalid : ptr (@Message exPayloads) := exMessage EmptyString.

Definition sendBatchEx (c : Client) (ms : list (ptr (@Message exPayloads))) (dry : bool)
  : Result MulticastResponse * World :=
  @sendBatch exPayloads exMethods c ms dry [].

(** The result the decoder gives for the synthetic response. *)
Definition exSyntheticResult : MulticastResponse :=
  {| SuccessCount := 1;
     FailureCount := 1;
     Responses :=
       [{| Success := true; MessageID := "projects/p/messages/123";
           ErrorCode := 0; ErrorBody := EmptyString |};
        {| Success := false; MessageID := EmptyString;
           ErrorCode := 404; ErrorBody := "not found" |}] |}.

Definition exItem : @part exPayloads :=
  batchItem (exClient (answering exSynthetic) (Ok "token")) exA false.

(** A transport that cannot reach the service. *)
Definition exDown : http.Client :=
  {| http.Do := fun _ => (Err (errorString "dial tcp: connection refused"), EmptyString) |}.

(** Messages as [exMethods] has them, except that the JSON encoding of the
    message for [device-b] fails. *)
Definition exFailingMethods : @MessageMethods exPayloads :=
  {| Validate := @Validate exPayloads exMethods;
     MarshalJSON := fun m =>
       if String.eqb (@Token exPayloads m) "device-b"
       then Err (errorString "json: unsupported value")
       else @MarshalJSON exPayloads exMethods m |}.

(** Answers of the service to a single message. *)
Definition exSingle : http.Response :=
  {| http.Status := "200 OK";
     http.StatusCode := 200;
     http.Proto := "HTTP/1.1";
     http.Header_ := [("Content-Type", ["application/json; charset=UTF-8"])];
     http.RBody := io.ofString exName123 |}.

Definition exNotFound : http.Response :=
  {| http.Status := "404 Not Found";
     http.StatusCode := 404;
     http.Proto := "HTTP/1.1";
     http.Header_ := [("Content-Type", ["text/plain"])];
     http.RBody := io.ofString "not found" |}.

(** A part of a batch response: a [200] whose JSON object has no member. *)
Definition exEmptyObjectPart : multipart.Part :=
  {| multipart.Header := [("Content-Type", ["application/http"])];
     multipart.content :=
       io.ofString
         ("HTTP/1.1 200 OK" ++ str.CRLF
          ++ "Content-Type: application/json; charset=UTF-8" ++ str.CRLF ++ str.CRLF
          ++ "{}") |}.

Definition exOuterRequest : http.Request :=
  {| http.Method := "POST";
     http.URL := {| url.Scheme := "https"; url.Host := "fcm.googleapis.com";
                    url.Path := "/batch" |};
     http.Host := "fcm.googleapis.com";
     http.RHeader := [("Authorization", ["Bearer token"])];
     http.Body := EmptyString;
     http.ContentLength := 0 |}.

(** A stand-in for [SendRequest]: the message alone, encoded as the batch
    items encode it. *)
Definition exSendRequestDecl : @SendRequestDecl exPayloads :=
  {| SendRequest := @Message exPayloads;
     SRMessage := fun req => Some req;
     Marshal_SendRequest := fun req =>
       @Marshal_fcmRequest exPayloads exMethods
         {| ValidateOnly := false; Message_ := Some req |} |}.

(** Credentials that are found unless their location is empty, and a default
    transport that answers with the synthetic batch response. *)
Definition exRuntime : Runtime :=
  {| newTokenProvider := fun location =>
       if String.eqb location EmptyString
       then Err (errorString "credentials: no location given")
       else Ok {| token := fun _ => Ok "token" |};
     DefaultClient := answering exSynthetic |}.

Definition exTool : @ToolDecl exPayloads :=
  {| nilData := (tt : @Data exPayloads);
     nilAndroid := (tt : @AndroidConfig exPayloads);
     nilWebpush := (tt : @WebpushConfig exPayloads);
     nilApns := (tt : @ApnsConfig exPayloads);
     newNotification := fun _ _ => (tt : @Notification exPayloads);
     MarshalIndent := fun result =>
       Ok (strconv.FormatInt (SuccessCount result) ++ " sent, "
           ++ strconv.FormatInt (FailureCount result) ++ " failed") |}.

(** A part of a batch response: a [200] that names the message. *)
Definition exNamedPart : multipart.Part :=
  {| multipart.Header := [("Content-Type", ["application/http"])];
     multipart.content :=
       io.ofString
         ("HTTP/1.1 200 OK" ++ str.CRLF
          ++ "Content-Type: application/json; charset=UTF-8" ++ str.CRLF ++ str.CRLF
          ++ exName123) |}.

(** A client whose token provider and transport answer. *)
Definition exReady : Client := exClient (answering exSynthetic) (Ok "token").

Definition exFlags (tokens : list string) (validateOnly : bool) : Flags :=
  {| flag_topic := "news";
     flag_tokens := tokens;
     flag_condition := EmptyString;
     flag_title := "hello";
     flag_body := "world";
     flag_validateOnly := validateOnly;
     flag_credentialsLocation := "key.json";
     flag_projectID := "p" |}.


(** * Properties *)

(** ** Running the monad *)

Ltac run := unfold bindM, liftR, emit, ret, fail in *.

(** ** Strings *)

Lemma sapp_assoc (a b c : string) : (a ++ b) ++ c = a ++ (b ++ c).
Proof.
  induction a as [| x a IH]; simpl; [reflexivity |]. rewrite IH. reflexivity.
Qed.

Lemma sapp_nil_r (a : string) : a ++ EmptyString = a.
Proof.
  induction a as [| x a IH]; simpl; [reflexivity |]. rewrite IH. reflexivity.
Qed.

Lemma all_app (p : ascii -> bool) (a b : string) :
  str.all p (a ++ b) = str.all p a && str.all p b.
Proof.
  induction a as [| x a IH]; simpl; [reflexivity |].
  rewrite IH, andb_assoc. reflexivity.
Qed.

Lemma all_impl (p q : ascii -> bool) (s : string) :
  (forall c, p c = true -> q c = true) -> str.all p s = true -> str.all q s = true.
Proof.
  intros Hpq. induction s as [| x s IH]; simpl; [reflexivity |].
  intros H. apply andb_true_iff in H as [Hx Hs].
  rewrite (Hpq x Hx), (IH Hs). reflexivity.
Qed.

(** Appends in right-nested form, literals pushed through. *)
Ltac norm_str :=
  repeat first [rewrite !sapp_assoc | progress cbn [String.append]].

Lemma take_length (s : string) : str.take (String.length s) s = s.
Proof.
  induction s as [| x s IH]; simpl; [reflexivity |]. rewrite IH. reflexivity.
Qed.

Lemma rev_acc_app (a b acc : string) :
  str.rev_acc (a ++ b) acc = str.rev_acc b (str.rev_acc a acc).
Proof.
  revert acc. induction a as [| x a IH]; intros acc; simpl; [reflexivity |]. apply IH.
Qed.

Lemma rev_acc_rev_acc (a b d : string) :
  str.rev_acc (str.rev_acc a b) d = str.rev_acc b (a ++ d).
Proof.
  revert b d. induction a as [| x a IH]; intros b d; simpl; [reflexivity |].
  rewrite IH. reflexivity.
Qed.

Lemma rev_involutive (s : string) : str.rev (str.rev s) = s.
Proof.
  unfold str.rev. rewrite rev_acc_rev_acc. simpl. apply sapp_nil_r.
Qed.

Lemma TrimLeft_head (p : ascii -> bool) (c : ascii) (s : string) :
  p c = false -> str.TrimLeft p (String c s) = String c s.
Proof.
  intros H. simpl. rewrite H. reflexivity.
Qed.

(** A text that ends with a byte outside [p] has nothing to trim on the
    right. *)
Lemma TrimRight_snoc (p : ascii -> bool) (s : string) (c : ascii) :
  p c = false ->
  str.TrimRight p (s ++ String c EmptyString) = s ++ String c EmptyString.
Proof.
  intros H. unfold str.TrimRight.
  assert (E : str.rev (s ++ String c EmptyString) = String c (str.rev s)).
  { unfold str.rev. rewrite rev_acc_app. reflexivity. }
  rewrite E, TrimLeft_head by exact H. rewrite <- E. apply rev_involutive.
Qed.

(** A non-empty text has a last byte. *)
Lemma snoc_cases (s : string) :
  s = EmptyString \/ exists s' c, s = s' ++ String c EmptyString.
Proof.
  induction s as [| x s [-> | [s' [c ->]]]].
  - left. reflexivity.
  - right. exists EmptyString, x. reflexivity.
  - right. exists (String x s'), c. reflexivity.
Qed.

Lemma Trim_guarded (p : ascii -> bool) (c : ascii) (a h : string) :
  p c = false ->
  h <> EmptyString ->
  str.all (fun x => negb (p x)) h = true ->
  str.Trim p (String c a ++ h) = String c a ++ h.
Proof.
  intros Hc Hne Hall. unfold str.Trim.
  change (String c a ++ h) with (String c (a ++ h)).
  rewrite TrimLeft_head by exact Hc.
  destruct (snoc_cases h) as [-> | [h' [d ->]]]; [congruence |].
  rewrite all_app in Hall. apply andb_true_iff in Hall as [_ Hd].
  simpl in Hd. rewrite andb_true_r in Hd. apply negb_true_iff in Hd.
  change (String c (a ++ h' ++ String d EmptyString))
    with (String c a ++ (h' ++ String d EmptyString)).
  rewrite <- sapp_assoc. apply TrimRight_snoc, Hd.
Qed.

Lemma TrimLeft_all (p : ascii -> bool) (s : string) :
  str.all (fun x => negb (p x)) s = true -> str.TrimLeft p s = s.
Proof.
  destruct s as [| c s]; simpl; [reflexivity |].
  intros H. apply andb_true_iff in H as [Hc _]. apply negb_true_iff in Hc.
  rewrite Hc. reflexivity.
Qed.

Lemma Trim_all (p : ascii -> bool) (s : string) :
  str.all (fun x => negb (p x)) s = true -> str.Trim p s = s.
Proof.
  intros H. destruct s as [| c s]; [reflexivity |].
  pose proof H as H'. simpl in H'. apply andb_true_iff in H' as [Hc Hs].
  apply negb_true_iff in Hc.
  destruct (snoc_cases s) as [-> | [s' [d ->]]].
  - unfold str.Trim. rewrite TrimLeft_head by exact Hc.
    apply (TrimRight_snoc p EmptyString c Hc).
  - change (String c (s' ++ String d EmptyString))
      with (String c s' ++ String d EmptyString).
    apply Trim_guarded; [exact Hc | discriminate |].
    rewrite all_app in Hs. apply andb_true_iff in Hs as [_ Hd]. exact Hd.
Qed.

Lemma Cut_app (sep : ascii) (a b : string) :
  str.all (fun x => negb (Ascii.eqb x sep)) a = true ->
  str.Cut (a ++ String sep b) sep = Some (a, b).
Proof.
  induction a as [| x a IH]; simpl; intros H.
  - rewrite Ascii.eqb_refl. reflexivity.
  - apply andb_true_iff in H as [Hx Ha]. apply negb_true_iff in Hx.
    rewrite Hx, (IH Ha). reflexivity.
Qed.

Lemma Cut_inv (sep : ascii) (s a b : string) :
  str.Cut s sep = Some (a, b) ->
  s = a ++ String sep b /\ str.all (fun x => negb (Ascii.eqb x sep)) a = true.
Proof.
  revert a b. induction s as [| x s IH]; simpl; intros a b H; [discriminate |].
  destruct (Ascii.eqb_spec x sep) as [-> | Hne].
  - injection H as <- <-. split; reflexivity.
  - destruct (str.Cut s sep) as [[a' b'] |]; [| discriminate].
    injection H as <- <-. destruct (IH a' b' eq_refl) as [-> Hall].
    split; [reflexivity |]. simpl. rewrite Hall.
    apply Ascii.eqb_neq in Hne. rewrite Hne. reflexivity.
Qed.

(** ** Lines *)

Lemma rawLines_line (l rest : string) :
  noLF l ->
  textproto.rawLines (l ++ String str.LF rest) = (l, rest) :: textproto.rawLines rest.
Proof.
  unfold noLF. induction l as [| x l IH]; simpl; intros H.
  - reflexivity.
  - apply andb_true_iff in H as [Hx Hl]. apply negb_true_iff in Hx.
    rewrite Hx, (IH Hl). reflexivity.
Qed.

Lemma chomp_CR (l : string) : textproto.chomp (l ++ String str.CR EmptyString) = l.
Proof.
  induction l as [| x l IH]; [reflexivity |].
  change (String x l ++ String str.CR EmptyString)
    with (String x (l ++ String str.CR EmptyString)).
  destruct l as [| y l]; [reflexivity |].
  change (textproto.chomp (String x (String y l ++ String str.CR EmptyString)))
    with (String x (textproto.chomp (String y l ++ String str.CR EmptyString))).
  rewrite IH. reflexivity.
Qed.

(** One round of the field loop on a line that holds a field, when the line
    after it is not a continuation. *)
Lemma readFields_step (n : nat) (l after : string) (t : list (string * string))
  (after0 : string) (m : textproto.MIMEHeader) (k v : string) :
  String.eqb (textproto.chomp l) EmptyString = false ->
  match t with
  | (l', _) :: _ => textproto.startsWithSpace l' = false
  | [] => True
  end ->
  str.Cut (textproto.trim (textproto.chomp l)) ":" = Some (k, v) ->
  str.all textproto.validHeaderFieldByte k = true ->
  String.eqb k EmptyString = false ->
  textproto.readFields (S n) ((l, after) :: t) after0 m
  = textproto.readFields n t after
      (textproto.upsert (fun vs => (vs ++ [str.TrimLeft str.isSpaceTab v])%list)
         (textproto.canon true k) m).
Proof.
  intros Hne Hnext Hcut Hvalid Hk. simpl. rewrite Hne.
  assert (E : textproto.continuation t after = (EmptyString, t, after)).
  { destruct t as [| [l' a'] t']; [reflexivity |]. simpl. rewrite Hnext. reflexivity. }
  rewrite E, sapp_nil_r, Hcut, Hvalid, Hk. reflexivity.
Qed.

(** ** Decimal text *)

Lemma to_uint_not_Nil (n : nat) : Nat.to_uint n <> Decimal.Nil.
Proof.
  intros H. pose proof (DecimalNat.Unsigned.to_of (Nat.to_uint n)) as E.
  rewrite DecimalNat.Unsigned.of_to, H in E. discriminate.
Qed.

Lemma digits_Itoa (n : nat) : strconv.digits (strconv.Itoa n) = Some n.
Proof.
  unfold strconv.digits, strconv.Itoa.
  rewrite NilZero.usu by apply to_uint_not_Nil.
  rewrite DecimalNat.Unsigned.of_to. reflexivity.
Qed.

Lemma string_of_uint_digits (d : Decimal.uint) :
  str.all str.isDigit (NilEmpty.string_of_uint d) = true.
Proof.
  induction d; simpl; try rewrite IHd; reflexivity.
Qed.

Lemma Itoa_digits (n : nat) : str.all str.isDigit (strconv.Itoa n) = true.
Proof.
  unfold strconv.Itoa, NilZero.string_of_uint.
  destruct (Nat.to_uint n); try reflexivity; apply string_of_uint_digits.
Qed.

Lemma Itoa_not_empty (n : nat) : strconv.Itoa n <> EmptyString.
Proof.
  unfold strconv.Itoa, NilZero.string_of_uint.
  pose proof (to_uint_not_Nil n) as H.
  destruct (Nat.to_uint n); simpl; congruence.
Qed.

(** ** Byte classes *)

Lemma pathByte_plain (c : ascii) :
  url.isPathByte c = true ->
  negb (Ascii.eqb c " ") = true /\ negb (Ascii.eqb c str.LF) = true.
Proof.
  destruct c as [[|] [|] [|] [|] [|] [|] [|] [|]]; vm_compute; intros H;
    (discriminate H || (split; reflexivity)).
Qed.

Lemma hostByte_plain (c : ascii) :
  url.isHostByte c || Ascii.eqb c ":" = true ->
  negb (str.isSpaceTab c) = true /\ negb (Ascii.eqb c str.LF) = true.
Proof.
  destruct c as [[|] [|] [|] [|] [|] [|] [|] [|]]; vm_compute; intros H;
    (discriminate H || (split; reflexivity)).
Qed.

Lemma digit_plain (c : ascii) :
  str.isDigit c = true ->
  negb (str.isSpaceTab c) = true
  /\ negb (Ascii.eqb c str.LF) = true
  /\ negb (textproto.isASCIISpace c) = true
  /\ negb (Ascii.eqb c ":") = true
  /\ url.isHostByte c = true.
Proof.
  destruct c as [[|] [|] [|] [|] [|] [|] [|] [|]]; vm_compute; intros H;
    (discriminate H || (repeat split; reflexivity)).
Qed.

(** ** URLs *)

Lemma Parse_ok (rawURL : string) (u : url.URL) :
  url.Parse rawURL = Ok u ->
  str.all url.isPathByte (url.Path u) = true /\ url.validAuthority (url.Host u) = true.
Proof.
  unfold url.Parse. intros H.
  destruct (negb (str.all _ rawURL)); [discriminate |].
  destruct (str.Cut rawURL ":") as [[scheme rest] |]; [| discriminate].
  destruct (url.validScheme scheme && str.HasPrefix rest "//"); [| discriminate].
  destruct (url.splitAuthority (str.drop 2 rest)) as [authority path].
  destruct (url.validAuthority authority && str.all url.isPathByte path) eqn:E;
    [| discriminate].
  injection H as <-. simpl. apply andb_true_iff in E as [Ha Hp]. split; assumption.
Qed.

Lemma TrimSuffixColon_app (x y : string) :
  y <> EmptyString ->
  http.TrimSuffixColon (x ++ y) = x ++ http.TrimSuffixColon y.
Proof.
  intros Hy. induction x as [| c x IH]; [reflexivity |].
  change (String c x ++ y) with (String c (x ++ y)).
  destruct (x ++ y) as [| d r] eqn:E.
  - destruct x; [simpl in E; congruence | discriminate].
  - simpl. simpl in IH. rewrite IH. reflexivity.
Qed.

Lemma TrimSuffixColon_id (y : string) :
  str.all (fun x => negb (Ascii.eqb x ":")) y = true -> http.TrimSuffixColon y = y.
Proof.
  induction y as [| c y IH]; [reflexivity |]. intros H.
  simpl in H. apply andb_true_iff in H as [Hc Hy]. apply negb_true_iff in Hc.
  destruct y as [| d y].
  - simpl. rewrite Hc. reflexivity.
  - change (http.TrimSuffixColon (String c (String d y)))
      with (String c (http.TrimSuffixColon (String d y))).
    rewrite (IH Hy). reflexivity.
Qed.

(** The host a request is written with: not empty, made of host bytes and
    colons. *)
Lemma removeEmptyPort_ok (a : string) :
  url.validAuthority a = true ->
  http.removeEmptyPort a <> EmptyString
  /\ str.all (fun c => url.isHostByte c || Ascii.eqb c ":") (http.removeEmptyPort a) = true.
Proof.
  unfold url.validAuthority, http.removeEmptyPort. intros H.
  destruct (str.Cut a ":") as [[h port] |] eqn:E.
  - apply Cut_inv in E as [-> _].
    apply andb_true_iff in H as [H Hport]. apply andb_true_iff in H as [Hne Hh].
    apply negb_true_iff, String.eqb_neq in Hne.
    assert (Hh' : str.all (fun c => url.isHostByte c || Ascii.eqb c ":") h = true).
    { eapply all_impl; [| exact Hh]. intros c Hc. rewrite Hc. reflexivity. }
    destruct port as [| d port].
    + rewrite TrimSuffixColon_app by discriminate. simpl. rewrite sapp_nil_r.
      split; assumption.
    + rewrite TrimSuffixColon_app by discriminate.
      assert (Hid : http.TrimSuffixColon (String ":" (String d port))
                    = String ":" (String d port)).
      { change (http.TrimSuffixColon (String ":" (String d port)))
          with (String ":" (http.TrimSuffixColon (String d port))).
        rewrite TrimSuffixColon_id; [reflexivity |].
        eapply all_impl; [| exact Hport]. intros c Hc. apply digit_plain, Hc. }
      rewrite Hid. split.
      * destruct h; [congruence | discriminate].
      * assert (Hp : str.all (fun c => url.isHostByte c || Ascii.eqb c ":")
                         (String d port) = true).
        { eapply all_impl; [| exact Hport].
          intros c Hc. destruct (digit_plain c Hc) as [_ [_ [_ [_ Hhb]]]].
          rewrite Hhb. reflexivity. }
        rewrite all_app, Hh'.
        change (str.all (fun c => url.isHostByte c || Ascii.eqb c ":")
                  (String ":" (String d port)))
          with (true && str.all (fun c => url.isHostByte c || Ascii.eqb c ":")
                          (String d port)).
        rewrite Hp. reflexivity.
  - apply andb_true_iff in H as [Hne Hh].
    apply negb_true_iff, String.eqb_neq in Hne. split; [exact Hne |].
    eapply all_impl; [| exact Hh]. intros c Hc. rewrite Hc. reflexivity.
Qed.

Lemma schemeByte_plain (c : ascii) :
  url.isSchemeByte c = true ->
  negb (Ascii.eqb c ":") = true /\ negb (url.isCTL c) = true.
Proof.
  destruct c as [[|] [|] [|] [|] [|] [|] [|] [|]]; vm_compute; intros H;
    first [split; reflexivity | discriminate H].
Qed.

Lemma authorityByte_plain (c : ascii) :
  url.isHostByte c || Ascii.eqb c ":" = true ->
  negb (Ascii.eqb c "/") = true /\ negb (url.isCTL c) = true.
Proof.
  destruct c as [[|] [|] [|] [|] [|] [|] [|] [|]]; vm_compute; intros H;
    first [split; reflexivity | discriminate H].
Qed.

Lemma pathByte_notCTL (c : ascii) :
  url.isPathByte c = true -> negb (url.isCTL c) = true.
Proof.
  destruct c as [[|] [|] [|] [|] [|] [|] [|] [|]]; vm_compute; intros H;
    first [reflexivity | discriminate H].
Qed.

Lemma validScheme_bytes (s : string) :
  url.validScheme s = true -> str.all url.isSchemeByte s = true.
Proof.
  destruct s as [| c s]; [discriminate |]. cbn [url.validScheme str.all].
  intros H. apply andb_true_iff in H as [Hc Hs]. rewrite Hs, andb_true_r.
  unfold url.isSchemeByte, str.isAlnum. rewrite Hc. reflexivity.
Qed.

Lemma validAuthority_bytes (a : string) :
  url.validAuthority a = true ->
  str.all (fun c => url.isHostByte c || Ascii.eqb c ":") a = true.
Proof.
  unfold url.validAuthority. intros H.
  destruct (str.Cut a ":") as [[h port] |] eqn:E.
  - apply Cut_inv in E as [-> _].
    apply andb_true_iff in H as [H Hport]. apply andb_true_iff in H as [_ Hh].
    rewrite all_app. cbn [str.all].
    rewrite (all_impl _ _ h (fun c Hc => eq_trans (f_equal (fun b => b || _) Hc) eq_refl) Hh).
    cbn. eapply all_impl; [| exact Hport].
    intros c Hc. destruct (digit_plain c Hc) as [_ [_ [_ [_ Hhb]]]]. rewrite Hhb. reflexivity.
  - apply andb_true_iff in H as [_ Hh].
    eapply all_impl; [| exact Hh]. intros c Hc. rewrite Hc. reflexivity.
Qed.

Lemma splitAuthority_app (a p : string) :
  str.all (fun c => negb (Ascii.eqb c "/")) a = true ->
  p = EmptyString \/ str.HasPrefix p "/" = true ->
  url.splitAuthority (a ++ p) = (a, p).
Proof.
  intros Ha Hp. induction a as [| c a IH].
  - cbn [String.append]. destruct Hp as [-> | Hp]; [reflexivity |].
    destruct p as [| x p]; [discriminate Hp |].
    cbn in Hp |- *. apply andb_true_iff in Hp as [Hx _]. rewrite Hx. reflexivity.
  - cbn [str.all] in Ha. apply andb_true_iff in Ha as [Hc Ha].
    apply negb_true_iff in Hc. cbn [String.append url.splitAuthority].
    rewrite Hc, (IH Ha). reflexivity.
Qed.

(** [url.Parse] on the URLs of the modelled form. *)
Lemma Parse_plain (scheme authority path : string) :
  url.validScheme scheme = true ->
  url.validAuthority authority = true ->
  str.all url.isPathByte path = true ->
  path = EmptyString \/ str.HasPrefix path "/" = true ->
  url.Parse (scheme ++ "://" ++ authority ++ path)
  = Ok {| url.Scheme := str.ToLower scheme; url.Host := authority; url.Path := path |}.
Proof.
  intros Hs Ha Hp Hslash.
  pose proof (validScheme_bytes scheme Hs) as Hsb.
  pose proof (validAuthority_bytes authority Ha) as Hab.
  unfold url.Parse.
  assert (Hctl : str.all (fun c => negb (url.isCTL c)) (scheme ++ "://" ++ authority ++ path)
                 = true).
  { rewrite !all_app.
    rewrite (all_impl _ _ scheme (fun c Hc => proj2 (schemeByte_plain c Hc)) Hsb).
    rewrite (all_impl _ _ authority (fun c Hc => proj2 (authorityByte_plain c Hc)) Hab).
    rewrite (all_impl _ _ path pathByte_notCTL Hp). reflexivity. }
  rewrite Hctl. cbn [negb].
  change (scheme ++ "://" ++ authority ++ path)
    with (scheme ++ String ":" ("//" ++ authority ++ path)).
  rewrite Cut_app
    by (exact (all_impl _ _ scheme (fun c Hc => proj1 (schemeByte_plain c Hc)) Hsb)).
  rewrite Hs. cbn [andb str.HasPrefix String.append Ascii.eqb Bool.eqb str.drop].
  assert (Hn : forall s, str.HasPrefix s EmptyString = true) by (intros []; reflexivity).
  rewrite Hn.
  rewrite splitAuthority_app;
    [| exact (all_impl _ _ authority (fun c Hc => proj1 (authorityByte_plain c Hc)) Hab)
     | exact Hslash].
  rewrite Ha, Hp. reflexivity.
Qed.

(** ** The readers consume their input *)

Lemma rawLines_after_shorter (s : string) :
  Forall (fun la => (String.length (snd la) < String.length s)%nat) (textproto.rawLines s).
Proof.
  induction s as [| c r IH]; simpl; [constructor |].
  destruct (Ascii.eqb c str.LF).
  - constructor; [simpl; lia |].
    eapply Forall_impl; [| exact IH]. simpl. intros; lia.
  - destruct (textproto.rawLines r) as [| [l a] t].
    + constructor; [simpl; lia | constructor].
    + inversion IH as [| x l' Hx Ht]; subst. constructor.
      * simpl in *. lia.
      * eapply Forall_impl; [| exact Ht]. simpl. intros; lia.
Qed.

Lemma slices_after_shorter (s : string) :
  Forall (fun la => (String.length (snd la) < String.length s)%nat) (multipart.slices s).
Proof.
  induction s as [| c r IH]; simpl; [constructor |].
  destruct (Ascii.eqb c str.LF).
  - constructor; [simpl; lia |].
    eapply Forall_impl; [| exact IH]. simpl. intros; lia.
  - destruct (multipart.slices r) as [| [l a] t].
    + constructor; [simpl; lia | constructor].
    + inversion IH as [| x l' Hx Ht]; subst. constructor.
      * simpl in *. lia.
      * eapply Forall_impl; [| exact Ht]. simpl. intros; lia.
Qed.

Lemma continuation_bound (n : nat) (ls : list (string * string)) :
  forall after more ls' rest,
    textproto.continuation ls after = (more, ls', rest) ->
    Forall (fun la => (String.length (snd la) <= n)%nat) ls ->
    Forall (fun la => (String.length (snd la) <= n)%nat) ls'.
Proof.
  induction ls as [| [l a] t IH]; intros after more ls' rest H Hall; simpl in H.
  - injection H as <- <- <-. constructor.
  - destruct (textproto.startsWithSpace l).
    + destruct (textproto.continuation t a) as [[more1 ls1] rest1] eqn:E.
      injection H as <- <- <-.
      inversion Hall; subst. eapply IH; eauto.
    + injection H as <- <- <-. exact Hall.
Qed.

Lemma readFields_rest_bound (n : nat) :
  forall k ls after m m' rest,
    textproto.readFields k ls after m = Ok (m', rest) ->
    Forall (fun la => (String.length (snd la) <= n)%nat) ls ->
    (String.length rest <= n)%nat.
Proof.
  induction k as [| k IH]; intros ls after m m' rest H Hall; simpl in H; [discriminate |].
  destruct ls as [| [l a] t]; [discriminate |].
  inversion Hall as [| x l' Hx Ht]; subst; simpl in Hx.
  destruct (String.eqb (textproto.chomp l) EmptyString).
  - injection H as <- <-. exact Hx.
  - destruct (textproto.continuation t a) as [[more ls'] rest'] eqn:E.
    pose proof (continuation_bound n t a more ls' rest' E Ht) as Hls'.
    destruct (str.Cut _ ":") as [[key v] |]; [| discriminate].
    destruct (negb (str.all textproto.validHeaderFieldByte key)); [discriminate |].
    destruct (String.eqb key EmptyString); eapply IH; eauto.
Qed.

Lemma ReadMIMEHeader_rest_bound (s : string) (m : textproto.MIMEHeader) (rest : string) :
  textproto.ReadMIMEHeader s = Ok (m, rest) ->
  (String.length rest <= String.length s)%nat.
Proof.
  unfold textproto.ReadMIMEHeader. intros H.
  destruct (textproto.rawLines s) as [| [l a] t] eqn:E; [discriminate |].
  destruct (textproto.startsWithSpace l); [discriminate |].
  eapply readFields_rest_bound; [exact H |].
  rewrite <- E. eapply Forall_impl; [| apply rawLines_after_shorter].
  simpl. intros; lia.
Qed.

Lemma scanUntilBoundary_bound (prefix : string) (s : string) :
  forall b remaining found,
    multipart.scanUntilBoundary s prefix = (b, remaining, found) ->
    (String.length remaining <= String.length s)%nat.
Proof.
  induction s as [| c r IH]; intros b remaining found H; simpl in H.
  - injection H as <- <- <-. simpl. lia.
  - destruct (multipart.atBoundary (String c r) prefix).
    + injection H as <- <- <-. lia.
    + destruct (multipart.scanUntilBoundary r prefix) as [[b1 rem1] f1] eqn:E.
      injection H as <- <- <-. specialize (IH _ _ _ eq_refl). simpl. lia.
Qed.

Lemma newPart_bound (r : multipart.Reader) (after : string) (p : multipart.Part)
  (r' : multipart.Reader) :
  multipart.newPart r after = Ok (p, r') ->
  (String.length (multipart.rest r') <= String.length after)%nat.
Proof.
  unfold multipart.newPart. intros H.
  destruct (textproto.ReadMIMEHeader after) as [[h bodyStart] | e] eqn:E; [| discriminate].
  apply ReadMIMEHeader_rest_bound in E.
  destruct (multipart.partBody r bodyStart) as [[body remaining] found] eqn:Eb.
  injection H as <- <-. simpl.
  unfold multipart.partBody in Eb.
  destruct (multipart.atBoundary bodyStart _).
  - injection Eb as <- <- <-. exact E.
  - apply scanUntilBoundary_bound in Eb. lia.
Qed.

Lemma nextPartLoop_bound (n : nat) (ls : list (string * string)) :
  forall r expect p r',
    Forall (fun la => (String.length (snd la) < n)%nat) ls ->
    multipart.nextPartLoop r ls expect = Ok (p, r') ->
    (String.length (multipart.rest r') < n)%nat.
Proof.
  induction ls as [| [line after] t IH]; intros r expect p r' Hall H; simpl in H;
    [discriminate |].
  inversion Hall as [| x l' Hx Ht]; subst; simpl in Hx.
  destruct (negb (multipart.terminated line)).
  { destruct (multipart.tail r); [discriminate |].
    destruct (multipart.isFinalBoundary r line); discriminate. }
  destruct (multipart.isBoundaryDelimiterLine r line) as [delim nl'].
  destruct delim.
  { apply newPart_bound in H. lia. }
  destruct (multipart.isFinalBoundary r line); [discriminate |].
  destruct expect; [discriminate |].
  destruct (multipart.partsRead r =? 0)%nat; [eapply IH; eauto |].
  destruct (String.eqb line (multipart.nl r)); [eapply IH; eauto | discriminate].
Qed.

(** Every part [NextPart] returns shortens what is left of the body. *)
Lemma NextPart_shorter (mr : multipart.Reader) (p : multipart.Part) (mr' : multipart.Reader) :
  multipart.NextPart mr = Ok (p, mr') ->
  (String.length (multipart.rest mr') < String.length (multipart.rest mr))%nat.
Proof.
  unfold multipart.NextPart. intros H.
  destruct (String.eqb (multipart.boundary mr) EmptyString); [discriminate |].
  eapply nextPartLoop_bound; [apply slices_after_shorter | exact H].
Qed.


(** ** The encoded item and its parse *)

Lemma Request_Write_item (u : url.URL) (json : string) :
  http.Request_Write (itemRequest u json)
  = Ok (itemWire (url.RequestURI u) (http.removeEmptyPort (url.Host u)) json).
Proof.
  unfold http.Request_Write, itemRequest.
  cbn [http.ContentLength http.Body http.Host http.URL http.Method http.RHeader url.Host].
  rewrite Nat.eqb_refl. cbn [negb].
  change (textproto.has _ "User-Agent") with true. cbv iota.
  change (http.sanitizeValue _) with "". 
  change (String.eqb "" "") with true. cbv iota.
  change (http.shouldSendContentLength "POST" (String.length json)) with
     ((0 <? String.length json)%nat || true).
  rewrite orb_true_r.
  change (http.WriteSubset _ http.reqWriteExcludeHeader)
    with ("Content-Type: application/json; charset=UTF-8" ++ str.CRLF ++ "X-Goog-Api-Format-Version: 2" ++ str.CRLF).
  assert (E : (if String.eqb (http.removeEmptyPort (url.Host u)) ""
               then http.removeEmptyPort (url.Host u)
               else http.removeEmptyPort (url.Host u)) = http.removeEmptyPort (url.Host u)).
  { destruct (String.eqb _ _); reflexivity. }
  rewrite E. unfold itemWire.
  f_equal. norm_str. reflexivity.
Qed.

Lemma noLF_app (a b : string) : noLF a -> noLF b -> noLF (a ++ b).
Proof. unfold noLF. intros Ha Hb. rewrite all_app, Ha, Hb. reflexivity. Qed.

Lemma ReadRequest_itemWire (ruri host json : string) :
  str.all (fun c => negb (Ascii.eqb c " ") && negb (Ascii.eqb c str.LF)) ruri = true ->
  host <> EmptyString ->
  str.all (fun c => url.isHostByte c || Ascii.eqb c ":") host = true ->
  http.ReadRequest (itemWire ruri host json) = Ok (itemParsed ruri host json).
Proof.
  intros Hruri Hhne Hhost.
  assert (Hruri_sp : str.all (fun c => negb (Ascii.eqb c " ")) ruri = true).
  { eapply all_impl; [| exact Hruri]. intros c Hc. apply andb_true_iff in Hc as [Hc _]. exact Hc. }
  assert (Hruri_lf : noLF ruri).
  { eapply all_impl; [| exact Hruri]. intros c Hc. apply andb_true_iff in Hc as [_ Hc]. exact Hc. }
  assert (Hhost_lf : noLF host).
  { eapply all_impl; [| exact Hhost]. intros c Hc. apply hostByte_plain, Hc. }
  assert (Hhost_sp : str.all (fun c => negb (str.isSpaceTab c)) host = true).
  { eapply all_impl; [| exact Hhost]. intros c Hc. apply hostByte_plain, Hc. }
  set (n := strconv.Itoa (String.length json)).
  assert (Hn_lf : noLF n).
  { eapply all_impl; [| apply Itoa_digits]. intros c Hc. apply digit_plain, Hc. }
  assert (Hn_sp : str.all (fun c => negb (str.isSpaceTab c)) n = true).
  { eapply all_impl; [| apply Itoa_digits]. intros c Hc. apply digit_plain, Hc. }
  assert (Hn_ws : str.all (fun c => negb (textproto.isASCIISpace c)) n = true).
  { eapply all_impl; [| apply Itoa_digits]. intros c Hc. apply digit_plain, Hc. }
  assert (Hn_ne : n <> EmptyString) by apply Itoa_not_empty.
  (* the lines *)
  set (l1 := "POST " ++ ruri ++ " HTTP/1.1").
  set (l2 := "Host: " ++ host).
  set (l3 := "Content-Length: " ++ n).
  set (l4 := "Content-Type: application/json; charset=UTF-8").
  set (l5 := "X-Goog-Api-Format-Version: 2").
  set (cr := String str.CR EmptyString).
  set (r5 := (cr ++ String str.LF json)).
  set (r4 := (l5 ++ cr) ++ String str.LF r5).
  set (r3 := (l4 ++ cr) ++ String str.LF r4).
  set (r2 := (l3 ++ cr) ++ String str.LF r3).
  set (r1 := (l2 ++ cr) ++ String str.LF r2).
  assert (Ewire : itemWire ruri host json = (l1 ++ cr) ++ String str.LF r1).
  { unfold itemWire, r1, r2, r3, r4, r5, l1, l2, l3, l4, l5, cr, str.CRLF. fold n.
    norm_str. reflexivity. }
  rewrite Ewire. unfold http.ReadRequest, textproto.ReadLine.
  rewrite rawLines_line.
  2:{ unfold l1, cr. repeat apply noLF_app; try reflexivity; assumption. }
  unfold cr at 1. rewrite chomp_CR.
  assert (Ecut1 : str.Cut l1 " " = Some ("POST", ruri ++ " HTTP/1.1")).
  { apply (Cut_app " " "POST"). reflexivity. }
  rewrite Ecut1.
  assert (Ecut2 : str.Cut (ruri ++ " HTTP/1.1") " " = Some (ruri, "HTTP/1.1")).
  { apply Cut_app, Hruri_sp. }
  rewrite Ecut2.
  change (negb (http.validMethod "POST")) with false.
  change (negb (http.ParseHTTPVersion "HTTP/1.1")) with false. cbv iota.
  assert (Elines : textproto.rawLines r1
                   = (l2 ++ cr, r2) :: (l3 ++ cr, r3) :: (l4 ++ cr, r4)
                     :: (l5 ++ cr, r5) :: (cr, json) :: textproto.rawLines json).
  { unfold r1, r2, r3, r4, r5.
    repeat (rewrite rawLines_line;
            [| unfold l2, l3, l4, l5, cr; repeat apply noLF_app; try reflexivity; assumption]).
    reflexivity. }
  assert (Ehdr : textproto.ReadMIMEHeader r1
                 = Ok ([("Content-Length", [n]);
                        ("Content-Type", ["application/json; charset=UTF-8"]);
                        ("Host", [host]);
                        ("X-Goog-Api-Format-Version", ["2"])], json)).
  { unfold textproto.ReadMIMEHeader. rewrite Elines.
    change (textproto.startsWithSpace (l2 ++ cr)) with false. cbv iota.
    cbn [List.length].
    rewrite (readFields_step _ (l2 ++ cr) r2 _ _ _ "Host" (String " " host)).
    2:{ unfold cr. rewrite chomp_CR. reflexivity. }
    2:{ reflexivity. }
    2:{ unfold cr. rewrite chomp_CR. unfold textproto.trim, l2.
        rewrite (Trim_guarded str.isSpaceTab "H" "ost: " host) by (reflexivity || assumption).
        apply (Cut_app ":" "Host"). reflexivity. }
    2,3: reflexivity.
    rewrite (readFields_step _ (l3 ++ cr) r3 _ _ _ "Content-Length" (String " " n)).
    2:{ unfold cr. rewrite chomp_CR. reflexivity. }
    2:{ reflexivity. }
    2:{ unfold cr. rewrite chomp_CR. unfold textproto.trim, l3.
        rewrite (Trim_guarded str.isSpaceTab "C" "ontent-Length: " n) by (reflexivity || assumption).
        apply (Cut_app ":" "Content-Length"). reflexivity. }
    2,3: reflexivity.
    rewrite (readFields_step _ (l4 ++ cr) r4 _ _ _ "Content-Type"
               " application/json; charset=UTF-8").
    2:{ unfold cr. rewrite chomp_CR. reflexivity. }
    2:{ reflexivity. }
    2:{ unfold cr. rewrite chomp_CR. reflexivity. }
    2,3: reflexivity.
    rewrite (readFields_step _ (l5 ++ cr) r5 _ _ _ "X-Goog-Api-Format-Version" " 2").
    2:{ unfold cr. rewrite chomp_CR. reflexivity. }
    2:{ reflexivity. }
    2:{ unfold cr. rewrite chomp_CR. reflexivity. }
    2,3: reflexivity.
    cbn [textproto.readFields].
    change (String.eqb (textproto.chomp cr) "") with true. cbv iota.
    change (str.TrimLeft str.isSpaceTab (String " " host))
      with (str.TrimLeft str.isSpaceTab host).
    change (str.TrimLeft str.isSpaceTab (String " " n))
      with (str.TrimLeft str.isSpaceTab n).
    rewrite (TrimLeft_all _ host Hhost_sp), (TrimLeft_all _ n Hn_sp).
    reflexivity. }
  rewrite Ehdr.
  change (textproto.has _ "Transfer-Encoding") with false. cbv iota.
  assert (Ecl : http.contentLength
                  [("Content-Length", [n]);
                   ("Content-Type", ["application/json; charset=UTF-8"]);
                   ("Host", [host]);
                   ("X-Goog-Api-Format-Version", ["2"])]
                = Ok (Some (String.length json))).
  { unfold http.contentLength.
    change (textproto.lookup "Content-Length" _) with (Some [n]). cbv iota.
    unfold textproto.TrimString. rewrite (Trim_all _ n Hn_ws).
    cbn [forallb]. unfold n. rewrite digits_Itoa. reflexivity. }
  rewrite Ecl. cbn [bindR]. rewrite Nat.leb_refl, take_length.
  reflexivity.
Qed.

Section Properties.

Context {P : Payloads} {methods : MessageMethods}.

(** ** Multicast fan-out *)

Lemma toMessages_fields (msg : Message) (tokens : list string) (i : nat) (tok : string) :
  nth_error tokens i = Some tok ->
  nth_error
    (List.map (fun token =>
       Some {| Token := token; Topic := EmptyString; Condition := EmptyString;
               MData := MData msg; MNotification := MNotification msg;
               Android := Android msg; Webpush := Webpush msg; Apns := Apns msg |})
       tokens) i
  = Some (Some {| Token := tok; Topic := EmptyString; Condition := EmptyString;
                  MData := MData msg; MNotification := MNotification msg;
                  Android := Android msg; Webpush := Webpush msg; Apns := Apns msg |}).
Proof.
  intros H. rewrite nth_error_map, H. reflexivity.
Qed.

(** C10. With a non-nil [Message] and 1 to 500 tokens, [toMessages] returns
    one message per token, in token order, the i-th carrying the i-th token
    and the shared message's [Data], [Notification], [Android], [Webpush] and
    [Apns]; a nil multicast message, an empty token list and a list of more
    than 500 tokens each give an error. *)
Theorem C10_toMessages :
  (forall (tokens : list string) (msg : Message),
      (1 <= List.length tokens <= maxMessages)%nat ->
      exists ms,
        toMessages (Some {| Tokens := tokens; MMessage := Some msg |}) = Returns (Ok ms)
        /\ List.length ms = List.length tokens
        /\ forall i tok, nth_error tokens i = Some tok ->
             exists m, nth_error ms i = Some (Some m)
                       /\ Token m = tok
                       /\ MData m = MData msg
                       /\ MNotification m = MNotification msg
                       /\ Android m = Android msg
                       /\ Webpush m = Webpush msg
                       /\ Apns m = Apns msg)
  /\ toMessages None = Returns (Err (errorString "message must not be nil"))
  /\ (forall mm, Tokens mm = [] ->
        toMessages (Some mm) = Returns (Err (errorString "tokens must not be nil or empty")))
  /\ (forall mm, (maxMessages < List.length (Tokens mm))%nat ->
        toMessages (Some mm)
        = Returns (Err (errorString "tokens must not contain more than 500 elements"))).
Proof.
  repeat split.
  - intros tokens msg [Hlo Hhi].
    unfold toMessages, MulticastMessage_toMessages; simpl.
    destruct (Nat.eqb_spec (List.length tokens) 0) as [E | _]; [lia |].
    destruct (Nat.ltb_spec maxMessages (List.length tokens)) as [E | _]; [lia |].
    eexists; split; [reflexivity |]. split.
    + apply length_map.
    + intros i tok Hi. eexists. split.
      * apply toMessages_fields, Hi.
      * repeat split.
  - intros mm H. unfold toMessages, MulticastMessage_toMessages. rewrite H. reflexivity.
  - intros mm H. unfold toMessages, MulticastMessage_toMessages.
    destruct (Nat.eqb_spec (List.length (Tokens mm)) 0) as [E | _]; [lia |].
    destruct (Nat.ltb_spec maxMessages (List.length (Tokens mm))) as [_ | E]; [| lia].
    reflexivity.
Qed.

(** ** Size checks and assembly *)

(** C6. [sendBatch] rejects the empty list and every list of more than 500
    messages with an error and an unchanged call log (no token call, nothing
    handed to the transport); a list of 1 to 500 messages passes both checks
    and goes on to assembly and exchange. *)
Theorem C6_size_precondition (c : Client) (ms : list (ptr Message)) (dry : bool) (w : World) :
  (ms = [] ->
     sendBatch c ms dry w = (Err (errorString "messages must not be nil or empty"), w))
  /\ ((maxMessages < List.length ms)%nat ->
       sendBatch c ms dry w
       = (Err (errorString "messages must not contain more than 500 elements"), w))
  /\ ((1 <= List.length ms <= maxMessages)%nat ->
       sendBatch c ms dry w = sendBatch_exchange c ms dry w).
Proof.
  unfold sendBatch. repeat split.
  - intros ->. reflexivity.
  - intros H.
    destruct (Nat.eqb_spec (List.length ms) 0) as [E | _]; [lia |].
    destruct (Nat.ltb_spec maxMessages (List.length ms)) as [_ | E]; [| lia].
    reflexivity.
  - intros [Hlo Hhi].
    destruct (Nat.eqb_spec (List.length ms) 0) as [E | _]; [lia |].
    destruct (Nat.ltb_spec maxMessages (List.length ms)) as [E | _]; [lia |].
    reflexivity.
Qed.

(** The validation loop stops at the first message that fails [Validate] and
    names its index. *)
Lemma newBatchRequest_parts_first_invalid (c : Client) (dry : bool)
  (hs : list (string * string)) (ms : list (ptr Message)) :
  forall (idx k : nat) (mk : ptr Message) (e : error),
    nth_error ms k = Some mk ->
    Validate mk = Some e ->
    (forall j m, (j < k)%nat -> nth_error ms j = Some m -> Validate m = None) ->
    newBatchRequest_parts c dry hs idx ms
    = Err (errorString ("invalid message at index " ++ strconv.Itoa (idx + k)
                        ++ ": " ++ Error e)).
Proof.
  induction ms as [| m ms IH]; intros idx k mk e Hk Hbad Hbefore.
  - destruct k; discriminate.
  - destruct k as [| k]; simpl in *.
    + injection Hk as ->. rewrite Hbad, Nat.add_0_r. reflexivity.
    + rewrite (Hbefore 0%nat m) by (reflexivity || lia).
      rewrite (IH (S idx) k mk e Hk Hbad).
      * simpl. rewrite Nat.add_succ_r. reflexivity.
      * intros j m' Hj Hm'. apply (Hbefore (S j) m'); [lia | exact Hm'].
Qed.

(** C5. A batch whose message at index [k] fails [Validate] while all others
    pass: assembly returns the error naming [k], with the call log unchanged
    (no outer request built, no token call, nothing handed to the transport),
    and so does [sendBatch] for a list within the size bound. No request and
    no envelope is returned. *)
Theorem C5_invalid_message_aborts (c : Client) (ms : list (ptr Message)) (dry : bool)
  (w : World) (k : nat) (mk : ptr Message) (e : error) :
  nth_error ms k = Some mk ->
  Validate mk = Some e ->
  (forall j m, j <> k -> nth_error ms j = Some m -> Validate m = None) ->
  newBatchRequest c ms dry w
  = (Err (errorString ("invalid message at index " ++ strconv.Itoa k ++ ": " ++ Error e)), w)
  /\ ((List.length ms <= maxMessages)%nat ->
      sendBatch c ms dry w
      = (Err (errorString ("invalid message at index " ++ strconv.Itoa k ++ ": " ++ Error e)),
         w)).
Proof.
  intros Hk Hbad Hothers.
  assert (Hparts : forall hs,
             newBatchRequest_parts c dry hs 0 ms
             = Err (errorString ("invalid message at index " ++ strconv.Itoa k
                                 ++ ": " ++ Error e))).
  { intros hs.
    apply (newBatchRequest_parts_first_invalid c dry hs ms 0 k mk e Hk Hbad).
    intros j m Hj. apply Hothers. lia. }
  assert (Hreq : newBatchRequest c ms dry w
                 = (Err (errorString ("invalid message at index " ++ strconv.Itoa k
                                      ++ ": " ++ Error e)), w)).
  { unfold newBatchRequest. run. rewrite Hparts. reflexivity. }
  split; [exact Hreq |].
  intros Hmax. unfold sendBatch.
  destruct (Nat.eqb_spec (List.length ms) 0) as [E | _].
  { destruct ms; [destruct k; discriminate | discriminate]. }
  destruct (Nat.ltb_spec maxMessages (List.length ms)) as [E | _]; [lia |].
  unfold sendBatch_exchange. run. rewrite Hreq. reflexivity.
Qed.

(** C7 (as the code has it). Let the token provider fail with [e]. If the
    messages pass validation, the envelope is encoded and [http.NewRequest]
    returns the request [req0], then the provider is called and [e] itself is
    returned: the call log gains the construction of [req0] and the call of
    the provider, [req0] is the request as [http.NewRequest] made it, with
    the envelope as body and no header set, and nothing is handed to the
    transport. If one of those steps fails, its error is returned and the
    call log is unchanged: the provider is not called. Within the size bound
    [sendBatch] returns what the assembly returns, outside it one of the size
    errors with the call log unchanged; the transport is never reached. *)
Theorem C7_token_failure (c : Client) (ms : list (ptr Message)) (dry : bool)
  (w : World) (e : error) :
  token (tokenProvider_ c) tt = Err e ->
  (forall ps bodyBytes req0,
      newBatchRequest_parts c dry [(apiFormatVersionHeader, apiFormatVersion)] 0 ms = Ok ps ->
      multipartEntity_Bytes {| parts := ps |} = Ok bodyBytes ->
      http.NewRequest http.MethodPost (batchEndpoint c) bodyBytes = Ok req0 ->
      newBatchRequest c ms dry w = (Err e, (w ++ [EvRequestBuilt req0; EvToken])%list)
      /\ ((1 <= List.length ms <= maxMessages)%nat ->
          sendBatch c ms dry w = (Err e, (w ++ [EvRequestBuilt req0; EvToken])%list))
      /\ http.RHeader req0 = []
      /\ http.Body req0 = bodyBytes
      /\ Forall (fun m => Validate m = None) ms)
  /\ (forall e1,
        newBatchRequest_parts c dry [(apiFormatVersionHeader, apiFormatVersion)] 0 ms = Err e1 ->
        newBatchRequest c ms dry w = (Err e1, w))
  /\ (forall ps e1,
        newBatchRequest_parts c dry [(apiFormatVersionHeader, apiFormatVersion)] 0 ms = Ok ps ->
        multipartEntity_Bytes {| parts := ps |} = Err e1 ->
        newBatchRequest c ms dry w = (Err e1, w))
  /\ (forall ps bodyBytes e1,
        newBatchRequest_parts c dry [(apiFormatVersionHeader, apiFormatVersion)] 0 ms = Ok ps ->
        multipartEntity_Bytes {| parts := ps |} = Ok bodyBytes ->
        http.NewRequest http.MethodPost (batchEndpoint c) bodyBytes = Err e1 ->
        newBatchRequest c ms dry w = (Err e1, w))
  /\ ((1 <= List.length ms <= maxMessages)%nat ->
      exists e1 w1,
        newBatchRequest c ms dry w = (Err e1, w1)
        /\ sendBatch c ms dry w = (Err e1, w1))
  /\ (~ (1 <= List.length ms <= maxMessages)%nat ->
      snd (sendBatch c ms dry w) = w /\ exists e1, fst (sendBatch c ms dry w) = Err e1)
  /\ (exists e1 ext,
        sendBatch c ms dry w = (Err e1, (w ++ ext)%list)
        /\ forall request, ~ In (EvDo request) ext).
Proof.
  intros Htok.
  assert (Hreached : forall ps bodyBytes req0,
      newBatchRequest_parts c dry [(apiFormatVersionHeader, apiFormatVersion)] 0 ms = Ok ps ->
      multipartEntity_Bytes {| parts := ps |} = Ok bodyBytes ->
      http.NewRequest http.MethodPost (batchEndpoint c) bodyBytes = Ok req0 ->
      newBatchRequest c ms dry w = (Err e, (w ++ [EvRequestBuilt req0; EvToken])%list)).
  { intros ps bodyBytes req0 Hps Hb Hr. unfold newBatchRequest. run.
    rewrite Hps, Hb, Hr, Htok. rewrite <- app_assoc. reflexivity. }
  assert (Hin : (1 <= List.length ms <= maxMessages)%nat ->
                exists e1 w1,
                  newBatchRequest c ms dry w = (Err e1, w1)
                  /\ sendBatch c ms dry w = (Err e1, w1)).
  { intros [Hlo Hhi]. unfold sendBatch.
    destruct (Nat.eqb_spec (List.length ms) 0) as [E | _]; [lia |].
    destruct (Nat.ltb_spec maxMessages (List.length ms)) as [E | _]; [lia |].
    unfold sendBatch_exchange. unfold bindM at 1.
    destruct (newBatchRequest c ms dry w) as [[request | e1] w1] eqn:Ereq;
      [| exists e1, w1; split; reflexivity].
    exfalso. unfold newBatchRequest in Ereq. run.
    destruct (newBatchRequest_parts c dry _ 0 ms); [| discriminate Ereq].
    destruct (multipartEntity_Bytes _); [| discriminate Ereq].
    destruct (http.NewRequest _ _ _); [| discriminate Ereq].
    rewrite Htok in Ereq. discriminate Ereq. }
  split; [| split; [| split; [| split; [| split; [| split]]]]].
  - intros ps bodyBytes req0 Hps Hb Hr.
    pose proof (Hreached ps bodyBytes req0 Hps Hb Hr) as Hnew.
    split; [exact Hnew |]. split.
    + intros Hlen. destruct (Hin Hlen) as [e1 [w1 [Hnew' Hsend]]].
      rewrite Hnew in Hnew'. injection Hnew' as <- <-. exact Hsend.
    + unfold http.NewRequest in Hr.
      destruct (negb _); [discriminate Hr |].
      destruct (url.Parse (batchEndpoint c)); [| discriminate Hr].
      cbn [bindR] in Hr. injection Hr as <-.
      split; [reflexivity |]. split; [reflexivity |].
      clear - Hps. revert ps Hps. generalize 0%nat.
      induction ms as [| m ms IH]; intros idx ps Hps; [constructor |].
      simpl in Hps. destruct (Validate m) eqn:Hm; [discriminate Hps |].
      destruct (newBatchRequest_parts c dry _ (S idx) ms) eqn:E; [| discriminate Hps].
      constructor; [exact Hm | exact (IH _ _ E)].
  - intros e1 Hps. unfold newBatchRequest. run. rewrite Hps. reflexivity.
  - intros ps e1 Hps Hb. unfold newBatchRequest. run. rewrite Hps, Hb. reflexivity.
  - intros ps bodyBytes e1 Hps Hb Hr. unfold newBatchRequest. run.
    rewrite Hps, Hb, Hr. reflexivity.
  - exact Hin.
  - intros Hout. unfold sendBatch.
    destruct (Nat.eqb_spec (List.length ms) 0) as [E | Hne];
      [split; [reflexivity | eexists; reflexivity] |].
    destruct (Nat.ltb_spec maxMessages (List.length ms)) as [E | Hle];
      [split; [reflexivity | eexists; reflexivity] |].
    exfalso. apply Hout. lia.
  - unfold sendBatch.
    destruct (List.length ms =? 0)%nat;
      [eexists; exists []; rewrite app_nil_r; split; [reflexivity | intros r []] |].
    destruct (maxMessages <? List.length ms)%nat;
      [eexists; exists []; rewrite app_nil_r; split; [reflexivity | intros r []] |].
    unfold sendBatch_exchange, newBatchRequest. run.
    destruct (newBatchRequest_parts c dry _ 0 ms) as [ps | e1];
      [| eexists; exists []; rewrite app_nil_r; split; [reflexivity | intros r []]].
    destruct (multipartEntity_Bytes _) as [bodyBytes | e1];
      [| eexists; exists []; rewrite app_nil_r; split; [reflexivity | intros r []]].
    destruct (http.NewRequest _ _ _) as [req0 | e1];
      [| eexists; exists []; rewrite app_nil_r; split; [reflexivity | intros r []]].
    rewrite Htok. exists e, [EvRequestBuilt req0; EvToken].
    split; [rewrite <- app_assoc; reflexivity |].
    intros r [H | [H | []]]; discriminate H.
Qed.

(** ** Decoding the batch response *)

(** What [newSendResponse] makes of a part whose embedded response parses and
    whose body can be read: a failure outcome with the status and the raw
    body for any status but 200, and for 200 whatever decoding the body as
    [fcmResponse] gives, the message id being the decoded [name]. *)
Lemma newSendResponse_outcome (part : multipart.Part) (hr : http.Response) (b : string) :
  http.ReadResponse (multipart.content part) = Ok hr ->
  io.ReadAll (http.RBody hr) = Ok b ->
  (http.StatusCode hr <> http.StatusOK ->
     newSendResponse part
     = Ok {| Success := false; MessageID := EmptyString;
             ErrorCode := http.StatusCode hr; ErrorBody := b |})
  /\ (http.StatusCode hr = http.StatusOK ->
      forall result, Unmarshal_fcmResponse b = Ok result ->
        newSendResponse part
        = Ok {| Success := true; MessageID := Name result;
                ErrorCode := 0; ErrorBody := EmptyString |})
  /\ (http.StatusCode hr = http.StatusOK ->
      forall e, Unmarshal_fcmResponse b = Err e -> newSendResponse part = Err e).
Proof.
  intros Hr Hb. unfold newSendResponse. rewrite Hr, Hb. simpl.
  repeat split.
  - intros Hne. apply Z.eqb_neq in Hne. rewrite Hne. reflexivity.
  - intros He result Hu. apply Z.eqb_eq in He. rewrite He, Hu. reflexivity.
  - intros He e Hu. apply Z.eqb_eq in He. rewrite He, Hu. reflexivity.
Qed.


(** With more fuel than bytes left, the loop is not cut short; a result it
    returns lists, after [acc], the outcomes of exactly the parts the reader
    yields, in their order, and counts the successes among them. *)
Lemma newBatchResponse_loop_spec (fuel : nat) :
  forall (mr : multipart.Reader) (acc : list SendResponse) (sc : Z),
    (String.length (multipart.rest mr) < fuel)%nat ->
    exists result,
      newBatchResponse_loop fuel mr acc sc = Some result
      /\ forall r, result = Ok r ->
           exists ps srs,
             PartsOf mr ps
             /\ Forall2 (fun p sr => newSendResponse p = Ok sr) ps srs
             /\ Responses r = (acc ++ srs)%list
             /\ SuccessCount r = (sc + countSuccess srs)%Z
             /\ FailureCount r = (Z.of_nat (List.length (Responses r)) - SuccessCount r)%Z.
Proof.
  induction fuel as [| fuel IH]; intros mr acc sc Hfuel; [lia |].
  simpl. destruct (multipart.NextPart mr) as [[p mr'] | e] eqn:Enext.
  - pose proof (NextPart_shorter _ _ _ Enext) as Hshort.
    destruct (newSendResponse p) as [sr | e] eqn:Esr.
    + destruct (IH mr' (acc ++ [sr])%list
                  (if Success sr then sc + 1 else sc)%Z ltac:(lia))
        as [result [Hres Hspec]].
      exists result. split; [exact Hres |].
      intros r Hr. destruct (Hspec r Hr) as [ps [srs [[mr'' [Hreach Heof]] [Hall [Hresp [Hsc Hfc]]]]]].
      exists (p :: ps), (sr :: srs). repeat split.
      * exists mr''. split; [econstructor; eauto | exact Heof].
      * constructor; assumption.
      * rewrite Hresp, <- app_assoc. reflexivity.
      * rewrite Hsc. simpl. destruct (Success sr); lia.
      * exact Hfc.
    + eexists. split; [reflexivity |]. intros r Hr. discriminate.
  - destruct e as [msg | | rq rs e'].
    + eexists. split; [reflexivity |]. intros r Hr. discriminate.
    + eexists. split; [reflexivity |]. intros r Hr. injection Hr as <-.
      exists [], []. simpl. repeat split.
      * exists mr. split; [constructor | exact Enext].
      * constructor.
      * rewrite app_nil_r. reflexivity.
      * lia.
    + eexists. split; [reflexivity |]. intros r Hr. discriminate.
Qed.


Lemma Forall_decodes_Forall2 (ps : list multipart.Part) :
  Forall (fun q => exists sr, newSendResponse q = Ok sr) ps ->
  exists srs, Forall2 (fun p sr => newSendResponse p = Ok sr) ps srs.
Proof.
  induction 1 as [| q ps [sr Hsr] _ [srs IH]].
  - exists []. constructor.
  - exists (sr :: srs). constructor; assumption.
Qed.

(** A batch result, when [newBatchResponse] returns one, holds the outcomes of
    the parts of the response, one per part and in their order. *)
Lemma newBatchResponse_ok (resp : http.Response) (r : MulticastResponse) :
  newBatchResponse resp = Ok r ->
  exists mediatype params ps,
    mime.ParseMediaType (textproto.Get (http.Header_ resp) "Content-Type")
    = Ok (mediatype, params)
    /\ PartsOf (multipart.NewReader (http.RBody resp) (mime.get params "boundary")) ps
    /\ Forall2 (fun p sr => newSendResponse p = Ok sr) ps (Responses r)
    /\ SuccessCount r = countSuccess (Responses r)
    /\ (SuccessCount r + FailureCount r)%Z = Z.of_nat (List.length (Responses r)).
Proof.
  unfold newBatchResponse. intros H.
  destruct (mime.ParseMediaType _) as [[mediatype params] | e]; [| discriminate].
  destruct (newBatchResponse_loop_spec
              (S (String.length (io.data (http.RBody resp))))
              (multipart.NewReader (http.RBody resp) (mime.get params "boundary"))
              [] 0%Z ltac:(simpl; lia)) as [result [Hres Hspec]].
  rewrite Hres in H. subst result.
  destruct (Hspec r eq_refl) as [ps [srs [Hparts [Hall [Hresp [Hsc Hfc]]]]]].
  simpl in Hresp. subst srs.
  exists mediatype, params, ps. repeat split; try assumption; lia.
Qed.

(** The decoder always returns: the fuel it gives its loop is enough. *)
Lemma newBatchResponse_not_cut_short (resp : http.Response) :
  forall mediatype params,
    mime.ParseMediaType (textproto.Get (http.Header_ resp) "Content-Type")
    = Ok (mediatype, params) ->
    exists result,
      newBatchResponse_loop (S (String.length (io.data (http.RBody resp))))
        (multipart.NewReader (http.RBody resp) (mime.get params "boundary")) [] 0
      = Some result
      /\ newBatchResponse resp = result.
Proof.
  intros mediatype params Hct.
  destruct (newBatchResponse_loop_spec
              (S (String.length (io.data (http.RBody resp))))
              (multipart.NewReader (http.RBody resp) (mime.get params "boundary"))
              [] 0%Z ltac:(simpl; lia)) as [result [Hres _]].
  exists result. split; [exact Hres |].
  unfold newBatchResponse. rewrite Hct, Hres. reflexivity.
Qed.

(** C1 (as the code has it). A batch call that returns a result got a [200]
    response from the transport; the outcomes are those of the parts of that
    response, one per part and in the order of the parts;
    [SuccessCount + FailureCount] is the number of outcomes and
    [SuccessCount] the number of successes among them. The number of parts is
    the service's: the code does not compare it with the number of
    messages. *)
Theorem C1_counts_and_order (c : Client) (ms : list (ptr Message)) (dry : bool)
  (w w' : World) (r : MulticastResponse) :
  sendBatch c ms dry w = (Ok r, w') ->
  (SuccessCount r + FailureCount r)%Z = Z.of_nat (List.length (Responses r))
  /\ SuccessCount r = countSuccess (Responses r)
  /\ exists request unread resp mediatype params ps,
       http.Do (client c) request = (Ok resp, unread)
       /\ http.StatusCode resp = http.StatusOK
       /\ mime.ParseMediaType (textproto.Get (http.Header_ resp) "Content-Type")
          = Ok (mediatype, params)
       /\ PartsOf (multipart.NewReader (http.RBody resp) (mime.get params "boundary")) ps
       /\ Forall2 (fun p sr => newSendResponse p = Ok sr) ps (Responses r)
       /\ List.length (Responses r) = List.length ps.
Proof.
  unfold sendBatch. intros H.
  destruct (List.length ms =? 0)%nat; [discriminate |].
  destruct (maxMessages <? List.length ms)%nat; [discriminate |].
  unfold sendBatch_exchange in H. run.
  destruct (newBatchRequest c ms dry w) as [[request | e] w1]; [| discriminate].
  destruct (http.Do (client c) request) as [exchange unread] eqn:Edo.
  destruct exchange as [resp | e]; [| discriminate].
  destruct (http.StatusCode resp =? http.StatusOK)%Z eqn:Est; simpl in H; [| discriminate].
  injection H as Hdec _.
  destruct (newBatchResponse_ok resp r Hdec)
    as [mediatype [params [ps [Hct [Hparts [Hall [Hsc Hsum]]]]]]].
  split; [exact Hsum |]. split; [exact Hsc |].
  exists request, unread, resp, mediatype, params, ps.
  repeat split; try assumption.
  - apply Z.eqb_eq, Est.
  - symmetry. eapply Forall2_length, Hall.
Qed.

Lemma countSuccess_bounds (rs : list SendResponse) :
  (0 <= countSuccess rs <= Z.of_nat (List.length rs))%Z.
Proof.
  induction rs as [| sr rs IH]; simpl; [lia |]. destruct (Success sr); lia.
Qed.

Lemma countSuccess_all_iff (rs : list SendResponse) :
  (countSuccess rs < Z.of_nat (List.length rs))%Z
  <-> Exists (fun sr => Success sr = false) rs.
Proof.
  induction rs as [| sr rs IH]; simpl.
  - split; [lia | intros H; inversion H].
  - pose proof (countSuccess_bounds rs) as Hb. split.
    + intros H. destruct (Success sr) eqn:E.
      * apply Exists_cons_tl, IH. lia.
      * apply Exists_cons_hd, E.
    + intros H. inversion H as [x l Hx | x l Hx]; subst.
      * rewrite Hx. lia.
      * apply IH in Hx. destruct (Success sr); lia.
Qed.

(** C2 (as the code has it). Once the request is assembled and the transport
    has answered: any status other than [200] fails the call with an
    [HttpError] that carries the dump of the request and the dump of the
    response, and no result; status [200] hands the response to
    [newBatchResponse], whose return value is the call's. An embedded
    response with a status other than [200] always becomes a failure outcome,
    never an error, and a result has [FailureCount > 0] exactly when it holds
    a failure outcome. *)
Theorem C2_outer_status (c : Client) (ms : list (ptr Message)) (dry : bool)
  (w w1 : World) (request : http.Request) (resp : http.Response) (unread : string) :
  (1 <= List.length ms <= maxMessages)%nat ->
  newBatchRequest c ms dry w = (Ok request, w1) ->
  http.Do (client c) request = (Ok resp, unread) ->
  (http.StatusCode resp <> http.StatusOK ->
     exists requestDump responseDump text,
       sendBatch c ms dry w
       = (Err (HttpError requestDump responseDump (errorString text)),
          (w1 ++ [EvDo request])%list)
       /\ http.DumpRequest (http.withBody request unread) = Ok requestDump
       /\ (forall d, http.DumpResponse resp = Ok d -> responseDump = d))
  /\ (http.StatusCode resp = http.StatusOK ->
      sendBatch c ms dry w = (newBatchResponse resp, (w1 ++ [EvDo request])%list)
      /\ forall r, newBatchResponse resp = Ok r ->
           (0 < FailureCount r)%Z <-> Exists (fun sr => Success sr = false) (Responses r))
  /\ (forall part hr b,
        http.ReadResponse (multipart.content part) = Ok hr ->
        io.ReadAll (http.RBody hr) = Ok b ->
        http.StatusCode hr <> http.StatusOK ->
        newSendResponse part
        = Ok {| Success := false; MessageID := EmptyString;
                ErrorCode := http.StatusCode hr; ErrorBody := b |}).
Proof.
  intros [Hlo Hhi] Hreq Hdo.
  assert (Hsend : sendBatch c ms dry w
                  = (if negb (http.StatusCode resp =? http.StatusOK)%Z
                     then Err (batchHttpError (http.withBody request unread) resp)
                     else newBatchResponse resp,
                     (w1 ++ [EvDo request])%list)).
  { unfold sendBatch.
    destruct (Nat.eqb_spec (List.length ms) 0) as [E | _]; [lia |].
    destruct (Nat.ltb_spec maxMessages (List.length ms)) as [E | _]; [lia |].
    unfold sendBatch_exchange. run. rewrite Hreq, Hdo.
    destruct (negb (http.StatusCode resp =? http.StatusOK)%Z); reflexivity. }
  split; [| split].
  - intros Hne. apply Z.eqb_neq in Hne. rewrite Hsend, Hne. simpl.
    unfold batchHttpError.
    destruct (http.DumpRequest (http.withBody request unread)) as [rq | e] eqn:Erq;
      [| discriminate].
    destruct (http.StatusInternalServerError <=? http.StatusCode resp)%Z;
      do 3 eexists; (split; [reflexivity | split; [reflexivity |]]);
      intros d Hd; rewrite Hd; reflexivity.
  - intros He. apply Z.eqb_eq in He. rewrite Hsend, He. split; [reflexivity |].
    intros r Hr.
    destruct (newBatchResponse_ok resp r Hr) as [mt [pa [ps [_ [_ [_ [Hsc Hsum]]]]]]].
    rewrite <- countSuccess_all_iff. lia.
  - intros part hr b Hr Hb Hne.
    apply (newSendResponse_outcome part hr b Hr Hb), Hne.
Qed.




(** ** The envelope *)

Lemma partHeader_exact (b : string) (idx : nat) :
  partHeader b idx
  = [("Content-Id", [strconv.Itoa (idx + 1)]);
     ("Content-Length", [strconv.Itoa (String.length b)]);
     ("Content-Transfer-Encoding", ["binary"]);
     ("Content-Type", ["application/http"])].
Proof. reflexivity. Qed.

Lemma part_writeTo_spec (p : part) (w w' : multipart.Writer) (idx : nat) :
  part_writeTo p w idx = Ok w' ->
  multipart.lastpart w = negb (idx =? 0)%nat ->
  exists b,
    part_bytes p = Ok b
    /\ multipart.buf w' = multipart.buf w ++ specPart (multipart.wboundary w) idx b
    /\ multipart.wboundary w' = multipart.wboundary w
    /\ multipart.lastpart w' = true.
Proof.
  unfold part_writeTo. intros H Hlast.
  destruct (part_bytes p) as [b | e]; [| discriminate].
  cbn [bindR] in H. rewrite partHeader_exact in H.
  unfold multipart.CreatePart, multipart.Write in H. cbn [bindR] in H.
  injection H as <-. exists b.
  cbn [multipart.buf multipart.wboundary multipart.lastpart].
  split; [reflexivity |]. split; [| split; reflexivity].
  rewrite Hlast. unfold specPart, str.CRLF.
  destruct (idx =? 0)%nat; cbn [negb]; norm_str; reflexivity.
Qed.

Lemma Bytes_loop_spec (ps : list part) :
  forall (w w' : multipart.Writer) (idx : nat),
    Bytes_loop w idx ps = Ok w' ->
    multipart.lastpart w = negb (idx =? 0)%nat ->
    exists encoded,
      Forall2 (fun p b => part_bytes p = Ok b) ps encoded
      /\ multipart.buf w' = multipart.buf w ++ specParts (multipart.wboundary w) idx encoded
      /\ multipart.wboundary w' = multipart.wboundary w.
Proof.
  induction ps as [| p ps IH]; intros w w' idx H Hlast; simpl in H.
  - injection H as <-. exists []. simpl. rewrite sapp_nil_r. repeat split. constructor.
  - destruct (part_writeTo p w idx) as [w1 | e] eqn:E; [| discriminate]. simpl in H.
    destruct (part_writeTo_spec p w w1 idx E Hlast) as [b [Hb [Hbuf [Hbd Hl]]]].
    destruct (IH w1 w' (S idx) H Hl) as [encoded [Hall [Hbuf' Hbd']]].
    exists (b :: encoded). repeat split.
    + constructor; assumption.
    + rewrite Hbuf', Hbuf, Hbd, sapp_assoc. reflexivity.
    + congruence.
Qed.

(** C8. The body [Bytes] builds is the [multipart/mixed] envelope with the
    boundary [__END_OF_PART__]: the part at 0-based position [i] holds the
    encoded HTTP message of the i-th item under exactly four headers,
    [Content-Id: i+1], [Content-Length:] the byte length of that message,
    [Content-Transfer-Encoding: binary] and [Content-Type: application/http];
    [Mime] names the same boundary. *)
Theorem C8_envelope (e : multipartEntity) (bytes : string) :
  multipartEntity_Bytes e = Ok bytes ->
  exists encoded,
    Forall2 (fun p b => part_bytes p = Ok b) (parts e) encoded
    /\ bytes = specEnvelope "__END_OF_PART__" encoded
    /\ multipartEntity_Mime e = "multipart/mixed; boundary=__END_OF_PART__"
    /\ forall i b, nth_error encoded i = Some b ->
         partHeader b i
         = [("Content-Id", [strconv.Itoa (i + 1)]);
            ("Content-Length", [strconv.Itoa (String.length b)]);
            ("Content-Transfer-Encoding", ["binary"]);
            ("Content-Type", ["application/http"])].
Proof.
  unfold multipartEntity_Bytes. intros H.
  change (fst (multipart.SetBoundary (multipart.NewWriter EmptyString) multipartBoundary))
    with {| multipart.buf := EmptyString; multipart.wboundary := multipartBoundary;
            multipart.lastpart := false |} in H.
  destruct (Bytes_loop _ 0 (parts e)) as [w' | err] eqn:E; [| discriminate].
  simpl in H. injection H as <-.
  destruct (Bytes_loop_spec (parts e) _ w' 0%nat E eq_refl) as [encoded [Hall [Hbuf Hbd]]].
  exists encoded. split; [exact Hall |]. split; [| split].
  - simpl in Hbuf, Hbd. rewrite Hbuf, Hbd. reflexivity.
  - reflexivity.
  - intros i b _. apply partHeader_exact.
Qed.

(** ** The part encoder *)

Lemma part_bytes_batchItem (c : Client) (m : ptr Message) (dry : bool) (encoded : string) :
  part_bytes (batchItem c m dry) = Ok encoded ->
  exists u json,
    url.Parse (sendEndpoint c) = Ok u
    /\ Marshal_fcmRequest {| Message_ := m; ValidateOnly := dry |} = Ok json
    /\ encoded = itemWire (url.RequestURI u) (http.removeEmptyPort (url.Host u)) json.
Proof.
  unfold part_bytes, batchItem. cbn [body method url headers].
  intros H.
  destruct (Marshal_fcmRequest _) as [json | e]; [| discriminate].
  cbn [bindR] in H. unfold http.NewRequest in H.
  change (if String.eqb http.MethodPost EmptyString then "GET" else http.MethodPost)
    with "POST" in H.
  change (negb (http.validMethod "POST")) with false in H. cbv iota in H.
  destruct (url.Parse (sendEndpoint c)) as [u | e]; [| discriminate].
  cbn [bindR] in H.
  exists u, json. split; [reflexivity |]. split; [reflexivity |].
  change (http.Request_Write (itemRequest u json) = Ok encoded) in H.
  rewrite Request_Write_item in H. injection H as <-. reflexivity.
Qed.

(** The parts assembly builds are the batch items of the messages. *)
Lemma newBatchRequest_parts_items (c : Client) (dry : bool) (ms : list (ptr Message)) :
  forall idx ps,
    newBatchRequest_parts c dry [(apiFormatVersionHeader, apiFormatVersion)] idx ms = Ok ps ->
    ps = List.map (fun m => batchItem c m dry) ms.
Proof.
  induction ms as [| m ms IH]; intros idx ps H; simpl in H.
  - injection H as <-. reflexivity.
  - destruct (Validate m); [discriminate |].
    destruct (newBatchRequest_parts c dry _ (S idx) ms) as [ps' | e] eqn:E; [| discriminate].
    injection H as <-. simpl. rewrite (IH _ _ E). reflexivity.
Qed.

Lemma part_bytes_batchItem_ok (c : Client) (m : ptr Message) (dry : bool)
  (u : url.URL) (json : string) :
  url.Parse (sendEndpoint c) = Ok u ->
  Marshal_fcmRequest {| Message_ := m; ValidateOnly := dry |} = Ok json ->
  part_bytes (batchItem c m dry)
  = Ok (itemWire (url.RequestURI u) (http.removeEmptyPort (url.Host u)) json).
Proof.
  intros Hu Hj. unfold part_bytes, batchItem. cbn [body method url headers].
  rewrite Hj. cbn [bindR]. unfold http.NewRequest.
  change (if String.eqb http.MethodPost EmptyString then "GET" else http.MethodPost)
    with "POST".
  change (negb (http.validMethod "POST")) with false. cbv iota.
  rewrite Hu. cbn [bindR].
  change (http.Request_Write (itemRequest u json)
          = Ok (itemWire (url.RequestURI u) (http.removeEmptyPort (url.Host u)) json)).
  apply Request_Write_item.
Qed.

(** C9 (as the code has it). For an item whose URL has the form
    [scheme://host[:port][/path]] with a path that needs no escaping, and
    whose request encodes as JSON, the part encoder succeeds, and parsing its
    bytes as a raw HTTP/1.1 request recovers the method POST, as request URI
    the path of the URL ([/] for an empty path), as host the host of the URL,
    the headers [Content-Length], [Content-Type] and the API format version
    under its canonical name, and the JSON body byte for byte. The send
    endpoint of the package, the default endpoint followed by the project id,
    has this form for every project id of such bytes. The scheme of the URL
    is not in the bytes, and no [User-Agent] is. *)
Theorem C9_item_round_trip (c : Client) (m : ptr Message) (dry : bool) (json : string) :
  Marshal_fcmRequest {| Message_ := m; ValidateOnly := dry |} = Ok json ->
  (forall scheme authority path,
      sendEndpoint c = scheme ++ "://" ++ authority ++ path ->
      url.validScheme scheme = true ->
      url.validAuthority authority = true ->
      str.all url.isPathByte path = true ->
      path = EmptyString \/ str.HasPrefix path "/" = true ->
      exists encoded rq,
        part_bytes (batchItem c m dry) = Ok encoded
        /\ http.ReadRequest encoded = Ok rq
        /\ itemRecovered rq (if String.eqb path EmptyString then "/" else path)
             (http.removeEmptyPort authority) json)
  /\ (forall projectId,
        sendEndpoint c = defaultEndpoint ++ "/projects/" ++ projectId ++ "/messages:send" ->
        str.all url.isPathByte projectId = true ->
        exists encoded rq,
          part_bytes (batchItem c m dry) = Ok encoded
          /\ http.ReadRequest encoded = Ok rq
          /\ itemRecovered rq ("/v1/projects/" ++ projectId ++ "/messages:send")
               "fcm.googleapis.com" json).
Proof.
  intros Hj.
  assert (Hform : forall scheme authority path,
      sendEndpoint c = scheme ++ "://" ++ authority ++ path ->
      url.validScheme scheme = true ->
      url.validAuthority authority = true ->
      str.all url.isPathByte path = true ->
      path = EmptyString \/ str.HasPrefix path "/" = true ->
      exists encoded rq,
        part_bytes (batchItem c m dry) = Ok encoded
        /\ http.ReadRequest encoded = Ok rq
        /\ itemRecovered rq (if String.eqb path EmptyString then "/" else path)
             (http.removeEmptyPort authority) json).
  { intros scheme authority path Hurl Hs Ha Hp Hslash.
    pose proof (Parse_plain scheme authority path Hs Ha Hp Hslash) as Hu.
    rewrite <- Hurl in Hu.
    pose proof (part_bytes_batchItem_ok c m dry _ json Hu Hj) as Hb.
    unfold url.RequestURI in Hb. cbn [url.Host url.Path] in Hb.
    destruct (removeEmptyPort_ok _ Ha) as [Hne Hhost].
    eexists. eexists. split; [exact Hb |]. split.
    - apply ReadRequest_itemWire; [| exact Hne | exact Hhost].
      destruct (String.eqb path EmptyString); [reflexivity |].
      eapply all_impl; [| exact Hp].
      intros x Hx. destruct (pathByte_plain x Hx) as [H1 H2]. rewrite H1, H2. reflexivity.
    - repeat split. }
  split; [exact Hform |].
  intros projectId Hurl Hid.
  apply (Hform "https" "fcm.googleapis.com"
           ("/v1/projects/" ++ projectId ++ "/messages:send")).
  - rewrite Hurl. unfold defaultEndpoint. norm_str. reflexivity.
  - reflexivity.
  - reflexivity.
  - rewrite !all_app, Hid. reflexivity.
  - right. reflexivity.
Qed.

End Properties.

(** * The properties at concrete inputs *)

(** C1, the claim as stated fails: a [200] answer holding one part is decoded
    into a result with one outcome for a batch of two messages. *)
Lemma C1_counterexample :
  exists r w',
    sendBatchEx (exClient (answering exOnePart) (Ok "token")) [exA; exB] false = (Ok r, w')
    /\ List.length (Responses r) = 1%nat
    /\ List.length (Responses r) <> List.length [exA; exB].
Proof.
  eexists. eexists. split; [vm_compute; reflexivity |].
  split; [reflexivity | intros H; discriminate H].
Qed.

Lemma C1_witness :
  sendBatchEx (exClient (answering exSynthetic) (Ok "token")) [exA; exB] false
  = (Ok exSyntheticResult,
     snd (sendBatchEx (exClient (answering exSynthetic) (Ok "token")) [exA; exB] false))
  /\ (SuccessCount exSyntheticResult + FailureCount exSyntheticResult)%Z
     = Z.of_nat (List.length (Responses exSyntheticResult))
  /\ SuccessCount exSyntheticResult = countSuccess (Responses exSyntheticResult).
Proof.
  assert (H : sendBatchEx (exClient (answering exSynthetic) (Ok "token")) [exA; exB] false
              = (Ok exSyntheticResult,
                 snd (sendBatchEx (exClient (answering exSynthetic) (Ok "token"))
                        [exA; exB] false))).
  { vm_compute. reflexivity. }
  split; [exact H |].
  pose proof (@C1_counts_and_order exPayloads exMethods _ _ _ _ _ _ H) as [H1 [H2 _]].
  split; [exact H1 | exact H2].
Defined.

(** C2, the claim as stated fails: a [201] answer, a 2xx status, whose body
    the decoder would accept, fails the call with an [HttpError]. *)
Lemma C2_counterexample :
  (200 <= http.StatusCode exCreated < 300)%Z
  /\ (exists r, newBatchResponse exCreated = Ok r)
  /\ exists requestDump responseDump err w',
       sendBatchEx (exClient (answering exCreated) (Ok "token")) [exA] false
       = (Err (HttpError requestDump responseDump err), w').
Proof.
  split; [change (http.StatusCode exCreated) with 201%Z; lia |].
  split; [eexists; vm_compute; reflexivity |].
  do 4 eexists. vm_compute. reflexivity.
Qed.

Lemma C2_witness :
  exists requestDump responseDump text w1 request,
    sendBatchEx (exClient (answering exCreated) (Ok "token")) [exA] false
    = (Err (HttpError requestDump responseDump (errorString text)),
       (w1 ++ [EvDo request])%list).
Proof.
  pose (c := exClient (answering exCreated) (Ok "token")).
  destruct (@newBatchRequest exPayloads exMethods c [exA] false []) as [r w1] eqn:Hreq.
  assert (Hok : exists request, r = Ok request).
  { pose proof Hreq as E. vm_compute in E. injection E as <- _. eexists. reflexivity. }
  destruct Hok as [request ->].
  destruct (@C2_outer_status exPayloads exMethods c [exA] false [] w1 request
              exCreated EmptyString) as [Hnot200 _].
  - simpl. unfold maxMessages. lia.
  - exact Hreq.
  - reflexivity.
  - destruct Hnot200 as [rq [rs [text [Hsend _]]]].
    + intros H. discriminate H.
    + exists rq, rs, text, w1, request. exact Hsend.
Defined.



(** C4, at the input of the specification: the two parts are decoded in
    order into a success and a failure carrying [404] and the raw body; the
    success carries the whole resource name as its message id, where the
    single-message path of [client.go] would return the text after the last
    slash, [123]. *)
Theorem C4_synthetic_decode :
  newBatchResponse exSynthetic = Ok exSyntheticResult
  /\ List.map MessageID (Responses exSyntheticResult) = ["projects/p/messages/123"; EmptyString]
  /\ afterLastSlash "projects/p/messages/123" = "123".
Proof.
  split; [vm_compute; reflexivity |]. split; reflexivity.
Qed.

Lemma C5_witness :
  @newBatchRequest exPayloads exMethods (exClient (answering exSynthetic) (Ok "token"))
    [exA; exInvalid; exB] false []
  = (Err (errorString "invalid message at index 1: no target given"), [])
  /\ sendBatchEx (exClient (answering exSynthetic) (Ok "token")) [exA; exInvalid; exB] false
     = (Err (errorString "invalid message at index 1: no target given"), []).
Proof.
  destruct (@C5_invalid_message_aborts exPayloads exMethods
              (exClient (answering exSynthetic) (Ok "token"))
              [exA; exInvalid; exB] false [] 1%nat exInvalid
              (errorString "no target given")) as [H1 H2].
  - reflexivity.
  - reflexivity.
  - intros j m Hj Hm.
    destruct j as [| [| [| j]]]; simpl in Hm; try congruence.
    + injection Hm as <-. reflexivity.
    + injection Hm as <-. reflexivity.
    + destruct j; discriminate Hm.
  - split; [exact H1 |]. apply H2. simpl. unfold maxMessages. lia.
Defined.

Lemma C6_witness :
  sendBatchEx (exClient (answering exSynthetic) (Ok "token")) [] false
  = (Err (errorString "messages must not be nil or empty"), [])
  /\ sendBatchEx (exClient (answering exSynthetic) (Ok "token")) (List.repeat exA 501) false
     = (Err (errorString "messages must not contain more than 500 elements"), [])
  /\ sendBatchEx (exClient (answering exSynthetic) (Ok "token")) (List.repeat exA 500) false
     = @sendBatch_exchange exPayloads exMethods
         (exClient (answering exSynthetic) (Ok "token")) (List.repeat exA 500) false [].
Proof.
  split; [| split].
  - apply (@C6_size_precondition exPayloads exMethods). reflexivity.
  - apply (@C6_size_precondition exPayloads exMethods).
    rewrite repeat_length. unfold maxMessages. lia.
  - apply (@C6_size_precondition exPayloads exMethods).
    rewrite repeat_length. unfold maxMessages. lia.
Defined.

(** C7, the claim as stated fails: when the token provider fails, the outer
    request object has already been built; the log of the call shows its
    construction before the call of the provider. *)
Lemma C7_counterexample :
  exists req0,
    sendBatchEx (exClient (answering exSynthetic) (Err exTokenError)) [exA] false
    = (Err exTokenError, [EvRequestBuilt req0; EvToken])
    /\ http.Method req0 = "POST"
    /\ url.Path (http.URL req0) = "/batch".
Proof.
  eexists. split; [vm_compute; reflexivity |]. split; reflexivity.
Qed.

Lemma C7_witness :
  exists req0,
    sendBatchEx (exClient (answering exSynthetic) (Err exTokenError)) [exA] false
    = (Err exTokenError, [EvRequestBuilt req0; EvToken])
    /\ http.RHeader req0 = []
    /\ sendBatchEx (exClient (answering exSynthetic) (Err exTokenError)) [exInvalid] false
       = (Err (errorString "invalid message at index 0: no target given"), []).
Proof.
  pose (c := exClient (answering exSynthetic) (Err exTokenError)).
  destruct (@newBatchRequest_parts exPayloads exMethods c false
              [(apiFormatVersionHeader, apiFormatVersion)] 0 [exA]) as [ps | e] eqn:Eps;
    [| vm_compute in Eps; discriminate Eps].
  destruct (@multipartEntity_Bytes exPayloads exMethods {| parts := ps |})
    as [bodyBytes | e] eqn:Eb.
  2:{ pose proof Eps as Eps'. vm_compute in Eps'. injection Eps' as Hps.
      rewrite <- Hps in Eb. vm_compute in Eb. discriminate Eb. }
  destruct (http.NewRequest http.MethodPost (batchEndpoint c) bodyBytes)
    as [req0 | e] eqn:Er.
  2:{ unfold http.NewRequest in Er. vm_compute in Er. discriminate Er. }
  pose proof (@C7_token_failure exPayloads exMethods c [exA] false [] exTokenError eq_refl)
    as [Hreached _].
  pose proof (@C7_token_failure exPayloads exMethods c [exInvalid] false [] exTokenError
                eq_refl) as [_ [Hinvalid [_ [_ [Hin _]]]]].
  destruct (Hreached ps bodyBytes req0 Eps Eb Er) as [_ [Hsend [Hh _]]].
  exists req0. split; [| split].
  - apply Hsend. simpl. unfold maxMessages. lia.
  - exact Hh.
  - assert (Hlen : (1 <= List.length [exInvalid] <= maxMessages)%nat)
      by (simpl; unfold maxMessages; lia).
    destruct (Hin Hlen) as [e1 [w1 [Hnew Hsend']]].
    rewrite (Hinvalid (errorString "invalid message at index 0: no target given")
               eq_refl) in Hnew.
    injection Hnew as <- <-. exact Hsend'.
Defined.

Lemma C8_witness :
  exists encoded,
    Forall2 (fun p b => @part_bytes exPayloads exMethods p = Ok b)
      [batchItem (exClient (answering exSynthetic) (Ok "token")) exA false;
       batchItem (exClient (answering exSynthetic) (Ok "token")) exB false] encoded
    /\ @multipartEntity_Bytes exPayloads exMethods
         {| parts := [batchItem (exClient (answering exSynthetic) (Ok "token")) exA false;
                      batchItem (exClient (answering exSynthetic) (Ok "token")) exB false] |}
       = Ok (specEnvelope "__END_OF_PART__" encoded).
Proof.
  pose (e := {| parts := [batchItem (exClient (answering exSynthetic) (Ok "token")) exA false;
                          batchItem (exClient (answering exSynthetic) (Ok "token")) exB false] |}).
  destruct (@multipartEntity_Bytes exPayloads exMethods e) as [bytes | err] eqn:E;
    [| vm_compute in E; discriminate E].
  destruct (@C8_envelope exPayloads exMethods e bytes E) as [encoded [Hall [Hbytes _]]].
  exists encoded. split; [exact Hall |].
  fold e. rewrite E, Hbytes. reflexivity.
Defined.

(** C9, the claim as stated fails: the bytes of an item parse to a request
    whose request URI is only the path of the item's URL, and whose headers
    hold the API format version under the canonical name, not the item's. *)
Lemma C9_counterexample :
  exists encoded rq json,
    @part_bytes exPayloads exMethods exItem = Ok encoded
    /\ http.ReadRequest encoded = Ok rq
    /\ url exItem = "https://fcm.googleapis.com/v1/projects/p/messages:send"
    /\ http.PRequestURI rq = "/v1/projects/p/messages:send"
    /\ In ("X-GOOG-API-FORMAT-VERSION", "2") (headers exItem)
    /\ textproto.lookup "X-GOOG-API-FORMAT-VERSION" (http.PHeader rq) = None
    /\ ~ recoversItem exItem json rq.
Proof.
  eexists. eexists. exists EmptyString.
  split; [vm_compute; reflexivity |].
  split; [vm_compute; reflexivity |].
  split; [reflexivity |]. split; [reflexivity |].
  split; [left; reflexivity |]. split; [reflexivity |].
  intros [_ [H _]]. vm_compute in H. discriminate H.
Qed.

Lemma C9_witness :
  exists encoded rq,
    @part_bytes exPayloads exMethods exItem = Ok encoded
    /\ http.ReadRequest encoded = Ok rq
    /\ http.PRequestURI rq = "/v1/projects/p/messages:send"
    /\ http.PHost rq = "fcm.googleapis.com"
    /\ io.ReadAll (http.PBody rq)
       = Ok ("{" ++ quote "message" ++ ":{" ++ quote "token" ++ ":"
             ++ quote "device-a" ++ "}}").
Proof.
  destruct (proj2 (@C9_item_round_trip exPayloads exMethods
                     (exClient (answering exSynthetic) (Ok "token")) exA false
                     ("{" ++ quote "message" ++ ":{" ++ quote "token" ++ ":"
                      ++ quote "device-a" ++ "}}") eq_refl) "p" eq_refl eq_refl)
    as [encoded [rq [Hb [Hr [_ [Huri [_ [Hhost [_ Hbody]]]]]]]]].
  exists encoded, rq.
  split; [exact Hb |]. split; [exact Hr |]. split; [exact Huri |].
  split; [exact Hhost | exact Hbody].
Defined.

Lemma C10_witness :
  exists ms,
    @toMessages exPayloads
      (Some {| Tokens := ["device-a"; "device-b"]; MMessage := exMessage "shared" |})
    = Returns (Ok ms)
    /\ List.length ms = 2%nat.
Proof.
  destruct (proj1 (@C10_toMessages exPayloads)
              ["device-a"; "device-b"]
              (@mkMessage exPayloads "shared" EmptyString EmptyString tt tt tt tt tt))
    as [ms [H [Hlen _]]].
  - simpl. unfold maxMessages. lia.
  - exists ms. split; [exact H | exact Hlen].
Defined.

(** * The rest of the package and the command line tool *)

(** ** The batch path *)

Section Batch.
Context {P : Payloads} {methods : MessageMethods}.

(** X1: whenever the fan-out of a multicast message returns messages, the multicast
    message and its shared message are not nil, and the result has, in the
    order of the tokens, one message per token that is not nil, carries that
    token and has an empty topic and an empty condition, whatever topic and
    condition the shared message holds. *)
Theorem X1_toMessages_targets (message : ptr MulticastMessage) (ms : list (ptr Message)) :
  toMessages message = Returns (Ok ms) ->
  exists mm msg,
    message = Some mm
    /\ MMessage mm = Some msg
    /\ Forall2 (fun tok m => exists x, m = Some x /\ Token x = tok
                                       /\ Topic x = EmptyString
                                       /\ Condition x = EmptyString)
         (Tokens mm) ms.
Proof.
  intros H. destruct message as [mm |]; [| discriminate H].
  simpl in H. unfold MulticastMessage_toMessages in H.
  destruct (List.length (Tokens mm) =? 0)%nat; [discriminate H |].
  destruct (maxMessages <? List.length (Tokens mm))%nat; [discriminate H |].
  destruct (MMessage mm) as [msg |] eqn:Hm; [| discriminate H].
  injection H as <-. exists mm, msg. split; [reflexivity |]. split; [exact Hm |].
  induction (Tokens mm) as [| t ts IH]; simpl; constructor.
  - eexists. split; [reflexivity |]. simpl. auto.
  - exact IH.
Qed.

Lemma sendBatch_within_bounds (c : Client) (ms : list (ptr Message)) (dry : bool) :
  (1 <= List.length ms <= maxMessages)%nat ->
  sendBatch c ms dry = sendBatch_exchange c ms dry.
Proof.
  intros [Hlo Hhi]. unfold sendBatch.
  replace (List.length ms =? 0)%nat with false by (symmetry; apply Nat.eqb_neq; lia).
  replace (maxMessages <? List.length ms)%nat with false
    by (symmetry; apply Nat.ltb_ge; lia).
  reflexivity.
Qed.

Lemma toMessages_length (message : ptr MulticastMessage) (ms : list (ptr Message)) :
  toMessages message = Returns (Ok ms) -> (1 <= List.length ms <= maxMessages)%nat.
Proof.
  intros H. destruct message as [mm |]; [| discriminate H].
  simpl in H. unfold MulticastMessage_toMessages in H.
  destruct (Nat.eqb_spec (List.length (Tokens mm)) 0) as [| Hlo]; [discriminate H |].
  destruct (Nat.ltb_spec maxMessages (List.length (Tokens mm))) as [| Hhi];
    [discriminate H |].
  destruct (MMessage mm); [| discriminate H].
  injection H as <-. rewrite length_map. lia.
Qed.

(** X2: when the fan-out succeeds, [SendMulticast] and [SendMulticastDryRun]
    are the assembly and exchange of [sendBatch] on the fanned-out messages
    with the dry-run flag off and on (the size checks of [sendBatch] cannot
    fire after those of the fan-out); an error of the fan-out is returned
    with the call log unchanged, and so is its panic. *)
Theorem X2_SendMulticast (c : Client) (message : ptr MulticastMessage) (w : World) :
  (forall ms, toMessages message = Returns (Ok ms) ->
     SendMulticast c message w
     = (Returns (fst (sendBatch_exchange c ms false w)),
        snd (sendBatch_exchange c ms false w))
     /\ SendMulticastDryRun c message w
        = (Returns (fst (sendBatch_exchange c ms true w)),
           snd (sendBatch_exchange c ms true w)))
  /\ (forall e, toMessages message = Returns (Err e) ->
        SendMulticast c message w = (Returns (Err e), w)
        /\ SendMulticastDryRun c message w = (Returns (Err e), w))
  /\ (toMessages message = Panics ->
        SendMulticast c message w = (Panics, w)
        /\ SendMulticastDryRun c message w = (Panics, w)).
Proof.
  unfold SendMulticast, SendMulticastDryRun, SendAll, SendAllDryRun.
  split; [| split].
  - intros ms H. rewrite H.
    rewrite !sendBatch_within_bounds by (apply (toMessages_length message), H).
    split.
    + destruct (sendBatch_exchange c ms false w); reflexivity.
    + destruct (sendBatch_exchange c ms true w); reflexivity.
  - intros e H. rewrite H. split; reflexivity.
  - intros H. rewrite H. split; reflexivity.
Qed.

Lemma newBatchRequest_parts_valid (c : Client) (dry : bool) (hs : list (string * string))
  (ms : list (ptr Message)) :
  forall idx,
    Forall (fun m => Validate m = None) ms ->
    newBatchRequest_parts c dry hs idx ms
    = Ok (List.map (fun m => {| method := http.MethodPost; url := sendEndpoint c;
                                body := {| Message_ := m; ValidateOnly := dry |};
                                headers := hs |}) ms).
Proof.
  induction ms as [| m ms IH]; intros idx H; simpl; [reflexivity |].
  inversion H as [| ? ? Hm Hms]; subst. rewrite Hm, (IH (S idx) Hms). reflexivity.
Qed.

Lemma newBatchRequest_parts_ok_valid (c : Client) (dry : bool) (hs : list (string * string))
  (ms : list (ptr Message)) :
  forall idx ps,
    newBatchRequest_parts c dry hs idx ms = Ok ps ->
    Forall (fun m => Validate m = None) ms.
Proof.
  induction ms as [| m ms IH]; intros idx ps H; simpl in H; [constructor |].
  destruct (Validate m) eqn:Hm; [discriminate H |].
  destruct (newBatchRequest_parts c dry hs (S idx) ms) as [ps' |] eqn:E; [| discriminate H].
  constructor; [exact Hm | exact (IH _ _ E)].
Qed.

Lemma newBatchRequest_parts_batchItems (c : Client) (dry : bool) (ms : list (ptr Message)) :
  Forall (fun m => Validate m = None) ms ->
  newBatchRequest_parts c dry [(apiFormatVersionHeader, apiFormatVersion)] 0 ms
  = Ok (List.map (fun m => batchItem c m dry) ms).
Proof.
  intros H. apply newBatchRequest_parts_valid, H.
Qed.

Lemma assembly_aux (c : Client) (dry : bool) (ms : list (ptr Message)) (ps : list part) :
  newBatchRequest_parts c dry [(apiFormatVersionHeader, apiFormatVersion)] 0 ms = Ok ps ->
  Forall (fun m => Validate m = None) ms /\ ps = List.map (fun m => batchItem c m dry) ms.
Proof.
  intros H. pose proof (newBatchRequest_parts_ok_valid _ _ _ _ _ _ H) as Hv.
  rewrite (newBatchRequest_parts_valid c dry _ ms 0 Hv) in H. injection H as <-.
  split; [exact Hv | reflexivity].
Qed.

(** X3: the validation loop of [newBatchRequest] succeeds on every list whose
    messages all pass [Validate], and only on those; its parts are then one
    per message, in order, each a POST to the client's send endpoint that
    carries the dry-run flag and the API format version header. *)
Theorem X3_assembly_all_valid (c : Client) (dry : bool) (ms : list (ptr Message)) :
  (Forall (fun m => Validate m = None) ms ->
     newBatchRequest_parts c dry [(apiFormatVersionHeader, apiFormatVersion)] 0 ms
     = Ok (List.map (fun m => batchItem c m dry) ms))
  /\ (forall ps,
        newBatchRequest_parts c dry [(apiFormatVersionHeader, apiFormatVersion)] 0 ms = Ok ps ->
        Forall (fun m => Validate m = None) ms
        /\ ps = List.map (fun m => batchItem c m dry) ms
        /\ List.length ps = List.length ms
        /\ Forall (fun p => method p = "POST" /\ url p = sendEndpoint c
                            /\ ValidateOnly (body p) = dry
                            /\ headers p = [("X-GOOG-API-FORMAT-VERSION", "2")]) ps).
Proof.
  split.
  - apply newBatchRequest_parts_batchItems.
  - intros ps H.
    pose proof (newBatchRequest_parts_ok_valid _ _ _ _ _ _ H) as Hv.
    rewrite (newBatchRequest_parts_valid c dry _ ms 0 Hv) in H. injection H as <-.
    split; [exact Hv |]. split; [reflexivity |]. split; [apply length_map |].
    apply Forall_forall. intros p Hp. apply in_map_iff in Hp as [m [<- _]].
    repeat split.
Qed.

Lemma Bytes_envelope (e : multipartEntity) (bytes : string) :
  multipartEntity_Bytes e = Ok bytes ->
  exists encoded,
    Forall2 (fun p b => part_bytes p = Ok b) (parts e) encoded
    /\ bytes = specEnvelope "__END_OF_PART__" encoded.
Proof.
  unfold multipartEntity_Bytes. intros H.
  change (fst (multipart.SetBoundary (multipart.NewWriter EmptyString) multipartBoundary))
    with {| multipart.buf := EmptyString; multipart.wboundary := multipartBoundary;
            multipart.lastpart := false |} in H.
  destruct (Bytes_loop _ 0 (parts e)) as [w' | err] eqn:E; [| discriminate].
  simpl in H. injection H as <-.
  destruct (Bytes_loop_spec (parts e) _ w' 0%nat E eq_refl) as [encoded [Hall [Hbuf Hbd]]].
  exists encoded. split; [exact Hall |].
  simpl in Hbuf, Hbd. rewrite Hbuf, Hbd. reflexivity.
Qed.

Lemma Forall2_map_l {A B C} (f : A -> B) (R : B -> C -> Prop) (l : list A) (l' : list C) :
  Forall2 R (List.map f l) l' -> Forall2 (fun a c => R (f a) c) l l'.
Proof.
  revert l'. induction l as [| a l IH]; intros l' H; inversion H; subst; constructor; auto.
Qed.

Lemma NewRequest_fields (method rawURL body : string) (req : http.Request) :
  http.NewRequest method rawURL body = Ok req ->
  http.Body req = body /\ http.RHeader req = []
  /\ http.ContentLength req = String.length body
  /\ http.Method req = (if String.eqb method EmptyString then "GET" else method).
Proof.
  unfold http.NewRequest. intros H.
  destruct (negb _); [discriminate H |].
  destruct (url.Parse rawURL); [| discriminate H]. simpl in H. injection H as <-.
  repeat split.
Qed.

Lemma newBatchRequest_inv (c : Client) (ms : list (ptr Message)) (dry : bool)
  (w w' : World) (req : http.Request) :
  newBatchRequest c ms dry w = (Ok req, w') ->
  exists tok encoded req0,
    token (tokenProvider_ c) tt = Ok tok
    /\ Forall (fun m => Validate m = None) ms
    /\ Forall2 (fun m b => part_bytes (batchItem c m dry) = Ok b) ms encoded
    /\ http.NewRequest "POST" (batchEndpoint c) (specEnvelope "__END_OF_PART__" encoded)
       = Ok req0
    /\ req = http.addHeader (http.addHeader req0 "Authorization" ("Bearer " ++ tok))
               "Content-Type" "multipart/mixed; boundary=__END_OF_PART__"
    /\ w' = (w ++ [EvRequestBuilt req0; EvToken])%list.
Proof.
  unfold newBatchRequest. run. intros H.
  destruct (newBatchRequest_parts c dry _ 0 ms) as [ps |] eqn:Eps; [| discriminate H].
  destruct (assembly_aux c dry ms ps Eps) as [Hv Hps]. subst ps.
  destruct (multipartEntity_Bytes _) as [bodyBytes |] eqn:Eb; [| discriminate H].
  destruct (Bytes_envelope _ _ Eb) as [encoded [Hall ->]]. cbn [parts] in Hall.
  apply Forall2_map_l in Hall.
  destruct (http.NewRequest _ _ _) as [req0 |] eqn:Er; [| discriminate H].
  destruct (token (tokenProvider_ c) tt) as [tok |] eqn:Et; [| discriminate H].
  injection H as <- <-.
  exists tok, encoded, req0.
  split; [reflexivity |]. split; [exact Hv |]. split; [exact Hall |].
  split; [exact Er |]. split; [reflexivity |]. rewrite <- app_assoc. reflexivity.
Qed.

(** X4: a request returned by [newBatchRequest] is a POST to the batch
    endpoint whose body is the envelope of the encoded items of all the
    messages, in order, with the content length of that body, and whose
    headers are exactly [Authorization: Bearer] with the token the provider
    returned and [Content-Type: multipart/mixed] with the fixed boundary; the
    call log gained the construction of the request and one call of the token
    provider, in this order. *)
Theorem X4_newBatchRequest_ok (c : Client) (ms : list (ptr Message)) (dry : bool)
  (w w' : World) (req : http.Request) :
  newBatchRequest c ms dry w = (Ok req, w') ->
  exists tok encoded req0,
    token (tokenProvider_ c) tt = Ok tok
    /\ Forall (fun m => Validate m = None) ms
    /\ Forall2 (fun m b => part_bytes (batchItem c m dry) = Ok b) ms encoded
    /\ http.NewRequest "POST" (batchEndpoint c) (specEnvelope "__END_OF_PART__" encoded)
       = Ok req0
    /\ http.Method req = "POST"
    /\ http.URL req = http.URL req0
    /\ http.Body req = specEnvelope "__END_OF_PART__" encoded
    /\ http.ContentLength req = String.length (specEnvelope "__END_OF_PART__" encoded)
    /\ http.RHeader req
       = [("Authorization", ["Bearer " ++ tok]);
          ("Content-Type", ["multipart/mixed; boundary=__END_OF_PART__"])]
    /\ w' = (w ++ [EvRequestBuilt req0; EvToken])%list.
Proof.
  intros H.
  destruct (newBatchRequest_inv c ms dry w w' req H)
    as [tok [encoded [req0 [Ht [Hv [Hall [Er [-> Hw]]]]]]]].
  destruct (NewRequest_fields _ _ _ _ Er) as [Hb [Hh [Hl Hm]]].
  exists tok, encoded, req0.
  split; [exact Ht |]. split; [exact Hv |]. split; [exact Hall |].
  split; [exact Er |]. split; [exact Hm |]. split; [reflexivity |].
  split; [exact Hb |]. split; [exact Hl |]. split; [| exact Hw].
  cbn [http.addHeader http.RHeader]. rewrite Hh. reflexivity.
Qed.

(** X5: a batch call either leaves the call log unchanged and fails, or
    builds the request, asks the token provider once and fails with the
    provider's error, or builds the request, asks the provider once and calls
    the transport once, with the built request to which the bearer token and
    the multipart content type were added; the transport is reached only for
    1 to 500 messages that all pass validation. *)
Theorem X5_sendBatch_calls (c : Client) (ms : list (ptr Message)) (dry : bool) (w : World) :
  (snd (sendBatch c ms dry w) = w
   /\ exists e, fst (sendBatch c ms dry w) = Err e)
  \/ (exists req0 e,
        snd (sendBatch c ms dry w) = (w ++ [EvRequestBuilt req0; EvToken])%list
        /\ token (tokenProvider_ c) tt = Err e
        /\ fst (sendBatch c ms dry w) = Err e)
  \/ (exists req0 tok request,
        snd (sendBatch c ms dry w)
        = (w ++ [EvRequestBuilt req0; EvToken; EvDo request])%list
        /\ token (tokenProvider_ c) tt = Ok tok
        /\ request
           = http.addHeader (http.addHeader req0 "Authorization" ("Bearer " ++ tok))
               "Content-Type" "multipart/mixed; boundary=__END_OF_PART__"
        /\ (1 <= List.length ms <= maxMessages)%nat
        /\ Forall (fun m => Validate m = None) ms).
Proof.
  unfold sendBatch.
  destruct (Nat.eqb_spec (List.length ms) 0) as [| Hlo];
    [left; split; [reflexivity | eexists; reflexivity] |].
  destruct (Nat.ltb_spec maxMessages (List.length ms)) as [| Hhi];
    [left; split; [reflexivity | eexists; reflexivity] |].
  unfold sendBatch_exchange, newBatchRequest. run.
  destruct (newBatchRequest_parts c dry _ 0 ms) as [ps | e1] eqn:Eps;
    [| left; split; [reflexivity | eexists; reflexivity]].
  destruct (multipartEntity_Bytes _) as [bodyBytes | e1];
    [| left; split; [reflexivity | eexists; reflexivity]].
  destruct (http.NewRequest _ _ _) as [req0 | e1];
    [| left; split; [reflexivity | eexists; reflexivity]].
  destruct (token (tokenProvider_ c) tt) as [tok | e1].
  - right. right. exists req0, tok. eexists.
    split; [| split; [reflexivity | split; [reflexivity | split; [lia |]]]].
    + destruct (http.Do (client c) _) as [[resp | e2] unread]; cbn [fst snd].
      * destruct (negb _); cbn [snd]; rewrite <- !app_assoc; reflexivity.
      * cbn [snd]. rewrite <- !app_assoc. reflexivity.
    + apply (assembly_aux c dry ms ps Eps).
  - right. left. exists req0, e1. cbn [fst snd]. rewrite <- app_assoc.
    split; [reflexivity |]. split; reflexivity.
Qed.

(** X6: an error of the transport is returned by the batch call as it is,
    without dumps, after the one call of the transport. *)
Theorem X6_transport_error (c : Client) (ms : list (ptr Message)) (dry : bool)
  (w w1 : World) (request : http.Request) (e : error) (unread : string) :
  (1 <= List.length ms <= maxMessages)%nat ->
  newBatchRequest c ms dry w = (Ok request, w1) ->
  http.Do (client c) request = (Err e, unread) ->
  sendBatch c ms dry w = (Err e, (w1 ++ [EvDo request])%list).
Proof.
  intros Hlen Hreq Hdo. rewrite (sendBatch_within_bounds c ms dry Hlen).
  unfold sendBatch_exchange. run. rewrite Hreq, Hdo. reflexivity.
Qed.

Lemma noOperands_plain (s : string) :
  str.all (fun c => negb (Ascii.eqb c "%")) s = true -> fmt.noOperands s = s.
Proof.
  induction s as [| c s IH]; simpl; [reflexivity |].
  intros H. apply andb_true_iff in H as [Hc Hs].
  apply negb_true_iff in Hc. rewrite Hc, (IH Hs). reflexivity.
Qed.

Lemma isDigit_not_percent (c : ascii) :
  str.isDigit c = true -> negb (Ascii.eqb c "%") = true.
Proof.
  destruct c as [[|] [|] [|] [|] [|] [|] [|] [|]]; vm_compute; intros H;
    first [reflexivity | discriminate H].
Qed.

Lemma FormatInt_no_percent (z : Z) :
  str.all (fun c => negb (Ascii.eqb c "%")) (strconv.FormatInt z) = true.
Proof.
  assert (H : forall n, str.all (fun c => negb (Ascii.eqb c "%")) (strconv.Itoa n) = true).
  { intros n. apply (all_impl str.isDigit); [apply isDigit_not_percent | apply Itoa_digits]. }
  destruct z; unfold strconv.FormatInt; [apply H | apply H |].
  cbn [str.all]. rewrite H. reflexivity.
Qed.

(** X7: for a status text without percent sign, the message of the
    [HttpError] built for a response is [<code> error: <status>] on both
    branches (below 500, and from 500 on where the text is used as a format
    once more), and the error carries the dump of the request. *)
Theorem X7_HttpError_text (request : http.Request) (resp : http.Response) :
  str.all (fun c => negb (Ascii.eqb c "%")) (http.Status resp) = true ->
  Error (batchHttpError request resp)
  = strconv.FormatInt (http.StatusCode resp) ++ " error: " ++ http.Status resp
  /\ exists requestDump responseDump err,
       batchHttpError request resp = HttpError requestDump responseDump err
       /\ http.DumpRequest request = Ok requestDump.
Proof.
  intros H. unfold batchHttpError.
  assert (Hplain : fmt.noOperands (strconv.FormatInt (http.StatusCode resp) ++ " error: "
                                   ++ http.Status resp)
                   = strconv.FormatInt (http.StatusCode resp) ++ " error: "
                     ++ http.Status resp).
  { apply noOperands_plain. rewrite !all_app, FormatInt_no_percent, H. reflexivity. }
  destruct (http.DumpRequest request) as [rq |] eqn:Erq; [| discriminate Erq].
  destruct (http.StatusInternalServerError <=? http.StatusCode resp)%Z; cbn [Error].
  - rewrite Hplain. split; [reflexivity |]. do 3 eexists. split; reflexivity.
  - split; [reflexivity |]. do 3 eexists. split; reflexivity.
Qed.

Lemma Bytes_loop_failure (before : list part) :
  forall (writer : multipart.Writer) (idx : nat) (encoded : list string)
         (p : part) (after : list part) (e : error),
    Forall2 (fun q b => part_bytes q = Ok b) before encoded ->
    part_bytes p = Err e ->
    Bytes_loop writer idx (before ++ p :: after) = Err e.
Proof.
  induction before as [| q before IH]; intros writer idx encoded p after e Hall Hp.
  - simpl. unfold part_writeTo. rewrite Hp. reflexivity.
  - inversion Hall as [| ? b ? encoded' Hq Hrest]; subst.
    simpl. unfold part_writeTo at 1. rewrite Hq. cbn [bindR].
    unfold multipart.CreatePart, multipart.Write. cbn [bindR].
    apply (IH _ _ encoded' p after e Hrest Hp).
Qed.

(** X8: when the messages all pass validation and the encoding of one item
    fails after the items before it were encoded, [Bytes] returns that error,
    and [newBatchRequest] returns it unchanged (without an index) and leaves
    the call log as it was: no request is built and the token provider is not
    asked. *)
Theorem X8_encoder_failure (c : Client) (dry : bool) (w : World)
  (before after : list (ptr Message)) (m : ptr Message)
  (encoded : list string) (e : error) :
  Forall (fun x => Validate x = None) (before ++ m :: after) ->
  Forall2 (fun x b => part_bytes (batchItem c x dry) = Ok b) before encoded ->
  part_bytes (batchItem c m dry) = Err e ->
  multipartEntity_Bytes
    {| parts := List.map (fun x => batchItem c x dry) (before ++ m :: after) |} = Err e
  /\ newBatchRequest c (before ++ m :: after) dry w = (Err e, w).
Proof.
  intros Hv Hall Hm.
  assert (Hb : multipartEntity_Bytes
                 {| parts := List.map (fun x => batchItem c x dry) (before ++ m :: after) |}
               = Err e).
  { unfold multipartEntity_Bytes. cbn [parts]. rewrite map_app. cbn [List.map].
    erewrite Bytes_loop_failure; [reflexivity | | exact Hm].
    instantiate (1 := encoded). clear - Hall.
    induction Hall; simpl; constructor; assumption. }
  split; [exact Hb |].
  unfold newBatchRequest. run.
  rewrite (newBatchRequest_parts_batchItems c dry (before ++ m :: after) Hv).
  rewrite Hb. reflexivity.
Qed.

Lemma decodeMembers_no_name (ms : list (string * json.value)) :
  forall (result : fcmResponse) (saved : option error),
    Forall (fun kv => String.eqb (str.ToLower (fst kv)) "name" = false) ms ->
    decodeMembers ms result saved
    = match saved with None => Ok result | Some e => Err e end.
Proof.
  induction ms as [| [k v] ms IH]; intros result saved H; simpl; [reflexivity |].
  inversion H as [| ? ? Hk Hms]; subst. simpl in Hk. rewrite Hk. apply IH, Hms.
Qed.

(** X9: a part with status 200 whose body is the JSON [null] or an object
    without a member [name] (in any case of letters) is decoded into a
    success with an empty message id, not into an error. *)
Theorem X9_missing_name (part : multipart.Part) (hr : http.Response) (b : string) :
  http.ReadResponse (multipart.content part) = Ok hr ->
  http.StatusCode hr = http.StatusOK ->
  io.ReadAll (http.RBody hr) = Ok b ->
  (json.Parse b = Ok json.Null
   \/ exists members,
        json.Parse b = Ok (json.Object members)
        /\ Forall (fun kv => String.eqb (str.ToLower (fst kv)) "name" = false) members) ->
  newSendResponse part
  = Ok {| Success := true; MessageID := EmptyString; ErrorCode := 0;
          ErrorBody := EmptyString |}.
Proof.
  intros Hr Hs Hb Hj. unfold newSendResponse. rewrite Hr, Hb. cbn [bindR].
  rewrite Hs. cbn [Z.eqb http.StatusOK Pos.eqb negb].
  unfold Unmarshal_fcmResponse.
  destruct Hj as [Hj | [members [Hj Hn]]]; rewrite Hj; cbn [bindR].
  - reflexivity.
  - rewrite (decodeMembers_no_name members _ None Hn). reflexivity.
Qed.

(** X10: in every result the batch decoder returns, the success count and
    the failure count lie between 0 and the number of outcomes, and the
    failure count is 0 exactly if every outcome is a success. *)
Theorem X10_response_counts (resp : http.Response) (r : MulticastResponse) :
  newBatchResponse resp = Ok r ->
  (0 <= SuccessCount r <= Z.of_nat (List.length (Responses r)))%Z
  /\ (0 <= FailureCount r <= Z.of_nat (List.length (Responses r)))%Z
  /\ (FailureCount r = 0%Z <-> Forall (fun sr => Success sr = true) (Responses r)).
Proof.
  intros H.
  destruct (newBatchResponse_ok resp r H) as [mt [pa [ps [_ [_ [_ [Hsc Hsum]]]]]]].
  pose proof (countSuccess_bounds (Responses r)) as B.
  pose proof (countSuccess_all_iff (Responses r)) as I.
  split; [lia |]. split; [lia |].
  split.
  - intros H0. apply Forall_forall. intros sr Hin.
    destruct (Success sr) eqn:E; [reflexivity |].
    assert (Hex : Exists (fun x => Success x = false) (Responses r))
      by (apply Exists_exists; exists sr; split; assumption).
    apply I in Hex. lia.
  - intros Hall.
    assert (Hn : ~ Exists (fun x => Success x = false) (Responses r)).
    { intros Hex. apply Exists_exists in Hex as [sr [Hin Hf]].
      rewrite Forall_forall in Hall. rewrite (Hall sr Hin) in Hf. discriminate Hf. }
    rewrite <- I in Hn. lia.
Qed.

End Batch.

(** ** The single-message path *)


Lemma LastIndex_range (s : string) (sep : ascii) :
  (-1 <= strings.LastIndex s sep < Z.of_nat (String.length s))%Z.
Proof.
  induction s as [| c s IH]; [simpl; lia |].
  cbn [strings.LastIndex String.length].
  destruct (Z.leb_spec 0 (strings.LastIndex s sep)); [lia |].
  destruct (Ascii.eqb c sep); lia.
Qed.

Lemma LastIndex_absent (s : string) :
  (strings.LastIndex s "/" <? 0)%Z = str.all notSlash s.
Proof.
  induction s as [| c s IH]; [reflexivity |].
  cbn [strings.LastIndex str.all].
  pose proof (LastIndex_range s "/") as R.
  destruct (Z.leb_spec 0 (strings.LastIndex s "/")) as [H | H].
  - rewrite <- IH. replace (strings.LastIndex s "/" <? 0)%Z with false
      by (symmetry; apply Z.ltb_ge; lia).
    rewrite andb_false_r. apply Z.ltb_ge. lia.
  - rewrite <- IH. replace (strings.LastIndex s "/" <? 0)%Z with true
      by (symmetry; apply Z.ltb_lt; lia).
    rewrite andb_true_r. unfold notSlash. destruct (Ascii.eqb c "/"); reflexivity.
Qed.

Lemma slice_afterLastSlash (name : string) :
  str.drop (Z.to_nat (strings.LastIndex name "/" + 1)) name = afterLastSlash name.
Proof.
  induction name as [| c r IH]; [reflexivity |].
  cbn [strings.LastIndex afterLastSlash].
  pose proof (LastIndex_range r "/") as R.
  pose proof (LastIndex_absent r) as A. unfold notSlash in A. rewrite <- A.
  destruct (Z.leb_spec 0 (strings.LastIndex r "/")) as [H | H].
  - replace (strings.LastIndex r "/" <? 0)%Z with false by (symmetry; apply Z.ltb_ge; lia).
    replace (Z.to_nat (strings.LastIndex r "/" + 1 + 1))
      with (S (Z.to_nat (strings.LastIndex r "/" + 1))) by lia.
    cbn [str.drop]. exact IH.
  - replace (strings.LastIndex r "/" <? 0)%Z with true by (symmetry; apply Z.ltb_lt; lia).
    destruct (Ascii.eqb c "/"); reflexivity.
Qed.

Lemma afterLastSlash_spec (name : string) :
  str.all notSlash (afterLastSlash name) = true
  /\ ((afterLastSlash name = name /\ str.all notSlash name = true)
      \/ exists prefix, name = prefix ++ "/" ++ afterLastSlash name).
Proof.
  induction name as [| c r IH]; [split; [reflexivity | left; split; reflexivity] |].
  cbn [afterLastSlash]. fold notSlash.
  destruct (str.all notSlash r) eqn:Hr.
  - destruct (Ascii.eqb_spec c "/") as [-> | Hc].
    + split; [exact Hr |]. right. exists EmptyString. reflexivity.
    + assert (Hn : notSlash c = true).
      { unfold notSlash. apply negb_true_iff, Ascii.eqb_neq, Hc. }
      split; [cbn [str.all]; rewrite Hn, Hr; reflexivity |].
      left. split; [reflexivity |]. cbn [str.all]. rewrite Hn, Hr. reflexivity.
  - destruct IH as [Hall [[He Hn] | [prefix Hp]]]; [congruence |].
    split; [exact Hall |]. right. exists (String c prefix). cbn [String.append].
    f_equal. exact Hp.
Qed.

Lemma send_decoded (c : Client) (data : string) (w w' : World) (id : string) :
  Client_send c data w = (Ok id, w') ->
  exists request resp unread response,
    http.Do (client c) request = (Ok resp, unread)
    /\ http.StatusCode resp = http.StatusOK
    /\ Decode_MessageResponse (http.RBody resp) = Ok response
    /\ id = afterLastSlash (MRName response).
Proof.
  unfold Client_send. run. intros H.
  destruct (http.NewRequest _ _ _) as [req0 |]; [| discriminate H].
  destruct (token (tokenProvider_ c) tt) as [tok |]; [| discriminate H].
  destruct (http.Do (client c) _) as [[resp |] unread] eqn:Hdo; [| discriminate H].
  destruct (Z.eqb_spec (http.StatusCode resp) http.StatusOK) as [Hs | Hs];
    cbn [negb] in H; [| discriminate H].
  destruct (Decode_MessageResponse (http.RBody resp)) as [response |] eqn:Hd;
    [| discriminate H].
  pose proof (LastIndex_range (MRName response) "/") as R.
  replace (strings.LastIndex (MRName response) "/"
           <? Z.of_nat (String.length (MRName response)))%Z with true in H
    by (symmetry; apply Z.ltb_lt; lia).
  rewrite slice_afterLastSlash in H. injection H as <- _.
  do 4 eexists. split; [exact Hdo |]. split; [exact Hs |]. split; [exact Hd |].
  reflexivity.
Qed.

Lemma send_id_no_slash (c : Client) (data : string) (w w' : World) (id : string) :
  Client_send c data w = (Ok id, w') -> str.all notSlash id = true.
Proof.
  intros H. destruct (send_decoded c data w w' id H) as [? [? [? [response [_ [_ [_ ->]]]]]]].
  apply afterLastSlash_spec.
Qed.

Lemma send_ok_log (c : Client) (data : string) (w w' : World) (id : string) :
  Client_send c data w = (Ok id, w') ->
  exists req0 request,
    w' = (w ++ [EvRequestBuilt req0; EvToken; EvDo request])%list
    /\ http.Body request = data.
Proof.
  unfold Client_send. run. intros H.
  destruct (http.NewRequest _ _ _) as [req0 |] eqn:Er; [| discriminate H].
  destruct (token (tokenProvider_ c) tt) as [tok |]; [| discriminate H].
  destruct (http.Do (client c) _) as [[resp |] unread]; [| discriminate H].
  destruct (negb _); [discriminate H |].
  destruct (Decode_MessageResponse (http.RBody resp)) as [response |]; [| discriminate H].
  assert (Hw : w' = (((w ++ [EvRequestBuilt req0]) ++ [EvToken])
                     ++ [EvDo (http.addHeader
                                 (http.addHeader req0 "Authorization" ("Bearer " ++ tok))
                                 "Content-Type" "application/json")])%list).
  { destruct (_ <? _)%Z; injection H as _ <-; reflexivity. }
  do 2 eexists. split; [rewrite Hw, <- !app_assoc; reflexivity |].
  apply (NewRequest_fields _ _ _ _ Er).
Qed.

(** X11: a message id returned by [send] comes from a 200 response whose
    body decoded; it is the text after the last slash of the decoded name: it
    holds no slash, and either the name has no slash and is the id, or the
    name ends with a slash followed by the id. *)
Theorem X11_send_message_id (c : Client) (data : string) (w w' : World) (id : string) :
  Client_send c data w = (Ok id, w') ->
  exists request resp unread response,
    http.Do (client c) request = (Ok resp, unread)
    /\ http.StatusCode resp = http.StatusOK
    /\ Decode_MessageResponse (http.RBody resp) = Ok response
    /\ id = afterLastSlash (MRName response)
    /\ str.all notSlash id = true
    /\ ((id = MRName response /\ str.all notSlash (MRName response) = true)
        \/ exists prefix, MRName response = prefix ++ "/" ++ id).
Proof.
  intros H.
  destruct (send_decoded c data w w' id H) as [request [resp [unread [response
    [Hdo [Hs [Hd ->]]]]]]].
  exists request, resp, unread, response.
  split; [exact Hdo |]. split; [exact Hs |]. split; [exact Hd |].
  split; [reflexivity |].
  destruct (afterLastSlash_spec (MRName response)) as [Ha Hb].
  split; [exact Ha |]. exact Hb.
Qed.

(** X12: [send] either fails on building the request with the call log
    unchanged, or builds it, asks the token provider once and fails with the
    provider's error, or calls the transport once with a POST to the send
    endpoint whose body is the data and whose headers are exactly
    [Authorization: Bearer] with the token and [Content-Type:
    application/json]. *)
Theorem X12_send_calls (c : Client) (data : string) (w : World) :
  (snd (Client_send c data w) = w
   /\ exists e, http.NewRequest "POST" (sendEndpoint c) data = Err e
                /\ fst (Client_send c data w) = Err e)
  \/ (exists req0 e,
        snd (Client_send c data w) = (w ++ [EvRequestBuilt req0; EvToken])%list
        /\ token (tokenProvider_ c) tt = Err e
        /\ fst (Client_send c data w) = Err e)
  \/ (exists req0 tok request,
        snd (Client_send c data w)
        = (w ++ [EvRequestBuilt req0; EvToken; EvDo request])%list
        /\ token (tokenProvider_ c) tt = Ok tok
        /\ http.NewRequest "POST" (sendEndpoint c) data = Ok req0
        /\ http.Method request = "POST"
        /\ http.URL request = http.URL req0
        /\ http.Body request = data
        /\ http.RHeader request
           = [("Authorization", ["Bearer " ++ tok]); ("Content-Type", ["application/json"])]).
Proof.
  unfold Client_send. run.
  destruct (http.NewRequest _ _ _) as [req0 | e1] eqn:Er;
    [| left; split; [reflexivity | exists e1; split; reflexivity]].
  destruct (token (tokenProvider_ c) tt) as [tok | e1].
  - right. right. exists req0, tok.
    exists (http.addHeader (http.addHeader req0 "Authorization" ("Bearer " ++ tok))
              "Content-Type" "application/json").
    destruct (NewRequest_fields _ _ _ _ Er) as [Hb [Hh [Hl Hm]]].
    split; [| split; [reflexivity | split; [reflexivity | split; [exact Hm |
              split; [reflexivity | split; [exact Hb |]]]]]].
    + destruct (http.Do (client c) _) as [[resp | e2] unread]; cbn [fst snd].
      * destruct (negb _); cbn [snd]; [rewrite <- !app_assoc; reflexivity |].
        destruct (Decode_MessageResponse _); cbn [snd].
        -- destruct (_ <? _)%Z; cbn [snd]; rewrite <- !app_assoc; reflexivity.
        -- rewrite <- !app_assoc; reflexivity.
      * cbn [snd]. rewrite <- !app_assoc. reflexivity.
    + cbn [http.addHeader http.RHeader]. rewrite Hh. reflexivity.
  - right. left. exists req0, e1. cbn [fst snd]. rewrite <- app_assoc.
    split; [reflexivity |]. split; reflexivity.
Qed.

(** X13: once the transport has answered, [send] fails with an [HttpError]
    for every status other than 200; for 200 it returns the error of the
    decoder if the body does not decode and otherwise the text after the last
    slash of the decoded name (the final return of the source is never
    reached). *)
Theorem X13_send_outcome (c : Client) (data : string) (w : World)
  (req0 : http.Request) (tok : string) (resp : http.Response) (unread : string) :
  http.NewRequest "POST" (sendEndpoint c) data = Ok req0 ->
  token (tokenProvider_ c) tt = Ok tok ->
  http.Do (client c)
    (http.addHeader (http.addHeader req0 "Authorization" ("Bearer " ++ tok))
       "Content-Type" "application/json") = (Ok resp, unread) ->
  (http.StatusCode resp <> http.StatusOK ->
     exists requestDump responseDump text,
       fst (Client_send c data w)
       = Err (HttpError requestDump responseDump (errorString text))
       /\ (forall d, http.DumpResponse resp = Ok d -> responseDump = d))
  /\ (http.StatusCode resp = http.StatusOK ->
      (forall e, Decode_MessageResponse (http.RBody resp) = Err e ->
         fst (Client_send c data w) = Err e)
      /\ (forall response, Decode_MessageResponse (http.RBody resp) = Ok response ->
            fst (Client_send c data w) = Ok (afterLastSlash (MRName response)))).
Proof.
  intros Hr Ht Hdo.
  assert (Hsend : fst (Client_send c data w)
                  = if negb (http.StatusCode resp =? http.StatusOK)%Z
                    then Err (batchHttpError
                                (http.withBody
                                   (http.addHeader
                                      (http.addHeader req0 "Authorization" ("Bearer " ++ tok))
                                      "Content-Type" "application/json") unread) resp)
                    else match Decode_MessageResponse (http.RBody resp) with
                         | Ok response => Ok (afterLastSlash (MRName response))
                         | Err e => Err e
                         end).
  { unfold Client_send. run. rewrite Hr, Ht, Hdo.
    destruct (negb _); [reflexivity |].
    destruct (Decode_MessageResponse (http.RBody resp)) as [response |]; [| reflexivity].
    pose proof (LastIndex_range (MRName response) "/") as R.
    replace (strings.LastIndex (MRName response) "/"
             <? Z.of_nat (String.length (MRName response)))%Z with true
      by (symmetry; apply Z.ltb_lt; lia).
    rewrite slice_afterLastSlash. reflexivity. }
  split.
  - intros Hne. apply Z.eqb_neq in Hne. rewrite Hsend, Hne. cbn [negb].
    unfold batchHttpError.
    destruct (http.StatusInternalServerError <=? http.StatusCode resp)%Z;
      do 3 eexists; (split; [reflexivity |]);
      intros d Hd; rewrite Hd; reflexivity.
  - intros He. apply Z.eqb_eq in He. rewrite Hsend, He. cbn [negb].
    split.
    + intros e Hd. rewrite Hd. reflexivity.
    + intros response Hd. rewrite Hd. reflexivity.
Qed.

Section SendOne.
Context {P : Payloads} {methods : MessageMethods} {decl : SendRequestDecl}.

(** X14: [Send] returns the error of [Validate] as it is, and the error of the
    JSON encoding of a valid request, with the call log unchanged; a call that
    returns a message id validated the message, sent its JSON encoding as the
    body of one request to the transport, and the id holds no slash. *)
Theorem X14_Send (c : Client) (req : SendRequest) (w : World) :
  (forall err, Validate (SRMessage req) = Some err ->
     Client_Send c (Some req) w = (Returns (Err err), w))
  /\ (forall err, Validate (SRMessage req) = None -> Marshal_SendRequest req = Err err ->
        Client_Send c (Some req) w = (Returns (Err err), w))
  /\ (forall id w', Client_Send c (Some req) w = (Returns (Ok id), w') ->
        Validate (SRMessage req) = None
        /\ exists data req0 request,
             Marshal_SendRequest req = Ok data
             /\ w' = (w ++ [EvRequestBuilt req0; EvToken; EvDo request])%list
             /\ http.Body request = data
             /\ str.all notSlash id = true).
Proof.
  unfold Client_Send. split; [| split].
  - intros err H. rewrite H. reflexivity.
  - intros err H Hm. rewrite H, Hm. reflexivity.
  - intros id w' H.
    destruct (Validate (SRMessage req)); [discriminate H |].
    destruct (Marshal_SendRequest req) as [data |]; [| discriminate H].
    destruct (Client_send c data w) as [r w1] eqn:E.
    injection H as -> <-.
    split; [reflexivity |].
    pose proof (send_id_no_slash c data w w1 id E) as Hid.
    destruct (send_ok_log c data w w1 id E) as [req0 [request [Hw Hb]]].
    exists data, req0, request.
    split; [reflexivity |]. split; [exact Hw |]. split; [exact Hb | exact Hid].
Qed.

End SendOne.

(** ** The single-message path and the batch path *)

Lemma Decode_accepts_Unmarshal (b : string) (result : fcmResponse) :
  Unmarshal_fcmResponse b = Ok result ->
  Decode_MessageResponse (io.ofString b) = Ok {| MRName := Name result |}.
Proof.
  unfold Unmarshal_fcmResponse, Decode_MessageResponse, Decoder_Decode, json.Parse.
  cbn [io.data io.ofString].
  destruct (json.parseValue (S (String.length b)) b) as [[v r] |]; [| discriminate].
  destruct (String.eqb (json.skipWS r) EmptyString); [| discriminate].
  cbn [bindR]. intros H.
  destruct v; try discriminate H.
  - injection H as <-. reflexivity.
  - rewrite H. reflexivity.
Qed.

(** X23: the two paths on the same answer: for a body that a 200 part of a
    batch response and a 200 answer to a single message both hold, whenever
    the batch decoder returns an outcome, it is a success and [send] returns
    the text after the last slash of that outcome's message id. *)
Theorem X23_single_and_batch_ids (c : Client) (data : string) (w : World)
  (req0 : http.Request) (tok : string) (resp : http.Response) (unread : string)
  (part : multipart.Part) (hr : http.Response) (b : string) (sr : SendResponse) :
  http.ReadResponse (multipart.content part) = Ok hr ->
  http.StatusCode hr = http.StatusOK ->
  io.ReadAll (http.RBody hr) = Ok b ->
  newSendResponse part = Ok sr ->
  http.NewRequest "POST" (sendEndpoint c) data = Ok req0 ->
  token (tokenProvider_ c) tt = Ok tok ->
  http.Do (client c)
    (http.addHeader (http.addHeader req0 "Authorization" ("Bearer " ++ tok))
       "Content-Type" "application/json") = (Ok resp, unread) ->
  http.StatusCode resp = http.StatusOK ->
  http.RBody resp = io.ofString b ->
  Success sr = true
  /\ fst (Client_send c data w) = Ok (afterLastSlash (MessageID sr)).
Proof.
  intros Hr Hs Hb Hsr Hreq Htok Hdo Hs' Hbody.
  unfold newSendResponse in Hsr. rewrite Hr, Hb in Hsr. cbn [bindR] in Hsr.
  rewrite Hs in Hsr. cbn [Z.eqb http.StatusOK Pos.eqb negb] in Hsr.
  destruct (Unmarshal_fcmResponse b) as [result |] eqn:Eu; [| discriminate Hsr].
  cbn [bindR] in Hsr. injection Hsr as <-. cbn [Success MessageID].
  split; [reflexivity |].
  pose proof (Decode_accepts_Unmarshal b result Eu) as Hd. rewrite <- Hbody in Hd.
  unfold Client_send. run. rewrite Hreq, Htok, Hdo, Hs'.
  cbn [Z.eqb http.StatusOK Pos.eqb negb]. rewrite Hd. cbn [MRName].
  pose proof (LastIndex_range (Name result) "/") as R.
  replace (strings.LastIndex (Name result) "/" <? Z.of_nat (String.length (Name result)))%Z
    with true by (symmetry; apply Z.ltb_lt; lia).
  rewrite slice_afterLastSlash. reflexivity.
Qed.

(** ** The constructor and its options *)

(** X15: the option [WithEndpoints] fails exactly if the endpoint is empty,
    leaving the client as it was; otherwise it stores the endpoint and the
    batch endpoint, whatever the latter is (the empty string too), and
    changes nothing else, in particular not the send endpoint; it never
    returns the error [invalid batchEndpoint]. *)
Theorem X15_WithEndpoints (endpoint batch : string) (c : Client) :
  (endpoint = EmptyString ->
     WithEndpoints endpoint batch c = (c, Some (errorString "invalid endpoint")))
  /\ (endpoint <> EmptyString ->
      exists c',
        WithEndpoints endpoint batch c = (c', None)
        /\ fcmEndpoint c' = endpoint
        /\ batchEndpoint c' = batch
        /\ sendEndpoint c' = sendEndpoint c
        /\ projectID c' = projectID c
        /\ client c' = client c
        /\ tokenProvider_ c' = tokenProvider_ c)
  /\ snd (WithEndpoints endpoint batch c) <> Some (errorString "invalid batchEndpoint").
Proof.
  unfold WithEndpoints. split; [| split].
  - intros ->. reflexivity.
  - intros H. apply String.eqb_neq in H. rewrite H.
    eexists. split; [reflexivity |]. repeat split.
  - destruct (String.eqb endpoint EmptyString); cbn [snd]; intros H; discriminate H.
Qed.

Lemma PackageOption_keeps (o : Option) (c : Client) :
  PackageOption o ->
  sendEndpoint (fst (o c)) = sendEndpoint c
  /\ projectID (fst (o c)) = projectID c
  /\ tokenProvider_ (fst (o c)) = tokenProvider_ c.
Proof.
  intros [endpoint batch | h].
  - unfold WithEndpoints. destruct (String.eqb endpoint EmptyString); repeat split.
  - repeat split.
Qed.

Lemma applyOptions_keeps (opts : list Option) :
  forall c c',
    Forall PackageOption opts ->
    applyOptions c opts = Ok c' ->
    sendEndpoint c' = sendEndpoint c
    /\ projectID c' = projectID c
    /\ tokenProvider_ c' = tokenProvider_ c.
Proof.
  induction opts as [| o opts IH]; intros c c' Hall H; simpl in H.
  - injection H as <-. repeat split.
  - inversion Hall as [| ? ? Ho Hopts]; subst.
    pose proof (PackageOption_keeps o c Ho) as [K1 [K2 K3]].
    destruct (o c) as [c1 [err |]]; [discriminate H |].
    destruct (IH c1 c' Hopts H) as [J1 [J2 J3]]. cbn [fst] in K1, K2, K3.
    repeat split; congruence.
Qed.

Section Construction.
Context {rt : Runtime}.

(** X16: the client [NewClient] returns for options of this package has the
    send endpoint made of the default endpoint and the project id, whatever
    endpoints the options set; it has the project id given and the token
    provider made from the credentials location. *)
Theorem X16_NewClient_sendEndpoint (projectId credentialsLocation : string)
  (opts : list Option) (c : Client) :
  Forall PackageOption opts ->
  NewClient projectId credentialsLocation opts = Ok c ->
  sendEndpoint c
  = "https://fcm.googleapis.com/v1/projects/" ++ projectId ++ "/messages:send"
  /\ projectID c = projectId
  /\ newTokenProvider credentialsLocation = Ok (tokenProvider_ c).
Proof.
  intros Hall H. unfold NewClient in H.
  destruct (newTokenProvider credentialsLocation) as [tp |]; [| discriminate H].
  cbn [bindR] in H.
  destruct (applyOptions_keeps opts _ c Hall H) as [K1 [K2 K3]].
  cbn in K1, K2, K3. rewrite K1, K2, K3. repeat split.
Qed.

(** X17: [NewClient] fails with the error of the token provider's
    construction, whatever the options; it applies the options in order, and
    the first option that fails ends it with that option's error, the options
    after it not being applied. *)
Theorem X17_NewClient_options (projectId credentialsLocation : string)
  (before after : list Option) (o : Option) :
  (forall e, newTokenProvider credentialsLocation = Err e ->
     NewClient projectId credentialsLocation (before ++ o :: after) = Err e)
  /\ (forall c c1 err,
        NewClient projectId credentialsLocation before = Ok c ->
        o c = (c1, Some err) ->
        NewClient projectId credentialsLocation (before ++ o :: after) = Err err)
  /\ (forall c c1,
        NewClient projectId credentialsLocation before = Ok c ->
        o c = (c1, None) ->
        NewClient projectId credentialsLocation (before ++ o :: after)
        = applyOptions c1 after).
Proof.
  assert (Happ : forall opts c0 c, applyOptions c0 opts = Ok c ->
                   forall rest, applyOptions c0 (opts ++ rest) = applyOptions c rest).
  { induction opts as [| o' opts IH]; intros c0 c H rest; simpl in *.
    - injection H as <-. reflexivity.
    - destruct (o' c0) as [c' [e |]]; [discriminate H |]. apply (IH _ _ H). }
  unfold NewClient. split; [| split].
  - intros e H. rewrite H. reflexivity.
  - intros c c1 err H Ho.
    destruct (newTokenProvider credentialsLocation) as [tp |]; [| discriminate H].
    cbn [bindR] in *. rewrite (Happ _ _ _ H). simpl. rewrite Ho. reflexivity.
  - intros c c1 H Ho.
    destruct (newTokenProvider credentialsLocation) as [tp |]; [| discriminate H].
    cbn [bindR] in *. rewrite (Happ _ _ _ H). simpl. rewrite Ho. reflexivity.
Qed.

End Construction.

Section Endpoints.
Context {P : Payloads} {methods : MessageMethods} {rt : Runtime}.

(** X18: for a client made by [NewClient] with options of this package, every
    item of a batch names the send URL under the default endpoint, also when
    [WithEndpoints] set another endpoint. *)
Theorem X18_items_default_endpoint (projectId credentialsLocation : string)
  (opts : list Option) (c : Client) (dry : bool) (ms : list (ptr Message))
  (ps : list part) :
  Forall PackageOption opts ->
  NewClient projectId credentialsLocation opts = Ok c ->
  newBatchRequest_parts c dry [(apiFormatVersionHeader, apiFormatVersion)] 0 ms = Ok ps ->
  Forall (fun p => url p
                   = "https://fcm.googleapis.com/v1/projects/" ++ projectId
                     ++ "/messages:send") ps.
Proof.
  intros Hall Hc Hps.
  unfold NewClient in Hc.
  destruct (newTokenProvider credentialsLocation) as [tp |]; [| discriminate Hc].
  cbn [bindR] in Hc.
  destruct (applyOptions_keeps opts _ c Hall Hc) as [K1 _]. cbn in K1.
  destruct (assembly_aux c dry ms ps Hps) as [_ ->].
  apply Forall_forall. intros p Hp. apply in_map_iff in Hp as [m [<- _]].
  cbn [batchItem url]. exact K1.
Qed.

End Endpoints.

(** ** The command line tool *)

Section CommandLine.
Context {P : Payloads} {methods : MessageMethods} {rt : Runtime} {tool : ToolDecl}.

(** X19: with a client and 1 to 500 tokens, the command line tool runs the
    batch exchange on one message per token, with empty topic and condition,
    and with the dry-run flag set exactly if the [validate-only] flag is not;
    it prints the indented JSON of the result or returns the error. *)
Theorem X19_setupNotification_dry_run (f : Flags) (c : Client) (w : World) :
  NewClient (flag_projectID f) (flag_credentialsLocation f) [] = Ok c ->
  (1 <= List.length (flag_tokens f) <= maxMessages)%nat ->
  setupNotification f w
  = (Returns (result <- fst (sendBatch_exchange c (List.map (flagsTarget f) (flag_tokens f))
                               (negb (flag_validateOnly f)) w) ;;
              MarshalIndent result),
     snd (sendBatch_exchange c (List.map (flagsTarget f) (flag_tokens f))
            (negb (flag_validateOnly f)) w)).
Proof.
  intros Hc [Hlo Hhi]. unfold setupNotification. rewrite Hc.
  assert (Hto : toMessages (flagsMessage f)
                = Returns (Ok (List.map (flagsTarget f) (flag_tokens f)))).
  { unfold flagsMessage, toMessages, MulticastMessage_toMessages. cbn [Tokens MMessage].
    replace (List.length (flag_tokens f) =? 0)%nat with false
      by (symmetry; apply Nat.eqb_neq; lia).
    replace (maxMessages <? List.length (flag_tokens f))%nat with false
      by (symmetry; apply Nat.ltb_ge; lia).
    reflexivity. }
  assert (Hlen : (1 <= List.length (List.map (flagsTarget f) (flag_tokens f))
                  <= maxMessages)%nat) by (rewrite length_map; lia).
  unfold SendMulticast, SendMulticastDryRun, SendAll, SendAllDryRun. rewrite Hto.
  rewrite !(sendBatch_within_bounds c _ _ Hlen).
  destruct (flag_validateOnly f); cbn [negb];
    destruct (sendBatch_exchange c _ _ w) as [[r | e] w1]; reflexivity.
Qed.

(** X20: without tokens the command line tool fails with [tokens must not be
    nil or empty] and sends nothing, whatever topic and condition are given;
    with more than 500 tokens it fails with the error of the fan-out. *)
Theorem X20_setupNotification_needs_tokens (f : Flags) (c : Client) (w : World) :
  NewClient (flag_projectID f) (flag_credentialsLocation f) [] = Ok c ->
  (flag_tokens f = [] ->
     setupNotification f w
     = (Returns (Err (errorString "tokens must not be nil or empty")), w))
  /\ ((maxMessages < List.length (flag_tokens f))%nat ->
      setupNotification f w
      = (Returns (Err (errorString "tokens must not contain more than 500 elements")), w)).
Proof.
  intros Hc. unfold setupNotification. rewrite Hc.
  unfold SendMulticast, SendMulticastDryRun, flagsMessage, toMessages,
    MulticastMessage_toMessages. cbn [Tokens MMessage].
  split.
  - intros ->. cbn [List.length Nat.eqb]. destruct (flag_validateOnly f); reflexivity.
  - intros H.
    replace (List.length (flag_tokens f) =? 0)%nat with false
      by (symmetry; apply Nat.eqb_neq; unfold maxMessages in H; lia).
    replace (maxMessages <? List.length (flag_tokens f))%nat with true
      by (symmetry; apply Nat.ltb_lt; lia).
    destruct (flag_validateOnly f); reflexivity.
Qed.

End CommandLine.

(** ** Reading the batch request back *)

Lemma slices_line (l rest : string) :
  noLF l ->
  multipart.slices (l ++ String str.LF rest)
  = (l ++ String str.LF EmptyString, rest) :: multipart.slices rest.
Proof.
  unfold noLF. induction l as [| x l IH]; simpl; intros H.
  - reflexivity.
  - apply andb_true_iff in H as [Hx Hl]. apply negb_true_iff in Hx.
    rewrite Hx, (IH Hl). reflexivity.
Qed.

(** A pattern that starts with a byte its other bytes differ from does not
    begin inside [s] and end in what follows, when what follows starts with
    that byte. *)
Lemma HasPrefix_app_other (c0 : ascii) (t : string) :
  forall s p,
    str.HasPrefix s p = false ->
    str.all (fun x => negb (Ascii.eqb x c0)) p = true ->
    str.HasPrefix (s ++ String c0 t) p = false.
Proof.
  induction s as [| a s IH]; intros p H Hp.
  - destruct p as [| x p]; [discriminate H |].
    cbn [str.all] in Hp. apply andb_true_iff in Hp as [Hx _].
    apply negb_true_iff in Hx. cbn. rewrite Ascii.eqb_sym, Hx. reflexivity.
  - destruct p as [| x p]; [discriminate H |].
    cbn [str.all] in Hp. apply andb_true_iff in Hp as [_ Hp].
    cbn in *. destruct (Ascii.eqb a x); [| reflexivity].
    cbn in *. apply IH; assumption.
Qed.

Lemma HasPrefix_suffix (a : ascii) (s t : string) :
  str.HasPrefix (String a s) nlDashBoundary = false ->
  str.HasPrefix (String a s ++ nlDashBoundary ++ t) nlDashBoundary = false.
Proof.
  intros H.
  change nlDashBoundary with (String str.CR (String str.LF "--__END_OF_PART__")) in H |- * at 2.
  cbn [str.HasPrefix String.append] in *.
  destruct (Ascii.eqb a str.CR); [| reflexivity]. cbn [andb] in *.
  change (nlDashBoundary ++ t) with (String str.CR (String str.LF "--__END_OF_PART__" ++ t)).
  apply HasPrefix_app_other; [exact H | reflexivity].
Qed.

Lemma scanUntilBoundary_item (b t : string) :
  freeOf nlDashBoundary b = true ->
  multipart.matchAfterPrefix t = true ->
  multipart.scanUntilBoundary (b ++ nlDashBoundary ++ t) nlDashBoundary = (b, nlDashBoundary ++ t, true).
Proof.
  intros Hb Ht.
  assert (Hat : multipart.atBoundary (nlDashBoundary ++ t) nlDashBoundary = true).
  { unfold multipart.atBoundary.
    assert (Hp : str.HasPrefix (nlDashBoundary ++ t) nlDashBoundary = true).
    { unfold nlDashBoundary, str.CRLF, multipartBoundary. cbn. destruct t; reflexivity. }
    rewrite Hp.
    change (str.drop (String.length nlDashBoundary) (nlDashBoundary ++ t)) with t.
    rewrite Ht. reflexivity. }
  induction b as [| a b IH].
  - cbn [String.append].
    change (nlDashBoundary ++ t) with (String str.CR (String str.LF "--__END_OF_PART__" ++ t)) at 1.
    cbn [multipart.scanUntilBoundary].
    change (String str.CR (String str.LF "--__END_OF_PART__" ++ t)) with (nlDashBoundary ++ t).
    rewrite Hat. reflexivity.
  - cbn [freeOf] in Hb. apply andb_true_iff in Hb as [Ha Hb].
    apply negb_true_iff in Ha.
    cbn [String.append multipart.scanUntilBoundary].
    change (String a (b ++ nlDashBoundary ++ t)) with (String a b ++ nlDashBoundary ++ t).
    unfold multipart.atBoundary at 1.
    rewrite (HasPrefix_suffix a b t Ha). cbn [andb].
    cbn [String.append]. rewrite (IH Hb). reflexivity.
Qed.

Lemma Itoa_plain (n : nat) :
  noLF (strconv.Itoa n)
  /\ str.all (fun c => negb (str.isSpaceTab c)) (strconv.Itoa n) = true.
Proof.
  split; (eapply all_impl; [| apply Itoa_digits]); intros c Hc; apply digit_plain, Hc.
Qed.

Lemma ReadMIMEHeader_part (b rest : string) (i : nat) :
  textproto.ReadMIMEHeader (partHeaderText b i ++ rest) = Ok (partHeader b i, rest).
Proof.
  set (n1 := strconv.Itoa (i + 1)).
  set (n2 := strconv.Itoa (String.length b)).
  destruct (Itoa_plain (i + 1)) as [Hn1_lf Hn1_sp]. fold n1 in Hn1_lf, Hn1_sp.
  destruct (Itoa_plain (String.length b)) as [Hn2_lf Hn2_sp]. fold n2 in Hn2_lf, Hn2_sp.
  assert (Hn1_ne : n1 <> EmptyString) by apply Itoa_not_empty.
  assert (Hn2_ne : n2 <> EmptyString) by apply Itoa_not_empty.
  set (l1 := "Content-Id: " ++ n1).
  set (l2 := "Content-Length: " ++ n2).
  set (l3 := "Content-Transfer-Encoding: binary").
  set (l4 := "Content-Type: application/http").
  set (cr := String str.CR EmptyString).
  set (r4 := (cr ++ String str.LF rest)).
  set (r3 := (l4 ++ cr) ++ String str.LF r4).
  set (r2 := (l3 ++ cr) ++ String str.LF r3).
  set (r1 := (l2 ++ cr) ++ String str.LF r2).
  assert (E : partHeaderText b i ++ rest = (l1 ++ cr) ++ String str.LF r1).
  { unfold partHeaderText, r1, r2, r3, r4, l1, l2, l3, l4, cr, str.CRLF. fold n1 n2.
    norm_str. reflexivity. }
  rewrite E.
  assert (Elines : textproto.rawLines ((l1 ++ cr) ++ String str.LF r1)
                   = (l1 ++ cr, r1) :: (l2 ++ cr, r2) :: (l3 ++ cr, r3)
                     :: (l4 ++ cr, r4) :: (cr, rest) :: textproto.rawLines rest).
  { unfold r1, r2, r3, r4.
    repeat (rewrite rawLines_line;
            [| unfold l1, l2, l3, l4, cr; repeat apply noLF_app; try reflexivity; assumption]).
    reflexivity. }
  unfold textproto.ReadMIMEHeader. rewrite Elines.
  change (textproto.startsWithSpace (l1 ++ cr)) with false. cbv iota.
  cbn [List.length].
  rewrite (readFields_step _ (l1 ++ cr) r1 _ _ _ "Content-Id" (String " " n1)).
  2:{ unfold cr. rewrite chomp_CR. reflexivity. }
  2:{ reflexivity. }
  2:{ unfold cr. rewrite chomp_CR. unfold textproto.trim, l1.
      rewrite (Trim_guarded str.isSpaceTab "C" "ontent-Id: " n1) by (reflexivity || assumption).
      apply (Cut_app ":" "Content-Id"). reflexivity. }
  2,3: reflexivity.
  rewrite (readFields_step _ (l2 ++ cr) r2 _ _ _ "Content-Length" (String " " n2)).
  2:{ unfold cr. rewrite chomp_CR. reflexivity. }
  2:{ reflexivity. }
  2:{ unfold cr. rewrite chomp_CR. unfold textproto.trim, l2.
      rewrite (Trim_guarded str.isSpaceTab "C" "ontent-Length: " n2)
        by (reflexivity || assumption).
      apply (Cut_app ":" "Content-Length"). reflexivity. }
  2,3: reflexivity.
  rewrite (readFields_step _ (l3 ++ cr) r3 _ _ _ "Content-Transfer-Encoding" " binary").
  2:{ unfold cr. rewrite chomp_CR. reflexivity. }
  2:{ reflexivity. }
  2:{ unfold cr. rewrite chomp_CR. reflexivity. }
  2,3: reflexivity.
  rewrite (readFields_step _ (l4 ++ cr) r4 _ _ _ "Content-Type" " application/http").
  2:{ unfold cr. rewrite chomp_CR. reflexivity. }
  2:{ reflexivity. }
  2:{ unfold cr. rewrite chomp_CR. reflexivity. }
  2,3: reflexivity.
  cbn [textproto.readFields].
  change (String.eqb (textproto.chomp cr) "") with true. cbv iota.
  change (str.TrimLeft str.isSpaceTab (String " " n1))
    with (str.TrimLeft str.isSpaceTab n1).
  change (str.TrimLeft str.isSpaceTab (String " " n2))
    with (str.TrimLeft str.isSpaceTab n2).
  rewrite (TrimLeft_all _ n1 Hn1_sp), (TrimLeft_all _ n2 Hn2_sp).
  rewrite partHeader_exact. reflexivity.
Qed.

Lemma HasPrefix_nil (s : string) : str.HasPrefix s EmptyString = true.
Proof. destruct s; reflexivity. Qed.

Lemma atBoundary_body (b t : string) :
  str.HasPrefix b "--" = false ->
  multipart.atBoundary (b ++ nlDashBoundary ++ t) ("--" ++ multipartBoundary) = false.
Proof.
  intros H. unfold multipart.atBoundary.
  assert (Hp : str.HasPrefix (b ++ nlDashBoundary ++ t) ("--" ++ multipartBoundary) = false).
  { destruct b as [| a [| a2 b]].
    - reflexivity.
    - cbn in *. destruct (Ascii.eqb a "-"); reflexivity.
    - cbn in *. rewrite HasPrefix_nil in H.
      destruct (Ascii.eqb a "-"); [| reflexivity].
      destruct (Ascii.eqb a2 "-"); [discriminate H | reflexivity]. }
  rewrite Hp. reflexivity.
Qed.

Lemma newPart_item (k i : nat) (b t : string) :
  delimiterFree b = true ->
  multipart.matchAfterPrefix t = true ->
  multipart.newPart (envReader (partHeaderText b i ++ b ++ nlDashBoundary ++ t) (S k))
    (partHeaderText b i ++ b ++ nlDashBoundary ++ t)
  = Ok (envPart b i, envReader (nlDashBoundary ++ t) (S k)).
Proof.
  intros Hb Ht. unfold delimiterFree in Hb. apply andb_true_iff in Hb as [Hfree Hdash].
  apply negb_true_iff in Hdash.
  unfold multipart.newPart. rewrite ReadMIMEHeader_part.
  unfold multipart.partBody.
  change (multipart.boundary (envReader _ (S k))) with multipartBoundary.
  change (multipart.nl (envReader _ (S k))) with str.CRLF.
  rewrite (atBoundary_body b t Hdash).
  change (str.CRLF ++ "--" ++ multipartBoundary) with nlDashBoundary.
  rewrite (scanUntilBoundary_item b t Hfree Ht).
  reflexivity.
Qed.

Lemma nextPartLoop_delimiter (rest0 : string) (k i : nat) (e : bool) (b t : string) :
  delimiterFree b = true ->
  multipart.matchAfterPrefix t = true ->
  multipart.nextPartLoop (envReader rest0 k)
    (multipart.slices (dashBoundary ++ str.CRLF ++ partHeaderText b i ++ b ++ nlDashBoundary ++ t)) e
  = Ok (envPart b i, envReader (nlDashBoundary ++ t) (S k)).
Proof.
  intros Hb Ht.
  set (after := partHeaderText b i ++ b ++ nlDashBoundary ++ t).
  assert (E : dashBoundary ++ str.CRLF ++ after
              = (dashBoundary ++ String str.CR EmptyString) ++ String str.LF after).
  { unfold dashBoundary, str.CRLF. norm_str. reflexivity. }
  rewrite E, slices_line by reflexivity.
  cbn [multipart.nextPartLoop].
  change (negb (multipart.terminated _)) with false. cbv iota.
  unfold multipart.isBoundaryDelimiterLine.
  change (multipart.boundary (envReader rest0 k)) with multipartBoundary.
  change (multipart.nl (envReader rest0 k)) with str.CRLF.
  change (str.HasPrefix _ ("--" ++ multipartBoundary)) with true. cbv iota.
  change (multipart.skipLWSPChar _) with str.CRLF.
  change (String.eqb str.CRLF (String str.LF EmptyString)) with false.
  rewrite andb_false_r.
  change (String.eqb str.CRLF str.CRLF) with true. cbv iota.
  apply (newPart_item k i b t Hb Ht).
Qed.

Lemma NextPart_first (i : nat) (b t : string) :
  delimiterFree b = true ->
  multipart.matchAfterPrefix t = true ->
  multipart.NextPart
    (envReader (dashBoundary ++ str.CRLF ++ partHeaderText b i ++ b ++ nlDashBoundary ++ t) 0)
  = Ok (envPart b i, envReader (nlDashBoundary ++ t) 1).
Proof.
  intros Hb Ht. unfold multipart.NextPart.
  change (String.eqb (multipart.boundary _) EmptyString) with false. cbv iota.
  change (multipart.rest (envReader ?r 0)) with r.
  cbn [multipart.rest envReader].
  apply nextPartLoop_delimiter; assumption.
Qed.

Lemma NextPart_later (k i : nat) (b t : string) :
  delimiterFree b = true ->
  multipart.matchAfterPrefix t = true ->
  multipart.NextPart
    (envReader (nlDashBoundary ++ str.CRLF ++ partHeaderText b i ++ b ++ nlDashBoundary ++ t) (S k))
  = Ok (envPart b i, envReader (nlDashBoundary ++ t) (S (S k))).
Proof.
  intros Hb Ht. unfold multipart.NextPart.
  change (String.eqb (multipart.boundary _) EmptyString) with false. cbv iota.
  cbn [multipart.rest envReader].
  set (after := partHeaderText b i ++ b ++ nlDashBoundary ++ t).
  assert (E : nlDashBoundary ++ str.CRLF ++ after
              = String str.CR EmptyString
                ++ String str.LF (dashBoundary ++ str.CRLF ++ after)).
  { unfold nlDashBoundary, dashBoundary, str.CRLF. norm_str. reflexivity. }
  rewrite E, slices_line by reflexivity.
  cbn [multipart.nextPartLoop].
  change (negb (multipart.terminated _)) with false. cbv iota.
  unfold multipart.isBoundaryDelimiterLine.
  cbn [multipart.boundary multipart.nl multipart.partsRead].
  change (str.HasPrefix _ ("--" ++ multipartBoundary)) with false. cbv iota.
  change (multipart.isFinalBoundary _ _) with false. cbv iota.
  change (String.eqb _ str.CRLF) with true. cbv iota.
  cbn [Nat.eqb].
  apply (nextPartLoop_delimiter _ (S k) i true b t Hb Ht).
Qed.

Lemma NextPart_closing (k : nat) :
  multipart.NextPart (envReader closeDelimiter k) = Err io_EOF.
Proof.
  destruct k; reflexivity.
Qed.

Lemma envelopeFrom_shape (i : nat) (encoded : list string) :
  exists t, envelopeFrom (S i) encoded = nlDashBoundary ++ t /\ multipart.matchAfterPrefix t = true.
Proof.
  destruct encoded as [| b rest].
  - exists ("--" ++ str.CRLF). split; reflexivity.
  - exists (str.CRLF ++ partHeaderText b (S i) ++ b ++ envelopeFrom (S (S i)) rest).
    split; [| reflexivity].
    unfold envelopeFrom. cbn [specParts]. unfold specPart, partHeaderText, nlDashBoundary, str.CRLF,
      multipartBoundary. cbn [Nat.eqb]. norm_str. reflexivity.
Qed.

Lemma envelopeFrom_cons_later (i : nat) (b : string) (rest : list string) :
  envelopeFrom (S i) (b :: rest)
  = nlDashBoundary ++ str.CRLF ++ partHeaderText b (S i) ++ b ++ envelopeFrom (S (S i)) rest.
Proof.
  unfold envelopeFrom. cbn [specParts]. unfold specPart, partHeaderText, nlDashBoundary, str.CRLF,
    multipartBoundary. cbn [Nat.eqb]. norm_str. reflexivity.
Qed.

Lemma envelopeFrom_cons_first (b : string) (rest : list string) :
  envelopeFrom 0 (b :: rest)
  = dashBoundary ++ str.CRLF ++ partHeaderText b 0 ++ b ++ envelopeFrom 1 rest.
Proof.
  unfold envelopeFrom. cbn [specParts]. unfold specPart, partHeaderText, dashBoundary, str.CRLF,
    multipartBoundary. cbn [Nat.eqb]. norm_str. reflexivity.
Qed.

Lemma envelope_parts_later (encoded : list string) :
  forall i,
    Forall (fun b => delimiterFree b = true) encoded ->
    PartsOf (envReader (envelopeFrom (S i) encoded) (S i)) (envelopeParts (S i) encoded).
Proof.
  induction encoded as [| b rest IH]; intros i Hall.
  - exists (envReader closeDelimiter (S i)). split; [constructor | apply NextPart_closing].
  - inversion Hall as [| ? ? Hb Hrest]; subst.
    destruct (IH (S i) Hrest) as [mr' [Hreach Hend]].
    exists mr'. split; [| exact Hend].
    cbn [envelopeParts].
    apply Reaches_cons with (mr1 := envReader (envelopeFrom (S (S i)) rest) (S (S i)));
      [| exact Hreach].
    rewrite envelopeFrom_cons_later.
    destruct (envelopeFrom_shape (S i) rest) as [t [-> Ht]].
    apply (NextPart_later i (S i) b t Hb Ht).
Qed.

Lemma envelope_read_back (encoded : list string) :
  Forall (fun b => delimiterFree b = true) encoded ->
  PartsOf (multipart.NewReader (io.ofString (specEnvelope "__END_OF_PART__" encoded))
             "__END_OF_PART__")
    (envelopeParts 0 encoded).
Proof.
  intros Hall.
  change (multipart.NewReader (io.ofString (specEnvelope "__END_OF_PART__" encoded))
            "__END_OF_PART__")
    with (envReader (specEnvelope "__END_OF_PART__" encoded) 0).
  assert (E : specEnvelope "__END_OF_PART__" encoded = envelopeFrom 0 encoded).
  { unfold specEnvelope, envelopeFrom, closeDelimiter, nlDashBoundary, multipartBoundary, str.CRLF.
    norm_str. reflexivity. }
  rewrite E.
  destruct encoded as [| b rest].
  - exists (envReader closeDelimiter 0). split; [constructor | apply NextPart_closing].
  - inversion Hall as [| ? ? Hb Hrest]; subst.
    destruct (envelope_parts_later rest 0 Hrest) as [mr' [Hreach Hend]].
    exists mr'. split; [| exact Hend].
    cbn [envelopeParts].
    apply Reaches_cons with (mr1 := envReader (envelopeFrom 1 rest) 1); [| exact Hreach].
    rewrite envelopeFrom_cons_first.
    destruct (envelopeFrom_shape 0 rest) as [t [-> Ht]].
    apply (NextPart_first 0 b t Hb Ht).
Qed.

Lemma freeOf_segment (l rest : string) :
  noLF l ->
  str.HasPrefix rest "-" = false ->
  freeOf nlDashBoundary (l ++ String str.LF rest) = freeOf nlDashBoundary rest.
Proof.
  unfold noLF. intros Hl Hrest.
  induction l as [| a l IH].
  - cbn [String.append freeOf]. reflexivity.
  - cbn [str.all] in Hl. apply andb_true_iff in Hl as [_ Hl].
    cbn [String.append freeOf]. rewrite (IH Hl).
    assert (Hp : str.HasPrefix (String a (l ++ String str.LF rest)) nlDashBoundary = false).
    { change nlDashBoundary with (String str.CR (String str.LF "--__END_OF_PART__")).
      cbn [str.HasPrefix]. destruct (Ascii.eqb a str.CR); [| reflexivity]. cbn [andb].
      destruct l as [| a' l'].
      - cbn [String.append str.HasPrefix].
        destruct rest as [| x rest]; [reflexivity |].
        cbn in Hrest |- *. rewrite HasPrefix_nil, andb_true_r in Hrest.
        rewrite Hrest. reflexivity.
      - cbn [str.all] in Hl. apply andb_true_iff in Hl as [Ha' _].
        apply negb_true_iff in Ha'. cbn [String.append str.HasPrefix].
        rewrite Ha'. reflexivity. }
    rewrite Hp. reflexivity.
Qed.

Lemma itemWire_delimiterFree (ruri host json : string) :
  noLF ruri -> noLF host ->
  str.HasPrefix json "-" = false ->
  freeOf nlDashBoundary json = true ->
  delimiterFree (itemWire ruri host json) = true.
Proof.
  intros Hruri Hhost Hstart Hjson.
  set (n := strconv.Itoa (String.length json)).
  assert (Hn : noLF n) by apply Itoa_plain.
  unfold delimiterFree. apply andb_true_iff. split; [| reflexivity].
  set (cr := String str.CR EmptyString).
  set (l1 := ("POST " ++ ruri ++ " HTTP/1.1") ++ cr).
  set (l2 := ("Host: " ++ host) ++ cr).
  set (l3 := ("Content-Length: " ++ n) ++ cr).
  set (l4 := "Content-Type: application/json; charset=UTF-8" ++ cr).
  set (l5 := "X-Goog-Api-Format-Version: 2" ++ cr).
  assert (E : itemWire ruri host json
              = l1 ++ String str.LF (l2 ++ String str.LF (l3 ++ String str.LF
                  (l4 ++ String str.LF (l5 ++ String str.LF (cr ++ String str.LF json)))))).
  { unfold itemWire, l1, l2, l3, l4, l5, cr, str.CRLF. fold n. norm_str. reflexivity. }
  rewrite E.
  rewrite freeOf_segment;
    [| unfold l1, cr; repeat apply noLF_app; try reflexivity; assumption | reflexivity].
  rewrite freeOf_segment;
    [| unfold l2, cr; repeat apply noLF_app; try reflexivity; assumption | reflexivity].
  rewrite freeOf_segment;
    [| unfold l3, cr; repeat apply noLF_app; try reflexivity; assumption | reflexivity].
  rewrite freeOf_segment; [| reflexivity | reflexivity].
  rewrite freeOf_segment; [| reflexivity | reflexivity].
  rewrite freeOf_segment; [exact Hjson | reflexivity | exact Hstart].
Qed.

Section RoundTrip.


Context {P : Payloads} {methods : MessageMethods}.

Lemma Marshal_fcmRequest_brace (r : fcmRequest) (json : string) :
  Marshal_fcmRequest r = Ok json -> exists t, json = String "{" t.
Proof.
  unfold Marshal_fcmRequest. intros H.
  destruct (match Message_ r with None => _ | Some m => _ end) as [ms |]; [| discriminate H].
  cbn [bindR] in H. injection H as <-. eexists. reflexivity.
Qed.

(** X21: when the delimiter occurs in none of the encoded items, a multipart
    reader with the boundary of the envelope reads what [Bytes] returns back
    as one part per item, in order, with the four headers [writeTo] gave it
    and the encoded item as its content, and then meets the end. *)
Theorem X21_Bytes_read_back (e : multipartEntity) (bytes : string) :
  multipartEntity_Bytes e = Ok bytes ->
  exists encoded,
    Forall2 (fun p b => part_bytes p = Ok b) (parts e) encoded
    /\ (Forall (fun b => delimiterFree b = true) encoded ->
        PartsOf (multipart.NewReader (io.ofString bytes) "__END_OF_PART__")
          (envelopeParts 0 encoded)).
Proof.
  intros H. destruct (Bytes_envelope e bytes H) as [encoded [Hall ->]].
  exists encoded. split; [exact Hall |]. apply envelope_read_back.
Qed.

Lemma item_parses (c : Client) (m : ptr Message) (dry : bool) (b : string) :
  part_bytes (batchItem c m dry) = Ok b ->
  exists u json,
    url.Parse (sendEndpoint c) = Ok u
    /\ Marshal_fcmRequest {| Message_ := m; ValidateOnly := dry |} = Ok json
    /\ http.ReadRequest b
       = Ok (itemParsed (url.RequestURI u) (http.removeEmptyPort (url.Host u)) json).
Proof.
  intros H.
  destruct (part_bytes_batchItem c m dry b H) as [u [json [Hu [Hj ->]]]].
  exists u, json. split; [exact Hu |]. split; [exact Hj |].
  destruct (Parse_ok _ _ Hu) as [Hpath Hauth].
  destruct (removeEmptyPort_ok _ Hauth) as [Hne Hhost].
  apply ReadRequest_itemWire; [| exact Hne | exact Hhost].
  unfold url.RequestURI. destruct (String.eqb (url.Path u) EmptyString); [reflexivity |].
  eapply all_impl; [| exact Hpath].
  intros x Hx. destruct (pathByte_plain x Hx) as [H1 H2]. rewrite H1, H2. reflexivity.
Qed.

Lemma item_delimiter_free (c : Client) (m : ptr Message) (dry : bool) (b : string) :
  part_bytes (batchItem c m dry) = Ok b ->
  exists json,
    Marshal_fcmRequest {| Message_ := m; ValidateOnly := dry |} = Ok json
    /\ (freeOf nlDashBoundary json = true -> delimiterFree b = true).
Proof.
  intros H.
  destruct (part_bytes_batchItem c m dry b H) as [u [json [Hu [Hj ->]]]].
  exists json. split; [exact Hj |]. intros Hfree.
  destruct (Parse_ok _ _ Hu) as [Hpath Hauth].
  destruct (removeEmptyPort_ok _ Hauth) as [_ Hhost].
  destruct (Marshal_fcmRequest_brace _ _ Hj) as [t ->].
  apply itemWire_delimiterFree; [| | reflexivity | exact Hfree].
  - unfold url.RequestURI. destruct (String.eqb (url.Path u) EmptyString); [reflexivity |].
    eapply all_impl; [| exact Hpath]. intros x Hx. apply pathByte_plain, Hx.
  - eapply all_impl; [| exact Hhost]. intros x Hx. apply hostByte_plain, Hx.
Qed.

(** X22: the request [newBatchRequest] returns can be decoded by the steps
    the package decodes a batch response with: its content type parses to
    [multipart/mixed] with the boundary parameter, and a multipart reader with
    that boundary reads its body back as one part per message, in order,
    whose content parses as the POST request of that message with its JSON
    body; this holds when the delimiter occurs in none of the JSON
    encodings. *)
Theorem X22_request_read_back (c : Client) (ms : list (ptr Message)) (dry : bool)
  (w w' : World) (req : http.Request) :
  newBatchRequest c ms dry w = (Ok req, w') ->
  (forall m json, In m ms ->
     Marshal_fcmRequest {| Message_ := m; ValidateOnly := dry |} = Ok json ->
     freeOf nlDashBoundary json = true) ->
  exists params encoded,
    mime.ParseMediaType (textproto.Get (http.RHeader req) "Content-Type")
    = Ok ("multipart/mixed", params)
    /\ mime.get params "boundary" = "__END_OF_PART__"
    /\ PartsOf (multipart.NewReader (io.ofString (http.Body req))
                  (mime.get params "boundary"))
         (envelopeParts 0 encoded)
    /\ Forall2 (fun m b =>
                  exists u json,
                    url.Parse (sendEndpoint c) = Ok u
                    /\ Marshal_fcmRequest {| Message_ := m; ValidateOnly := dry |} = Ok json
                    /\ http.ReadRequest b
                       = Ok (itemParsed (url.RequestURI u)
                               (http.removeEmptyPort (url.Host u)) json))
         ms encoded.
Proof.
  intros H Hfree.
  destruct (newBatchRequest_inv c ms dry w w' req H)
    as [tok [encoded [req0 [_ [_ [Hall [Hr [-> _]]]]]]]].
  destruct (NewRequest_fields _ _ _ _ Hr) as [Hb [Hh _]].
  exists [("boundary", "__END_OF_PART__")], encoded.
  split; [cbn [http.addHeader http.RHeader]; rewrite Hh; vm_compute; reflexivity |].
  split; [reflexivity |].
  split.
  - change (mime.get [("boundary", "__END_OF_PART__")] "boundary") with "__END_OF_PART__".
    cbn [http.addHeader http.Body]. rewrite Hb.
    apply envelope_read_back.
    clear - Hall Hfree. induction Hall as [| m b ms' encoded' Hm Hrest IH]; constructor.
    + destruct (item_delimiter_free c m dry b Hm) as [json [Hj Hd]].
      apply Hd, (Hfree m json); [left; reflexivity | exact Hj].
    + apply IH. intros m' json' Hin. apply Hfree. right. exact Hin.
  - clear - Hall. induction Hall as [| m b ms' encoded' Hm Hrest IH]; constructor.
    + apply item_parses, Hm.
    + exact IH.
Qed.

End RoundTrip.

(** * The further properties at concrete inputs *)

Lemma X1_witness :
  exists ms,
    @toMessages exPayloads
      (Some {| Tokens := ["device-a"; "device-b"];
               MMessage := Some (@mkMessage exPayloads EmptyString "news" "'a' in topics"
                                   tt tt tt tt tt) |})
    = Returns (Ok ms)
    /\ Forall (fun m => exists x, m = Some x /\ @Topic exPayloads x = EmptyString
                                  /\ @Condition exPayloads x = EmptyString) ms.
Proof.
  eexists. split; [reflexivity |].
  destruct (@X1_toMessages_targets exPayloads
              (Some {| Tokens := ["device-a"; "device-b"];
                       MMessage := Some (@mkMessage exPayloads EmptyString "news"
                                           "'a' in topics" tt tt tt tt tt) |})
              _ eq_refl) as [mm [msg [Hmm [_ Hall]]]].
  injection Hmm as <-. cbn [Tokens] in Hall.
  inversion Hall as [| ? ? ? ? [x1 [E1 [_ H1]]] Hall1]; subst.
  inversion Hall1 as [| ? ? ? ? [x2 [E2 [_ H2]]] Hall2]; subst.
  inversion Hall2; subst.
  repeat constructor; eexists; (split; [eassumption | assumption]).
Defined.

Lemma X2_witness :
  @SendMulticast exPayloads exMethods exReady
    (Some {| Tokens := ["device-a"; "device-b"]; MMessage := exMessage "shared" |}) []
  = (Returns (fst (@sendBatch_exchange exPayloads exMethods exReady [exA; exB] false [])),
     snd (@sendBatch_exchange exPayloads exMethods exReady [exA; exB] false []))
  /\ @SendMulticast exPayloads exMethods exReady None []
     = (Returns (Err (errorString "message must not be nil")), []).
Proof.
  split.
  - apply (proj1 (@X2_SendMulticast exPayloads exMethods exReady
                    (Some {| Tokens := ["device-a"; "device-b"];
                             MMessage := exMessage "shared" |}) [])).
    reflexivity.
  - apply (proj1 (proj2 (@X2_SendMulticast exPayloads exMethods exReady None []))).
    reflexivity.
Defined.

Lemma X3_witness :
  @newBatchRequest_parts exPayloads exMethods exReady true
    [(apiFormatVersionHeader, apiFormatVersion)] 0 [exA; exB]
  = Ok [batchItem exReady exA true; batchItem exReady exB true].
Proof.
  apply (proj1 (@X3_assembly_all_valid exPayloads exMethods exReady true [exA; exB])).
  repeat constructor.
Defined.

Lemma X4_witness :
  exists req w',
    @newBatchRequest exPayloads exMethods exReady [exA; exB] false [] = (Ok req, w')
    /\ http.RHeader req
       = [("Authorization", ["Bearer token"]);
          ("Content-Type", ["multipart/mixed; boundary=__END_OF_PART__"])]
    /\ http.Method req = "POST".
Proof.
  destruct (@newBatchRequest exPayloads exMethods exReady [exA; exB] false []) as [r w'] eqn:E.
  assert (Hok : exists req, r = Ok req).
  { pose proof E as E'. vm_compute in E'. injection E' as <- _. eexists. reflexivity. }
  destruct Hok as [req ->]. exists req, w'. split; [reflexivity |].
  destruct (@X4_newBatchRequest_ok exPayloads exMethods exReady [exA; exB] false [] w' req E)
    as [tok [encoded [req0 [Ht [_ [_ [_ [Hm [_ [_ [_ [Hh _]]]]]]]]]]]].
  injection Ht as <-. split; [exact Hh | exact Hm].
Defined.

Lemma X6_witness :
  exists request w1,
    sendBatchEx (exClient exDown (Ok "token")) [exA] false
    = (Err (errorString "dial tcp: connection refused"), (w1 ++ [EvDo request])%list).
Proof.
  pose (c := exClient exDown (Ok "token")).
  destruct (@newBatchRequest exPayloads exMethods c [exA] false []) as [r w1] eqn:E.
  assert (Hok : exists req, r = Ok req).
  { pose proof E as E'. vm_compute in E'. injection E' as <- _. eexists. reflexivity. }
  destruct Hok as [request ->]. exists request, w1.
  apply (@X6_transport_error exPayloads exMethods c [exA] false [] w1 request
           (errorString "dial tcp: connection refused") EmptyString).
  - simpl. unfold maxMessages. lia.
  - exact E.
  - reflexivity.
Defined.

Lemma X7_witness :
  Error (batchHttpError exOuterRequest exNotFound) = "404 error: 404 Not Found"
  /\ Error (batchHttpError exOuterRequest
              (exResponse "503 Service Unavailable" 503 "text/plain" []))
     = "503 error: 503 Service Unavailable".
Proof.
  split.
  - apply (X7_HttpError_text exOuterRequest exNotFound). reflexivity.
  - apply (X7_HttpError_text exOuterRequest
             (exResponse "503 Service Unavailable" 503 "text/plain" [])). reflexivity.
Defined.

Lemma X8_witness :
  @newBatchRequest exPayloads exFailingMethods exReady [exA; exB; exA] false []
  = (Err (errorString "json: unsupported value"), []).
Proof.
  destruct (@part_bytes exPayloads exFailingMethods (batchItem exReady exA false))
    as [b |] eqn:E; [| vm_compute in E; discriminate E].
  apply (@X8_encoder_failure exPayloads exFailingMethods exReady false [] [exA] [exA] exB [b]
           (errorString "json: unsupported value")).
  - repeat constructor.
  - constructor; [exact E | constructor].
  - vm_compute. reflexivity.
Defined.

Lemma X9_witness :
  @newSendResponse exEmptyObjectPart
  = Ok {| Success := true; MessageID := EmptyString; ErrorCode := 0;
          ErrorBody := EmptyString |}.
Proof.
  destruct (http.ReadResponse (multipart.content exEmptyObjectPart)) as [hr |] eqn:E;
    [| vm_compute in E; discriminate E].
  pose proof E as E'. vm_compute in E'. injection E' as Hhr.
  apply (X9_missing_name exEmptyObjectPart hr "{}" E).
  - rewrite <- Hhr. reflexivity.
  - rewrite <- Hhr. reflexivity.
  - right. exists []. split; [vm_compute; reflexivity | constructor].
Defined.

Lemma X10_witness :
  (0 <= SuccessCount exSyntheticResult <= 2)%Z
  /\ (0 <= FailureCount exSyntheticResult <= 2)%Z.
Proof.
  assert (H : newBatchResponse exSynthetic = Ok exSyntheticResult)
    by (vm_compute; reflexivity).
  destruct (X10_response_counts exSynthetic exSyntheticResult H) as [H1 [H2 _]].
  split; [exact H1 | exact H2].
Defined.

Lemma X11_witness :
  exists w',
    Client_send (exClient (answering exSingle) (Ok "token")) "{}" [] = (Ok "123", w')
    /\ str.all notSlash "123" = true.
Proof.
  destruct (Client_send (exClient (answering exSingle) (Ok "token")) "{}" [])
    as [r w'] eqn:E.
  assert (Hr : r = Ok "123").
  { pose proof E as E'. vm_compute in E'. injection E' as <- _. reflexivity. }
  subst r. exists w'. split; [reflexivity |].
  destruct (X11_send_message_id _ _ _ _ _ E) as [? [? [? [? [_ [_ [_ [_ [H _]]]]]]]]].
  exact H.
Defined.

Lemma X13_witness :
  (exists requestDump responseDump text,
     fst (Client_send (exClient (answering exNotFound) (Ok "token")) "{}" [])
     = Err (HttpError requestDump responseDump (errorString text)))
  /\ fst (Client_send (exClient (answering exSingle) (Ok "token")) "{}" []) = Ok "123".
Proof.
  destruct (http.NewRequest "POST" (defaultEndpoint ++ "/projects/p/messages:send") "{}")
    as [req0 |] eqn:E; [| vm_compute in E; discriminate E].
  split.
  - destruct (proj1 (X13_send_outcome (exClient (answering exNotFound) (Ok "token")) "{}" []
                       req0 "token" exNotFound EmptyString E eq_refl eq_refl))
      as [rq [rs [text [H _]]]].
    + intros H. discriminate H.
    + exists rq, rs, text. exact H.
  - apply (proj2 (proj2 (X13_send_outcome (exClient (answering exSingle) (Ok "token")) "{}" []
                           req0 "token" exSingle EmptyString E eq_refl eq_refl)
                    eq_refl)
             {| MRName := "projects/p/messages/123" |}).
    vm_compute. reflexivity.
Defined.

Lemma X14_witness :
  @Client_Send exPayloads exMethods exSendRequestDecl exReady
    (Some (@mkMessage exPayloads EmptyString "news" EmptyString tt tt tt tt tt)) []
  = (Returns (Err (errorString "no target given")), []).
Proof.
  apply (proj1 (@X14_Send exPayloads exMethods exSendRequestDecl exReady
                  (@mkMessage exPayloads EmptyString "news" EmptyString tt tt tt tt tt) [])).
  reflexivity.
Defined.

Lemma X15_witness :
  WithEndpoints EmptyString "https://example.test/batch" exReady
  = (exReady, Some (errorString "invalid endpoint"))
  /\ exists c', WithEndpoints "https://example.test/v1" EmptyString exReady = (c', None)
                /\ batchEndpoint c' = EmptyString.
Proof.
  split.
  - apply (proj1 (X15_WithEndpoints EmptyString "https://example.test/batch" exReady)).
    reflexivity.
  - destruct (proj1 (proj2 (X15_WithEndpoints "https://example.test/v1" EmptyString exReady)))
      as [c' [H [_ [Hb _]]]].
    + intros H. discriminate H.
    + exists c'. split; [exact H | exact Hb].
Defined.

Lemma X16_witness :
  exists c,
    @NewClient exRuntime "p" "key.json"
      [WithEndpoints "https://example.test/v1" "https://example.test/batch";
       WithHTTPClient exDown] = Ok c
    /\ fcmEndpoint c = "https://example.test/v1"
    /\ sendEndpoint c = "https://fcm.googleapis.com/v1/projects/p/messages:send".
Proof.
  eexists. split; [reflexivity |]. split; [reflexivity |].
  apply (@X16_NewClient_sendEndpoint exRuntime "p" "key.json"
           [WithEndpoints "https://example.test/v1" "https://example.test/batch";
            WithHTTPClient exDown]).
  - repeat constructor.
  - reflexivity.
Defined.

Lemma X17_witness :
  @NewClient exRuntime "p" "key.json"
    ([WithHTTPClient exDown] ++ WithEndpoints EmptyString "b" :: [WithHTTPClient exDown])
  = Err (errorString "invalid endpoint")
  /\ @NewClient exRuntime "p" EmptyString ([] ++ WithHTTPClient exDown :: [])
     = Err (errorString "credentials: no location given").
Proof.
  split.
  - eapply (proj1 (proj2 (@X17_NewClient_options exRuntime "p" "key.json"
                            [WithHTTPClient exDown] [WithHTTPClient exDown]
                            (WithEndpoints EmptyString "b")))).
    + reflexivity.
    + reflexivity.
  - apply (proj1 (@X17_NewClient_options exRuntime "p" EmptyString [] []
                    (WithHTTPClient exDown))).
    reflexivity.
Defined.

Lemma X18_witness :
  exists c,
    @NewClient exRuntime "p" "key.json" [WithEndpoints "https://example.test/v1" "b"] = Ok c
    /\ Forall (fun p => @url exPayloads p
                        = "https://fcm.googleapis.com/v1/projects/p/messages:send")
         [batchItem c exA false].
Proof.
  eexists. split; [reflexivity |].
  eapply (@X18_items_default_endpoint exPayloads exMethods exRuntime "p" "key.json"
            [WithEndpoints "https://example.test/v1" "b"] _ false [exA]).
  - repeat constructor.
  - reflexivity.
  - reflexivity.
Defined.

Lemma X19_witness :
  @setupNotification exPayloads exMethods exRuntime exTool
    (exFlags ["device-a"; "device-b"] true) []
  = (Returns (result <- fst (@sendBatch_exchange exPayloads exMethods exReady
                               [exA; exB] false []) ;;
              @MarshalIndent exPayloads exTool result),
     snd (@sendBatch_exchange exPayloads exMethods exReady [exA; exB] false [])).
Proof.
  apply (@X19_setupNotification_dry_run exPayloads exMethods exRuntime exTool
           (exFlags ["device-a"; "device-b"] true) exReady []).
  - reflexivity.
  - simpl. unfold maxMessages. lia.
Defined.

Lemma X20_witness :
  @setupNotification exPayloads exMethods exRuntime exTool (exFlags [] false) []
  = (Returns (Err (errorString "tokens must not be nil or empty")), []).
Proof.
  apply (proj1 (@X20_setupNotification_needs_tokens exPayloads exMethods exRuntime exTool
                  (exFlags [] false) exReady [] eq_refl)).
  reflexivity.
Defined.

Lemma X21_witness :
  exists bytes ps,
    @multipartEntity_Bytes exPayloads exMethods
      {| parts := [batchItem exReady exA false; batchItem exReady exB false] |} = Ok bytes
    /\ PartsOf (multipart.NewReader (io.ofString bytes) "__END_OF_PART__") ps
    /\ List.length ps = 2%nat.
Proof.
  pose (e := {| parts := [batchItem exReady exA false; batchItem exReady exB false] |}).
  destruct (@multipartEntity_Bytes exPayloads exMethods e) as [bytes | err] eqn:E;
    [| vm_compute in E; discriminate E].
  destruct (@X21_Bytes_read_back exPayloads exMethods e bytes E) as [encoded [Hall Hread]].
  exists bytes, (envelopeParts 0 encoded). split; [exact E |].
  unfold e in Hall. cbn [parts] in Hall.
  inversion Hall as [| ? b1 ? enc1 H1 Hall1]; subst.
  inversion Hall1 as [| ? b2 ? enc2 H2 Hall2]; subst.
  inversion Hall2; subst.
  split; [| reflexivity].
  apply Hread.
  vm_compute in H1. injection H1 as <-.
  vm_compute in H2. injection H2 as <-.
  repeat constructor.
Defined.

Lemma X22_witness :
  exists req w' params encoded,
    @newBatchRequest exPayloads exMethods exReady [exA; exB] true [] = (Ok req, w')
    /\ mime.ParseMediaType (textproto.Get (http.RHeader req) "Content-Type")
       = Ok ("multipart/mixed", params)
    /\ PartsOf (multipart.NewReader (io.ofString (http.Body req))
                  (mime.get params "boundary"))
         (envelopeParts 0 encoded)
    /\ List.length encoded = 2%nat.
Proof.
  destruct (@newBatchRequest exPayloads exMethods exReady [exA; exB] true []) as [r w'] eqn:E.
  assert (Hok : exists req, r = Ok req).
  { pose proof E as E'. vm_compute in E'. injection E' as <- _. eexists. reflexivity. }
  destruct Hok as [req ->].
  destruct (@X22_request_read_back exPayloads exMethods exReady [exA; exB] true [] w' req E)
    as [params [encoded [Hp [_ [Hread Hall]]]]].
  - intros m json [<- | [<- | []]] Hj; vm_compute in Hj; injection Hj as <-;
      vm_compute; reflexivity.
  - exists req, w', params, encoded.
    split; [reflexivity |]. split; [exact Hp |]. split; [exact Hread |].
    apply Forall2_length in Hall. symmetry. exact Hall.
Defined.

Lemma X23_witness :
  exists sr,
    newSendResponse exNamedPart = Ok sr
    /\ MessageID sr = "projects/p/messages/123"
    /\ fst (Client_send (exClient (answering exSingle) (Ok "token")) "{}" []) = Ok "123".
Proof.
  destruct (newSendResponse exNamedPart) as [sr |] eqn:E; [| vm_compute in E; discriminate E].
  exists sr. split; [reflexivity |].
  assert (Hid : MessageID sr = "projects/p/messages/123").
  { pose proof E as E'. vm_compute in E'. injection E' as <-. reflexivity. }
  split; [exact Hid |].
  destruct (http.ReadResponse (multipart.content exNamedPart)) as [hr |] eqn:Er;
    [| vm_compute in Er; discriminate Er].
  destruct (http.NewRequest "POST" (defaultEndpoint ++ "/projects/p/messages:send") "{}")
    as [req0 |] eqn:Eq; [| vm_compute in Eq; discriminate Eq].
  pose proof Er as Er'. vm_compute in Er'. injection Er' as Hhr.
  assert (H : Success sr = true
              /\ fst (Client_send (exClient (answering exSingle) (Ok "token")) "{}" [])
                 = Ok (afterLastSlash (MessageID sr))).
  { apply (X23_single_and_batch_ids (exClient (answering exSingle) (Ok "token")) "{}" []
             req0 "token" exSingle EmptyString exNamedPart hr exName123 sr);
      try reflexivity; try assumption; rewrite <- Hhr; reflexivity. }
  destruct H as [_ H]. rewrite H, Hid. reflexivity.
Defined.
